(** * Marketplace backend: listing, ownership and envelope properties

    A shallow embedding of the three Express route modules
    - [src/unnamed/part_000]           (vehicle routes, module [Vehicles]),
    - [src/server/routes/materials.js] (module [Materials]),
    - [src/server/routes/users.js]     (module [Users]),
    preceded by what the handlers rely on: the part of the JavaScript
    runtime they use ([JS]), the validation chains ([Validator]), the
    persistence layer ([Db]) and the request-handling monad ([Express]).

    Handlers are programs in a state-and-exception monad over a [world]:
    the database tables plus a journal of the calls handed to the
    persistence layer.  A reference to an identifier that the enclosing
    module never binds raises [ReferenceError], as it does in JavaScript.
    The properties follow the definitions, one section per claim. *)

From Stdlib Require Import ZArith QArith Qround String Ascii List Lia DecimalString.
From stdpp Require Import gmap strings list.
Close Scope Q_scope.

(* ================================================================== *)
(** ** JavaScript runtime *)
(* ================================================================== *)

Module JS.

(** Non-integral numbers are finite decimals [mant * 10 ^ expo]; rounding to
    binary64, overflow to Infinity and signed zero are not modelled.
    Integers obtained from [parseInt] and from row counts are plain [Z]. *)
Record number := Num { mant : Z; expo : Z }.

Definition of_Z (z : Z) : number := Num z 0.

Definition scaled (n : number) (e : Z) : Z := (mant n * 10 ^ (expo n - e))%Z.

Definition num_cmp (a b : number) : comparison :=
  let e := Z.min (expo a) (expo b) in (scaled a e ?= scaled b e)%Z.

Definition num_eqb (a b : number) : bool :=
  match num_cmp a b with Eq => true | _ => false end.

Definition num_leb (a b : number) : bool :=
  match num_cmp a b with Gt => false | _ => true end.

Definition num_is_zero (n : number) : bool := (mant n =? 0)%Z.

#[global] Instance number_eq_dec : EqDecision number.
Proof. solve_decision. Defined.

Scheme All for list.
Scheme All for prod.

Inductive jsval :=
| JUndef
| JNull
| JBool (b : bool)
| JNum (n : number)
| JNaN
| JStr (s : string)
| JArr (l : list jsval)
| JObj (fields : list (string * jsval)).

Definition JInt (z : Z) : jsval := JNum (of_Z z).

Definition jsval_eq_dec_aux (a : jsval) : forall b : jsval, {a = b} + {a <> b}.
Proof.
  induction a as [| | x | x | | x | l IH | fs IH] using jsval_rect;
    intros b; destruct b as [| | y | y | | y | l' | fs'];
    try (right; discriminate); try (left; reflexivity).
  - destruct (decide (x = y)); [left; congruence | right; congruence].
  - destruct (decide (x = y)); [left; congruence | right; congruence].
  - destruct (decide (x = y)); [left; congruence | right; congruence].
  - assert (D : {l = l'} + {l <> l'}).
    { revert l'. induction IH as [| a Ha l _ IHl]; intros [| b l'];
        try (right; discriminate); try (left; reflexivity).
      destruct (Ha b); [| right; congruence].
      destruct (IHl l'); [left; congruence | right; congruence]. }
    destruct D; [left; congruence | right; congruence].
  - assert (D : {fs = fs'} + {fs <> fs'}).
    { revert fs'. induction IH as [| a Ha l _ IHl]; intros [| b l'];
        try (right; discriminate); try (left; reflexivity).
      destruct Ha as [k _ v Hv]. destruct b as [k' v'].
      destruct (decide (k = k')); [| right; congruence].
      destruct (Hv v'); [| right; congruence].
      destruct (IHl l'); [left; congruence | right; congruence]. }
    destruct D; [left; congruence | right; congruence].
Defined.

#[global] Instance jsval_eq_dec : EqDecision jsval := jsval_eq_dec_aux.

(** Property read [o.k] on an object held as a finite map: a missing key
    reads as [undefined]. *)
Definition prop (o : gmap string jsval) (k : string) : jsval :=
  default JUndef (o !! k).

(** [assoc k fields] reads key [k] of an object literal. *)
Fixpoint assoc (k : string) (fields : list (string * jsval)) : option jsval :=
  match fields with
  | [] => None
  | (k', v) :: rest => if String.eqb k k' then Some v else assoc k rest
  end.

(** ToBoolean. *)
Definition truthy (v : jsval) : bool :=
  match v with
  | JUndef | JNull | JNaN => false
  | JBool b => b
  | JNum n => negb (num_is_zero n)
  | JStr s => negb (String.eqb s "")
  | JArr _ | JObj _ => true
  end.

(** Strict equality [===] on primitives; NaN equals nothing.  Two arrays or objects are equal
    only when they are the same reference; the values compared in the
    handlers come from different allocations, so they compare unequal. *)
Definition strict_eq (a b : jsval) : bool :=
  match a, b with
  | JUndef, JUndef => true
  | JNull, JNull => true
  | JBool x, JBool y => Bool.eqb x y
  | JNum x, JNum y => num_eqb x y
  | JStr x, JStr y => String.eqb x y
  | _, _ => false
  end.

(** *** Characters and digit strings

    Text is held as the bytes of its UTF-8 encoding: a character outside
    ASCII takes two to four bytes, the first a lead byte and the others
    continuation bytes (10xxxxxx). *)

(** White space of one byte: U+0009 to U+000D and U+0020. *)
Definition is_ws (c : ascii) : bool :=
  let n := N_of_ascii c in
  (n =? 32)%N || (n =? 9)%N || (n =? 10)%N || (n =? 11)%N || (n =? 12)%N || (n =? 13)%N.

(** White space of two bytes: U+00A0. *)
Definition is_ws2 (c1 c2 : ascii) : bool :=
  (N_of_ascii c1 =? 194)%N && (N_of_ascii c2 =? 160)%N.

(** White space of three bytes: U+1680, U+2000 to U+200A, U+2028, U+2029,
    U+202F, U+205F, U+3000 and U+FEFF. *)
Definition is_ws3 (c1 c2 c3 : ascii) : bool :=
  let a := N_of_ascii c1 in
  let b := N_of_ascii c2 in
  let c := N_of_ascii c3 in
  (a =? 225)%N && (b =? 154)%N && (c =? 128)%N
  || (a =? 226)%N && (b =? 128)%N
     && ((128 <=? c)%N && (c <=? 138)%N || (c =? 168)%N || (c =? 169)%N || (c =? 175)%N)
  || (a =? 226)%N && (b =? 129)%N && (c =? 159)%N
  || (a =? 227)%N && (b =? 128)%N && (c =? 128)%N
  || (a =? 239)%N && (b =? 187)%N && (c =? 191)%N.

Definition digit_of (c : ascii) : option Z :=
  let n := Z.of_N (N_of_ascii c) in
  if (48 <=? n)%Z && (n <=? 57)%Z then Some (n - 48)%Z else None.

(** Drops the white space at the head of the text: the characters that
    [\s] matches, which are also those that [parseInt] and [parseFloat]
    skip. *)
Fixpoint skip_ws (s : string) : string :=
  match s with
  | String c1 r1 =>
      if is_ws c1 then skip_ws r1
      else
        match r1 with
        | String c2 r2 =>
            if is_ws2 c1 c2 then skip_ws r2
            else
              match r2 with
              | String c3 r3 => if is_ws3 c1 c2 c3 then skip_ws r3 else s
              | EmptyString => s
              end
        | EmptyString => s
        end
  | EmptyString => s
  end.

(** The same on the reversed text, where the bytes of a character come
    last byte first. *)
Fixpoint skip_ws_rev (s : string) : string :=
  match s with
  | String c1 r1 =>
      if is_ws c1 then skip_ws_rev r1
      else
        match r1 with
        | String c2 r2 =>
            if is_ws2 c2 c1 then skip_ws_rev r2
            else
              match r2 with
              | String c3 r3 => if is_ws3 c3 c2 c1 then skip_ws_rev r3 else s
              | EmptyString => s
              end
        | EmptyString => s
        end
  | EmptyString => s
  end.

Definition string_rev (s : string) : string :=
  string_of_list_ascii (rev (list_ascii_of_string s)).

(** [trim] of the validation library (and [String.prototype.trim]): white
    space is dropped at both ends. *)
Definition trim (s : string) : string :=
  string_rev (skip_ws_rev (string_rev (skip_ws s))).

(** The number of characters (code points) of a text: the bytes that are
    not continuation bytes. *)
Definition is_continuation (c : ascii) : bool :=
  let n := N_of_ascii c in (128 <=? n)%N && (n <=? 191)%N.

Fixpoint code_points (s : string) : nat :=
  match s with
  | String c r => (if is_continuation c then 0 else 1) + code_points r
  | EmptyString => 0
  end.

Definition strip_sign (s : string) : bool * string :=
  match s with
  | String c r =>
      if Ascii.eqb c "-" then (true, r)
      else if Ascii.eqb c "+" then (false, r)
      else (false, s)
  | EmptyString => (false, s)
  end.

(** Longest prefix of decimal digits: accumulated value, number of digits
    read, and the unread rest. *)
Fixpoint take_digits (s : string) (acc : Z) (cnt : nat) : Z * nat * string :=
  match s with
  | String c r =>
      match digit_of c with
      | Some d => take_digits r (acc * 10 + d)%Z (S cnt)
      | None => (acc, cnt, s)
      end
  | EmptyString => (acc, cnt, s)
  end.

Definition signed (neg : bool) (z : Z) : Z := if neg then (- z)%Z else z.

(** [parseInt(s)] without a radix, on text; [None] is NaN.  The [0x]
    prefix is not recognised (such text never passes [isInt]).  The
    result is the exact integer: it is the code's value for magnitudes up
    to 2 ^ 53, beyond which the code's value is rounded to binary64. *)
Definition parseInt_string (s : string) : option Z :=
  let '(neg, s1) := strip_sign (skip_ws s) in
  let '(v, n, _) := take_digits s1 0 0 in
  if Nat.eqb n 0 then None else Some (signed neg v).

(** [parseFloat(s)] on text; [None] is NaN.  The literal [Infinity] is not
    recognised (such text never passes [isFloat]). *)
Definition parseFloat_string (s : string) : option number :=
  let '(neg, s1) := strip_sign (skip_ws s) in
  let '(ip, ni, r) := take_digits s1 0 0 in
  let '(m, nf, r') :=
    match r with
    | String "." r1 => take_digits r1 ip 0
    | _ => (ip, 0, r)
    end in
  if Nat.eqb (ni + nf) 0 then None
  else
    let e :=
      match r' with
      | String c r2 =>
          if Ascii.eqb c "e" || Ascii.eqb c "E" then
            let '(eneg, r3) := strip_sign r2 in
            let '(ev, ne, _) := take_digits r3 0 0 in
            if Nat.eqb ne 0 then 0%Z else signed eneg ev
          else 0%Z
      | EmptyString => 0%Z
      end in
    Some (Num (signed neg m) (e - Z.of_nat nf)).

(** *** Numbers to text *)

Definition digits_of_Z (z : Z) : string :=
  DecimalString.NilZero.string_of_uint (N.to_uint (Z.to_N (Z.abs z))).

Fixpoint zeros (n : nat) : string :=
  match n with O => "" | S k => String "0" (zeros k) end.

Fixpoint strip_zeros (fuel : nat) (m e : Z) : Z * Z :=
  match fuel with
  | O => (m, e)
  | S k =>
      if (e <? 0)%Z && negb (m =? 0)%Z && (m mod 10 =? 0)%Z
      then strip_zeros k (m / 10)%Z (e + 1)%Z
      else (m, e)
  end.

(** Positional rendering of a number ([Number.prototype.toString] without
    the exponent form used for very large and very small magnitudes). *)
Definition num_to_string (n : number) : string :=
  let '(m, e) := strip_zeros (Z.to_nat (- expo n)) (mant n) (expo n) in
  let sign := if (m <? 0)%Z then "-" else "" in
  let d := digits_of_Z m in
  if (m =? 0)%Z then "0"
  else if (0 <=? e)%Z then sign +:+ d +:+ zeros (Z.to_nat e)
  else
    let k := Z.to_nat (- e) in
    let len := String.length d in
    if Nat.ltb k len
    then sign +:+ substring 0 (len - k) d +:+ "." +:+ substring (len - k) k d
    else sign +:+ "0." +:+ zeros (k - len) +:+ d.

(** The abstract operation ToString, applied by [parseInt] and
    [parseFloat] to their argument; an array is joined with commas, its
    [null] and [undefined] elements rendered empty. *)
Fixpoint ToString (v : jsval) : string :=
  match v with
  | JUndef => "undefined"
  | JNull => "null"
  | JBool true => "true"
  | JBool false => "false"
  | JNum n => num_to_string n
  | JNaN => "NaN"
  | JStr s => s
  | JArr l =>
      String.concat ","
        (map (fun x => match x with JUndef | JNull => "" | _ => ToString x end) l)
  | JObj _ => "[object Object]"
  end.

Definition parseInt (v : jsval) : option Z := parseInt_string (ToString v).
Definition parseFloat (v : jsval) : jsval :=
  match parseFloat_string (ToString v) with
  | Some n => JNum n
  | None => JNaN
  end.

(** [x || d] for a numeric [x]: NaN and 0 are falsy. *)
Definition or_default (x : option Z) (d : Z) : Z :=
  match x with
  | Some z => if (z =? 0)%Z then d else z
  | None => d
  end.

(** [Math.ceil(a / b)] for integers [a] and [b]: the quotient is the exact
    rational, then rounded up. *)
Definition Math_ceil (q : Q) : Z := Qceiling q.
Definition div (a b : Z) : Q := Qdiv (inject_Z a) (inject_Z b).

(** *** Exceptions *)

Inductive error :=
| ReferenceError (name : string)
| DatabaseError.

Inductive result (A : Type) :=
| Ok (a : A)
| Throw (e : error).
Arguments Ok {A} a.
Arguments Throw {A} e.

End JS.
Export JS.

(* ================================================================== *)
(** ** Validation chains (express-validator) *)
(* ================================================================== *)

Module Validator.

(** The validators of the library that the routes use, on the text form of
    the validated value, and the chains the routes build from them. *)

(** Text form a validator sees: [null], [undefined] and NaN are empty, an
    array is represented by its first element. *)
Definition toString (v : jsval) : string :=
  match v with
  | JUndef | JNull | JNaN => ""
  | JArr (JUndef :: _) | JArr (JNull :: _) | JArr (JNaN :: _) => ""
  | JArr (x :: _) => ToString x
  | _ => ToString v
  end.

(** An optional sign followed by one or more digits and nothing else,
    within the optional bounds. *)
Definition isInt (min max : option Z) (s : string) : bool :=
  let '(neg, s1) := strip_sign s in
  let '(v, n, rest) := take_digits s1 0 0 in
  let z := signed neg v in
  negb (Nat.eqb n 0) && String.eqb rest ""
  && match min with Some lo => (lo <=? z)%Z | None => true end
  && match max with Some hi => (z <=? hi)%Z | None => true end.

(** An optional sign, digits, an optional point with digits, an optional
    exponent with at least one digit, and nothing else. *)
Definition float_syntax (s : string) : bool :=
  let '(_, s1) := strip_sign s in
  let '(_, _, r) := take_digits s1 0 0 in
  let r1 := match r with String "." r0 => snd (take_digits r0 0 0) | _ => r end in
  match r1 with
  | EmptyString => true
  | String c r2 =>
      (Ascii.eqb c "e" || Ascii.eqb c "E")
      && (let '(_, r3) := strip_sign r2 in
          let '(_, ne, r4) := take_digits r3 0 0 in
          negb (Nat.eqb ne 0) && String.eqb r4 "")
  end.

Definition isFloat (min : option number) (s : string) : bool :=
  negb (existsb (String.eqb s) [""; "."; ","; "-"; "+"])
  && float_syntax s
  && match min with
     | Some lo =>
         match parseFloat_string s with
         | Some v => num_leb lo v
         | None => false
         end
     | None => true
     end.

Definition isIn (values : list string) (s : string) : bool :=
  existsb (String.eqb s) values.

(** The length that [isLength] bounds is the number of UTF-16 units less
    the number of surrogate pairs, that is the number of code points. *)
Definition isLength (min : nat) (max : option nat) (s : string) : bool :=
  Nat.leb min (code_points s)
  && match max with Some hi => Nat.leb (code_points s) hi | None => true end.

Definition is_empty_text (s : string) : bool := String.eqb s "".

Definition isBoolean (s : string) : bool :=
  existsb (String.eqb s) ["true"; "false"; "1"; "0"].

Definition isArray (v : jsval) : bool :=
  match v with JArr _ => true | _ => false end.

(** One validator of a chain.  [Matches] carries a validator of the
    library that is taken as given ([isEmail], [isISO8601]). *)
Inductive check :=
| IsInt (min max : option Z)
| IsFloat (min : option number)
| IsIn (values : list string)
| IsLength (min : nat) (max : option nat)
| NotEmpty
| IsBoolean
| IsArray
| Matches (p : string -> bool).

Definition run_check (c : check) (raw : jsval) (s : string) : bool :=
  match c with
  | IsInt lo hi => isInt lo hi s
  | IsFloat lo => isFloat lo s
  | IsIn vs => isIn vs s
  | IsLength lo hi => isLength lo hi s
  | NotEmpty => negb (is_empty_text s)
  | IsBoolean => isBoolean s
  | IsArray => isArray raw
  | Matches p => p s
  end.

Record chain := Chain {
  location : string;
  field : string;
  is_optional : bool;
  has_trim : bool;
  test : check;
  message : string
}.

(** Chain builders: [on_query f c] is [query(f)] followed by validator [c],
    [on_body f c] is [body(f)] followed by [c]; the others are named after
    the calls of the source. *)
Definition on_query (f : string) (c : check) : chain := Chain "query" f false false c "Invalid value".
Definition on_body (f : string) (c : check) : chain := Chain "body" f false false c "Invalid value".
Definition optional (c : chain) : chain :=
  Chain (location c) (field c) true (has_trim c) (test c) (message c).
Definition trimmed (c : chain) : chain :=
  Chain (location c) (field c) (is_optional c) true (test c) (message c).
Definition withMessage (m : string) (c : chain) : chain :=
  Chain (location c) (field c) (is_optional c) (has_trim c) (test c) m.

(** A field-level violation descriptor. *)
Record verror := VError {
  v_value : jsval;
  v_msg : string;
  v_param : string;
  v_location : string
}.

Definition verror_json (e : verror) : jsval :=
  JObj [("value", v_value e); ("msg", JStr (v_msg e));
        ("param", JStr (v_param e)); ("location", JStr (v_location e))].

Definition is_undefined (v : jsval) : bool :=
  match v with JUndef => true | _ => false end.

(** Runs one chain over the request data: an optional chain skips an
    absent field; [trim] rewrites the field in place with the trimmed text;
    a failed validator contributes one descriptor, whose value is the value
    of the field when the validator ran (the trimmed text after [trim]). *)
Definition run_chain (data : gmap string jsval) (c : chain)
  : gmap string jsval * list verror :=
  let raw := prop data (field c) in
  if is_optional c && is_undefined raw then (data, [])
  else
    let s := toString raw in
    let s' := if has_trim c then trim s else s in
    let data' := if has_trim c then <[field c := JStr s']> data else data in
    let value := if has_trim c then JStr s' else raw in
    (data', if run_check (test c) raw s'
            then [] else [VError value (message c) (field c) (location c)]).

Fixpoint run_chains (data : gmap string jsval) (cs : list chain)
  : gmap string jsval * list verror :=
  match cs with
  | [] => (data, [])
  | c :: rest =>
      let '(data1, e1) := run_chain data c in
      let '(data2, e2) := run_chains data1 rest in
      (data2, e1 ++ e2)
  end.

End Validator.
Export Validator.

(* ================================================================== *)
(** ** Persistence layer *)
(* ================================================================== *)

Module Db.

(** The models exported by [../models]. *)
Inductive model := Vehicle | Material | Partner | User | ServiceRequest.

#[global] Instance model_eq_dec : EqDecision model.
Proof. solve_decision. Defined.

(** Operators of [Op] that the routes use. *)
Inductive op := Op_gte | Op_lte | Op_ne.

#[global] Instance op_eq_dec : EqDecision op.
Proof. solve_decision. Defined.

#[global] Instance op_countable : Countable op.
Proof.
  refine (inj_countable'
            (fun o => match o with Op_gte => 0 | Op_lte => 1 | Op_ne => 2 end)
            (fun n => match n with 0 => Op_gte | 1 => Op_lte | _ => Op_ne end) _).
  intros []; reflexivity.
Defined.

(** The value under a key of a [where] object: a plain value (equality) or
    an object keyed by operators. *)
Inductive cond :=
| Equals (v : jsval)
| Ops (m : gmap op jsval).

Inductive direction := ASC | DESC.

Inductive attr_sel :=
| AllAttributes
| Only (names : list string)
| Exclude (names : list string).

Record include := Include {
  inc_model : model;
  inc_as : string;
  inc_attributes : attr_sel
}.

(** Options object of the finder methods. *)
Record findOptions := FindOptions {
  o_where : gmap string cond;
  o_include : list include;
  o_order : list (string * direction);
  o_offset : option Z;
  o_limit : option Z;
  o_attributes : attr_sel;
  o_group : list string
}.

Definition no_options : findOptions :=
  FindOptions ∅ [] [] None None AllAttributes [].

Record row := Row { pk : N; attrs : gmap string jsval }.

Record table := Table { rows : list row; next_pk : N }.

(** The tables, and whether the store can be reached: when it cannot,
    every call throws. *)
Record db := Database {
  vehicles : table;
  materials : table;
  partners : table;
  users : table;
  serviceRequests : table;
  online : bool
}.

Definition table_of (d : db) (m : model) : table :=
  match m with
  | Vehicle => vehicles d
  | Material => materials d
  | Partner => partners d
  | User => users d
  | ServiceRequest => serviceRequests d
  end.

Definition set_table (d : db) (m : model) (t : table) : db :=
  match m with
  | Vehicle => Database t (materials d) (partners d) (users d) (serviceRequests d) (online d)
  | Material => Database (vehicles d) t (partners d) (users d) (serviceRequests d) (online d)
  | Partner => Database (vehicles d) (materials d) t (users d) (serviceRequests d) (online d)
  | User => Database (vehicles d) (materials d) (partners d) t (serviceRequests d) (online d)
  | ServiceRequest => Database (vehicles d) (materials d) (partners d) (users d) t (online d)
  end.

(** *** Query evaluation

    The storage engine and the model definitions of [../models] are outside
    the routes.  The spec assumes a store that provides "a find/count/sort/
    paginate capability over typed records", combines all predicates "with
    logical AND", and returns "the matching records for the current page
    and the total count ignoring pagination".  Joins requested through
    [include] are not materialised. *)

(** Modelled from the spec: the value of column [k] of a stored record;
    the key column is [id]. *)
Definition column (r : row) (k : string) : jsval :=
  if String.eqb k "id" then JInt (Z.of_N (pk r)) else prop (attrs r) k.

Definition sql_leb (a b : jsval) : bool :=
  match a, b with
  | JNum x, JNum y => num_leb x y
  | JStr x, JStr y => match String.compare x y with Gt => false | _ => true end
  | _, _ => false
  end.

Definition holds_op (o : op) (bound v : jsval) : bool :=
  match o with
  | Op_gte => sql_leb bound v
  | Op_lte => sql_leb v bound
  | Op_ne => negb (strict_eq v bound)
  end.

Definition holds (c : cond) (v : jsval) : bool :=
  match c with
  | Equals x => strict_eq v x
  | Ops m => forallb (fun ob => holds_op (fst ob) (snd ob) v) (map_to_list m)
  end.

(** Modelled from the spec: a [where] object is the conjunction of the
    conditions under its keys (the store's predicate evaluation is
    missing from the sources). *)
Definition matches (w : gmap string cond) (r : row) : bool :=
  forallb (fun kc => holds (snd kc) (column r (fst kc))) (map_to_list w).

Definition sql_compare (a b : jsval) : comparison :=
  match a, b with
  | JNum x, JNum y => num_cmp x y
  | JStr x, JStr y => String.compare x y
  | JBool x, JBool y => Nat.compare (Nat.b2n x) (Nat.b2n y)
  | _, _ => Eq
  end.

Fixpoint row_compare (o : list (string * direction)) (r1 r2 : row) : comparison :=
  match o with
  | [] => Eq
  | (k, d) :: rest =>
      match sql_compare (column r1 k) (column r2 k) with
      | Eq => row_compare rest r1 r2
      | c => match d with ASC => c | DESC => CompOpp c end
      end
  end.

Fixpoint insert_sorted (o : list (string * direction)) (r : row) (l : list row) : list row :=
  match l with
  | [] => [r]
  | x :: rest =>
      match row_compare o r x with
      | Gt => x :: insert_sorted o r rest
      | _ => r :: l
      end
  end.

Definition sort_rows (o : list (string * direction)) (l : list row) : list row :=
  foldr (insert_sorted o) [] l.

(** Modelled from the spec: grouping, missing from the sources, is "a
    deduplicating projection" over the grouped attributes; it keeps the
    first record of every distinct key tuple. *)
Fixpoint group_by (keys : list string) (seen : list (list jsval)) (l : list row) : list row :=
  match l with
  | [] => []
  | r :: rest =>
      let k := map (column r) keys in
      if bool_decide (k ∈ seen) then group_by keys seen rest
      else r :: group_by keys (k :: seen) rest
  end.

Definition project (a : attr_sel) (r : row) : row :=
  match a with
  | AllAttributes => r
  | Only names => Row (pk r) (filter (fun kv => fst kv ∈ names) (attrs r))
  | Exclude names => Row (pk r) (filter (fun kv => fst kv ∉ names) (attrs r))
  end.

Definition window (offset limit : option Z) (l : list row) : list row :=
  let l1 := match offset with Some n => drop (Z.to_nat n) l | None => l end in
  match limit with Some n => take (Z.to_nat n) l1 | None => l1 end.

(** Modelled from the spec: the records a query matches, before ordering
    and paging. *)
Definition matching (t : table) (o : findOptions) : list row :=
  List.filter (matches (o_where o)) (rows t).

(** Modelled from the spec: the store's finder, missing from the sources:
    filter, order, group, cut the page window, project the attributes. *)
Definition select (t : table) (o : findOptions) : list row :=
  let sorted := sort_rows (o_order o) (matching t o) in
  let grouped := match o_group o with [] => sorted | g => group_by g [] sorted end in
  map (project (o_attributes o)) (window (o_offset o) (o_limit o) grouped).

(** Modelled from the spec: "the total count ignoring pagination". *)
Definition count (t : table) (o : findOptions) : Z :=
  Z.of_nat (length (matching t o)).

(** Modelled from the spec: lookup, insertion, update and removal of
    single records, each atomic.  How a new record gets its key is
    described neither by the sources nor by the spec: the model gives it
    the next key of the table and does not store an [id] member of the
    data as an attribute. *)
Definition lookup_pk (t : table) (id : N) : option row :=
  List.find (fun r => (pk r =? id)%N) (rows t).

Definition insert_row (t : table) (data : gmap string jsval) : row * table :=
  let r := Row (next_pk t) (delete "id" data) in
  (r, Table (rows t ++ [r]) (N.succ (next_pk t))).

Definition update_row (t : table) (id : N) (data : gmap string jsval) : table :=
  Table (map (fun r => if (pk r =? id)%N
                       then Row (pk r) (delete "id" data ∪ attrs r) else r) (rows t))
        (next_pk t).

Definition delete_rows (t : table) (p : row -> bool) : table :=
  Table (List.filter (fun r => negb (p r)) (rows t)) (next_pk t).

(** A row rendered in a response body. *)
Definition row_json (r : row) : jsval :=
  JObj (("id", JInt (Z.of_N (pk r))) :: map_to_list (attrs r)).

Definition instance_json (r : option row) : jsval :=
  match r with Some x => row_json x | None => JNull end.

End Db.
Export Db.

(* ================================================================== *)
(** ** Request handling: monad, persistence calls, requests, responses *)
(* ================================================================== *)

Module Express.

(** Synchronous, state-free code that may throw. *)
Definition rbind {A B} (m : result A) (k : A -> result B) : result B :=
  match m with
  | Ok a => k a
  | Throw e => Throw e
  end.

(** Reading identifier [x] in a module whose top-level bindings are
    [scope]: the bound value, or a ReferenceError. *)
Definition the {A} (scope : list string) (x : string) (a : A) : result A :=
  if existsb (String.eqb x) scope then Ok a else Throw (ReferenceError x).

(** A call handed to the persistence layer. *)
Inductive dbcall :=
| FindAndCountAll (m : model) (o : findOptions)
| FindAll (m : model) (o : findOptions)
| FindOne (m : model) (o : findOptions)
| FindByPk (m : model) (id : N) (o : findOptions)
| Create (m : model) (data : gmap string jsval)
| Update (m : model) (id : N) (data : gmap string jsval)
| Reload (m : model) (id : N) (o : findOptions)
| Destroy (m : model) (id : N)
| DestroyWhere (m : model) (w : gmap string cond).

Record world := World { database : db; journal : list dbcall }.

(** Handler code: threads the world, may throw; state changes made before
    a throw persist. *)
Definition M (A : Type) : Type := world -> result A * world.

Definition ret {A} (a : A) : M A := fun w => (Ok a, w).

Definition bind {A B} (m : M A) (k : A -> M B) : M B :=
  fun w =>
    match m w with
    | (Ok a, w') => k a w'
    | (Throw e, w') => (Throw e, w')
    end.

Definition lift {A} (r : result A) : M A := fun w => (r, w).

(** [try { m } catch (error) { h error }]. *)
Definition try_catch {A} (m : M A) (h : error -> M A) : M A :=
  fun w =>
    match m w with
    | (Ok a, w') => (Ok a, w')
    | (Throw e, w') => h e w'
    end.

(** Every persistence call is journalled, then fails when the store is
    unreachable, else runs against the tables. *)
Definition call {A} (c : dbcall) (f : db -> result A * db) : M A :=
  fun w =>
    let j := journal w ++ [c] in
    if online (database w)
    then let '(a, d) := f (database w) in (a, World d j)
    else (Throw DatabaseError, World (database w) j).

Definition findAndCountAll (m : model) (o : findOptions) : M (Z * list row) :=
  call (FindAndCountAll m o)
       (fun d => (Ok (count (table_of d m) o, select (table_of d m) o), d)).

Definition findAll (m : model) (o : findOptions) : M (list row) :=
  call (FindAll m o) (fun d => (Ok (select (table_of d m) o), d)).

Definition findOne (m : model) (o : findOptions) : M (option row) :=
  call (FindOne m o) (fun d => (Ok (head (select (table_of d m) o)), d)).

Definition findByPk (m : model) (id : N) (o : findOptions) : M (option row) :=
  call (FindByPk m id o)
       (fun d => (Ok (project (o_attributes o) <$> lookup_pk (table_of d m) id), d)).

Definition create (m : model) (data : gmap string jsval) : M row :=
  call (Create m data)
       (fun d => let '(r, t) := insert_row (table_of d m) data in (Ok r, set_table d m t)).

(** [instance.update(data)]: writes the supplied fields of the row and of
    the instance. *)
Definition update (m : model) (r : row) (data : gmap string jsval) : M row :=
  call (Update m (pk r) data)
       (fun d => (Ok (Row (pk r) (delete "id" data ∪ attrs r)),
                  set_table d m (update_row (table_of d m) (pk r) data))).

(** [instance.reload(options)]: reads the row again; it must still exist. *)
Definition reload (m : model) (r : row) (o : findOptions) : M row :=
  call (Reload m (pk r) o)
       (fun d => match lookup_pk (table_of d m) (pk r) with
                 | Some x => (Ok (project (o_attributes o) x), d)
                 | None => (Throw DatabaseError, d)
                 end).

(** [instance.destroy()]. *)
Definition destroy (m : model) (r : row) : M unit :=
  call (Destroy m (pk r))
       (fun d => (Ok tt, set_table d m (delete_rows (table_of d m)
                                                     (fun x => (pk x =? pk r)%N)))).

(** [Model.destroy({ where })]. *)
Definition destroy_where (m : model) (w : gmap string cond) : M unit :=
  call (DestroyWhere m w)
       (fun d => (Ok tt, set_table d m (delete_rows (table_of d m) (matches w)))).

(** The acting principal that [auth] attaches to the request. *)
Record principal := Principal { user_id : N; partnerId : jsval }.

(** The parts of [req] that the routes read; [params_id] is [req.params.id],
    already read as a key of the store. *)
Record request := Request {
  query : gmap string jsval;
  params_id : N;
  body : gmap string jsval;
  user : principal
}.

Inductive payload :=
| Json (v : jsval)
| Text (s : string).

Record response := Response { status : Z; content : payload }.

(** [res.json(v)], [res.status(c).json(v)], [res.status(c).send(s)]. *)
Definition json (v : jsval) : response := Response 200 (Json v).
Definition status_json (c : Z) (v : jsval) : response := Response c (Json v).
Definition status_send (c : Z) (s : string) : response := Response c (Text s).

(** [errors.array()]. *)
Definition errors_array (errors : list verror) : jsval :=
  JArr (map verror_json errors).

(** [errors.isEmpty()]. *)
Definition isEmpty (errors : list verror) : bool :=
  match errors with [] => true | _ => false end.

(** Running a handler: the response and the world it leaves.  Handlers
    catch what they throw; an uncaught error is left to the framework. *)
Definition respond (h : M response) (w : world) : option response :=
  match fst (h w) with Ok r => Some r | Throw _ => None end.

Definition after (h : M response) (w : world) : world := snd (h w).

(** Calls issued by [h] when started in [w]. *)
Definition issued (h : M response) (w : world) : list dbcall :=
  drop (length (journal w)) (journal (after h w)).

End Express.
Export Express.

Notation "x <- m ;; k" := (bind m (fun x => k))
  (at level 20, m at level 99, k at level 200, only parsing).
Notation "' p <- m ;; k" := (bind m (fun x => match x with p => k end))
  (at level 20, p pattern, m at level 99, k at level 200, only parsing).
Notation "x <~ m ;; k" := (rbind m (fun x => k))
  (at level 20, m at level 99, k at level 200, only parsing).

(** [{ ...o }] for the value [o] found under a key of a [where] object:
    spreading [undefined] contributes nothing. *)
Definition spread (o : option cond) : gmap op jsval :=
  match o with
  | Some (Ops m) => m
  | _ => ∅
  end.

(** What the listing code computes before it calls the store. *)
Record built := Built {
  b_page : Z;
  b_limit : Z;
  b_offset : Z;
  b_where : gmap string cond;
  b_order : list (string * direction)
}.

(** The [pagination] object of a listing response. *)
Definition pagination (page limit count : Z) : jsval :=
  JObj [("page", JInt page); ("limit", JInt limit); ("total", JInt count);
        ("pages", JInt (Math_ceil (div count limit)))].

(** A successful listing answer (vehicles lines 115-124, materials lines
    82-91), from the values of its members. *)
Definition listing_answer (data shown : jsval) (limit total pages : Z) : response :=
  json (JObj [("success", JBool true); ("data", data);
              ("pagination",
               JObj [("page", shown); ("limit", JInt limit); ("total", JInt total);
                     ("pages", JInt pages)])]).

Definition with_include (i : list include) : findOptions :=
  FindOptions ∅ i [] None None AllAttributes [].

(* ================================================================== *)
(** ** Vehicle routes ([src/unnamed/part_000]) *)
(* ================================================================== *)

Module Vehicles.

(** Top-level bindings of the module (lines 1-8). *)
Definition scope : list string :=
  ["express"; "body"; "query"; "validationResult"; "Vehicle"; "Partner";
   "auth"; "partnerAuth"; "Op"; "router"].

Definition categories : list string :=
  ["excavator"; "truck"; "crane"; "bulldozer"; "loader"; "dump-truck";
   "concrete-mixer"; "other"].

(** Lines 13-24. *)
Definition list_rules : list chain :=
  [ optional (on_query "page" (IsInt (Some 1%Z) None));
    optional (on_query "limit" (IsInt (Some 1%Z) (Some 100%Z)));
    optional (on_query "category" (IsIn categories));
    optional (on_query "minPriceHour" (IsFloat (Some (of_Z 0))));
    optional (on_query "maxPriceHour" (IsFloat (Some (of_Z 0))));
    optional (on_query "minPriceDay" (IsFloat (Some (of_Z 0))));
    optional (on_query "maxPriceDay" (IsFloat (Some (of_Z 0))));
    optional (on_query "city" (IsLength 1 None));
    optional (on_query "state" (IsLength 1 None));
    optional (on_query "search" (IsLength 1 None)) ].

(** Lines 76-99. *)
Definition order_of (sort : jsval) : list (string * direction) :=
  match sort with
  | JStr s =>
      if String.eqb s "price_hour_asc" then [("pricePerHour", ASC)]
      else if String.eqb s "price_hour_desc" then [("pricePerHour", DESC)]
      else if String.eqb s "price_day_asc" then [("pricePerDay", ASC)]
      else if String.eqb s "price_day_desc" then [("pricePerDay", DESC)]
      else if String.eqb s "rating" then [("rating", DESC)]
      else if String.eqb s "newest" then [("createdAt", DESC)]
      else [("featured", DESC); ("rating", DESC)]
  | _ => [("featured", DESC); ("rating", DESC)]
  end.

(** [where.f = { ...where.f, [Op.o]: parseFloat(v) }] when [v] is truthy. *)
Definition bound (f : string) (o : op) (name : string) (v : jsval)
    (w : gmap string cond) : result (gmap string cond) :=
  if truthy v then
    o' <~ the scope name o ;;
    Ok (<[f := Ops (<[o' := parseFloat v]> (spread (w !! f)))]> w)
  else Ok w.

(** Lines 35-99: from the query parameters to page, limit, offset, the
    [where] object and the order array.  The three statements at lines
    64-74 assign into [filter], an identifier bound nowhere; nothing they
    would store is read by the query.  Page, limit and offset are exact
    integers: they are the code's values as long as (page - 1) * limit
    stays below 2 ^ 53, where binary64 arithmetic is exact. *)
Definition buildQuery (q : gmap string jsval) : result built :=
  let page := or_default (parseInt (prop q "page")) 1 in
  let limit := or_default (parseInt (prop q "limit")) 10 in
  let offset := ((page - 1) * limit)%Z in
  let where0 : gmap string cond := {[ "status" := Equals (JStr "active") ]} in
  let where1 :=
    if truthy (prop q "category")
    then <["category" := Equals (prop q "category")]> where0 else where0 in
  where2 <~ bound "pricePerHour" Op_gte "Op" (prop q "minPriceHour") where1 ;;
  where3 <~ bound "pricePerHour" Op_lte "Op" (prop q "maxPriceHour") where2 ;;
  where4 <~ bound "pricePerDay" Op_gte "Op" (prop q "minPriceDay") where3 ;;
  where5 <~ bound "pricePerDay" Op_lte "Op" (prop q "maxPriceDay") where4 ;;
  _ <~ (if truthy (prop q "city") then the scope "filter" tt else Ok tt) ;;
  _ <~ (if truthy (prop q "state") then the scope "filter" tt else Ok tt) ;;
  _ <~ (if truthy (prop q "search") then the scope "filter" tt else Ok tt) ;;
  Ok (Built page limit offset where5 (order_of (prop q "sort"))).

(** Lines 101-113: the options object handed to [findAndCountAll]. *)
Definition list_options (partner : model) (b : built) : findOptions :=
  FindOptions (b_where b)
    [Include partner "owner" (Only ["businessName"; "rating"; "contact"])]
    (b_order b) (Some (b_offset b)) (Some (b_limit b)) AllAttributes [].

(** GET / (lines 13-132). *)
Definition get_list (req : request) : M response :=
  try_catch
    (let '(q, errors) := run_chains (query req) list_rules in
     if negb (isEmpty errors) then
       ret (status_json 400
              (JObj [("success", JBool false); ("message", JStr "Validation failed");
                     ("errors", errors_array errors)]))
     else
       b <- lift (buildQuery q) ;;
       Vehicle' <- lift (the scope "Vehicle" Vehicle) ;;
       Partner' <- lift (the scope "Partner" Partner) ;;
       '(count, vehicles) <-
         findAndCountAll Vehicle' (list_options Partner' b) ;;
       ret (json (JObj [("success", JBool true);
                        ("data", JArr (map row_json vehicles));
                        ("pagination", pagination (b_page b) (b_limit b) count)])))
    (fun error =>
       ret (status_json 500
              (JObj [("success", JBool false);
                     ("message", JStr "Server error while fetching vehicles")]))).

(** GET /:id (lines 137-167). *)
Definition get_one (req : request) : M response :=
  try_catch
    (Vehicle' <- lift (the scope "Vehicle" Vehicle) ;;
     Partner' <- lift (the scope "Partner" Partner) ;;
     vehicle <- findByPk Vehicle' (params_id req)
                  (with_include [Include Partner' "owner"
                                   (Only ["businessName"; "contact"; "rating"; "address"])]) ;;
     match vehicle with
     | None =>
         ret (status_json 404
                (JObj [("success", JBool false); ("message", JStr "Vehicle not found")]))
     | Some v =>
         ret (json (JObj [("success", JBool true); ("data", row_json v)]))
     end)
    (fun error =>
       ret (status_json 500
              (JObj [("success", JBool false);
                     ("message", JStr "Server error while fetching vehicle")]))).

(** PUT /:id (lines 225-267); [auth] and [partnerAuth] ran before. *)
Definition put (req : request) : M response :=
  try_catch
    (Vehicle' <- lift (the scope "Vehicle" Vehicle) ;;
     vehicle <- findByPk Vehicle' (params_id req) no_options ;;
     match vehicle with
     | None =>
         ret (status_json 404
                (JObj [("success", JBool false); ("message", JStr "Vehicle not found")]))
     | Some v =>
         if negb (strict_eq (column v "ownerId") (partnerId (user req))) then
           ret (status_json 403
                  (JObj [("success", JBool false);
                         ("message", JStr "Not authorized to update this vehicle")]))
         else
           v1 <- update Vehicle' v (body req) ;;
           Partner' <- lift (the scope "Partner" Partner) ;;
           v2 <- reload Vehicle' v1
                   (with_include [Include Partner' "owner" (Only ["businessName"; "rating"])]) ;;
           ret (json (JObj [("success", JBool true);
                            ("message", JStr "Vehicle updated successfully");
                            ("data", row_json v2)]))
     end)
    (fun error =>
       ret (status_json 500
              (JObj [("success", JBool false);
                     ("message", JStr "Server error while updating vehicle")]))).

(** DELETE /:id (lines 272-304). *)
Definition delete (req : request) : M response :=
  try_catch
    (Vehicle' <- lift (the scope "Vehicle" Vehicle) ;;
     vehicle <- findByPk Vehicle' (params_id req) no_options ;;
     match vehicle with
     | None =>
         ret (status_json 404
                (JObj [("success", JBool false); ("message", JStr "Vehicle not found")]))
     | Some v =>
         if negb (strict_eq (column v "ownerId") (partnerId (user req))) then
           ret (status_json 403
                  (JObj [("success", JBool false);
                         ("message", JStr "Not authorized to delete this vehicle")]))
         else
           _ <- destroy Vehicle' v ;;
           ret (json (JObj [("success", JBool true);
                            ("message", JStr "Vehicle deleted successfully")]))
     end)
    (fun error =>
       ret (status_json 500
              (JObj [("success", JBool false);
                     ("message", JStr "Server error while deleting vehicle")]))).

(** GET /categories/list (lines 365-385). *)
Definition get_categories (req : request) : M response :=
  try_catch
    (Vehicle' <- lift (the scope "Vehicle" Vehicle) ;;
     vehicles <- findAll Vehicle'
                   (FindOptions ∅ [] [] None None (Only ["category"]) ["category"]) ;;
     let categories := map (fun v => column v "category") vehicles in
     ret (json (JObj [("success", JBool true); ("data", JArr categories)])))
    (fun error =>
       ret (status_json 500
              (JObj [("success", JBool false);
                     ("message", JStr "Server error while fetching categories")]))).

Section Environment.

(** The year read from the clock when the module is loaded, and the
    library's date-format validator. *)
Variable currentYear : Z.
Variable isISO8601 : string -> bool.

(** Lines 172-181. *)
Definition post_rules : list chain :=
  [ trimmed (on_body "name" (IsLength 2 (Some 100)));
    trimmed (on_body "description" (IsLength 10 (Some 500)));
    on_body "category" (IsIn categories);
    trimmed (on_body "type" (IsLength 2 None));
    trimmed (on_body "model" (IsLength 2 None));
    on_body "year" (IsInt (Some 1990%Z) (Some (currentYear + 1)%Z));
    on_body "pricePerHour" (IsFloat (Some (of_Z 0)));
    on_body "pricePerDay" (IsFloat (Some (of_Z 0))) ].

(** POST / (lines 172-220). *)
Definition post (req : request) : M response :=
  try_catch
    (let '(b, errors) := run_chains (body req) post_rules in
     if negb (isEmpty errors) then
       ret (status_json 400
              (JObj [("success", JBool false); ("message", JStr "Validation failed");
                     ("errors", errors_array errors)]))
     else
       let vehicleData := <["ownerId" := partnerId (user req)]> b in
       Vehicle' <- lift (the scope "Vehicle" Vehicle) ;;
       v <- create Vehicle' vehicleData ;;
       Partner' <- lift (the scope "Partner" Partner) ;;
       v1 <- reload Vehicle' v
               (with_include [Include Partner' "owner" (Only ["businessName"; "rating"])]) ;;
       ret (status_json 201
              (JObj [("success", JBool true);
                     ("message", JStr "Vehicle created successfully");
                     ("data", row_json v1)])))
    (fun error =>
       ret (status_json 500
              (JObj [("success", JBool false);
                     ("message", JStr "Server error while creating vehicle")]))).

(** Lines 309-314. *)
Definition availability_rules : list chain :=
  [ on_body "isAvailable" IsBoolean;
    optional (on_body "availableFrom" (Matches isISO8601));
    optional (on_body "availableUntil" (Matches isISO8601));
    optional (on_body "unavailableDates" IsArray) ].

(** POST /:id/availability (lines 309-360). *)
Definition post_availability (req : request) : M response :=
  try_catch
    (let '(b, errors) := run_chains (body req) availability_rules in
     if negb (isEmpty errors) then
       ret (status_json 400
              (JObj [("success", JBool false); ("message", JStr "Validation failed");
                     ("errors", errors_array errors)]))
     else
       Vehicle' <- lift (the scope "Vehicle" Vehicle) ;;
       vehicle <- findByPk Vehicle' (params_id req) no_options ;;
       match vehicle with
       | None =>
           ret (status_json 404
                  (JObj [("success", JBool false); ("message", JStr "Vehicle not found")]))
       | Some v =>
           if negb (strict_eq (column v "ownerId") (partnerId (user req))) then
             ret (status_json 403
                    (JObj [("success", JBool false);
                           ("message", JStr "Not authorized to update this vehicle")]))
           else
             let availabilityData := JObj (map_to_list b) in
             v1 <- update Vehicle' v {[ "availability" := availabilityData ]} ;;
             ret (json (JObj [("success", JBool true);
                              ("message", JStr "Vehicle availability updated successfully");
                              ("data", row_json v1)]))
       end)
    (fun error =>
       ret (status_json 500
              (JObj [("success", JBool false);
                     ("message", JStr "Server error while updating availability")]))).

End Environment.

End Vehicles.

(* ================================================================== *)
(** ** Material routes ([src/server/routes/materials.js]) *)
(* ================================================================== *)

Module Materials.

(** Top-level bindings of the module (lines 1-7); [Op] is not among them. *)
Definition scope : list string :=
  ["express"; "body"; "query"; "validationResult"; "Material"; "Partner";
   "auth"; "partnerAuth"; "router"].

Definition categories : list string :=
  ["sand"; "gravel"; "steel"; "concrete"; "bricks"; "timber"; "soil"; "stone"; "other"].

Definition units : list string :=
  ["cubic meter"; "ton"; "kg"; "per 100 pieces"; "square meter"; "linear meter"].

(** Lines 12-19. *)
Definition list_rules : list chain :=
  [ withMessage "Page must be a positive integer"
      (optional (on_query "page" (IsInt (Some 1%Z) None)));
    withMessage "Limit must be between 1 and 100"
      (optional (on_query "limit" (IsInt (Some 1%Z) (Some 100%Z))));
    optional (on_query "category" (IsIn categories));
    withMessage "Minimum price must be non-negative"
      (optional (on_query "minPrice" (IsFloat (Some (of_Z 0)))));
    withMessage "Maximum price must be non-negative"
      (optional (on_query "maxPrice" (IsFloat (Some (of_Z 0)))));
    withMessage "Search term cannot be empty"
      (optional (on_query "search" (IsLength 1 None))) ].

(** Lines 49-66. *)
Definition order_of (sort : jsval) : list (string * direction) :=
  match sort with
  | JStr s =>
      if String.eqb s "price_asc" then [("pricePerUnit", ASC)]
      else if String.eqb s "price_desc" then [("pricePerUnit", DESC)]
      else if String.eqb s "rating" then [("rating", DESC)]
      else if String.eqb s "newest" then [("createdAt", DESC)]
      else [("featured", DESC); ("rating", DESC)]
  | _ => [("featured", DESC); ("rating", DESC)]
  end.

(** [where.f = { ...where.f, [Op.o]: parseFloat(v) }] when [v] is truthy. *)
Definition bound (f : string) (o : op) (name : string) (v : jsval)
    (w : gmap string cond) : result (gmap string cond) :=
  if truthy v then
    o' <~ the scope name o ;;
    Ok (<[f := Ops (<[o' := parseFloat v]> (spread (w !! f)))]> w)
  else Ok w.

(** Lines 30-66; page, limit and offset as in the vehicle module. *)
Definition buildQuery (q : gmap string jsval) : result built :=
  let page := or_default (parseInt (prop q "page")) 1 in
  let limit := or_default (parseInt (prop q "limit")) 10 in
  let offset := ((page - 1) * limit)%Z in
  let where0 : gmap string cond := {[ "isAvailable" := Equals (JBool true) ]} in
  let where1 :=
    if truthy (prop q "category")
    then <["category" := Equals (prop q "category")]> where0 else where0 in
  where2 <~ bound "pricePerUnit" Op_gte "Op" (prop q "minPrice") where1 ;;
  where3 <~ bound "pricePerUnit" Op_lte "Op" (prop q "maxPrice") where2 ;;
  Ok (Built page limit offset where3 (order_of (prop q "sort"))).

(** Lines 68-80: the options object handed to [findAndCountAll]. *)
Definition list_options (partner : model) (b : built) : findOptions :=
  FindOptions (b_where b)
    [Include partner "supplier" (Only ["businessName"; "rating"])]
    (b_order b) (Some (b_offset b)) (Some (b_limit b)) AllAttributes [].

(** GET / (lines 12-99). *)
Definition get_list (req : request) : M response :=
  try_catch
    (let '(q, errors) := run_chains (query req) list_rules in
     if negb (isEmpty errors) then
       ret (status_json 400
              (JObj [("success", JBool false); ("message", JStr "Validation failed");
                     ("errors", errors_array errors)]))
     else
       b <- lift (buildQuery q) ;;
       Material' <- lift (the scope "Material" Material) ;;
       Partner' <- lift (the scope "Partner" Partner) ;;
       '(count, materials) <-
         findAndCountAll Material' (list_options Partner' b) ;;
       ret (json (JObj [("success", JBool true);
                        ("data", JArr (map row_json materials));
                        ("pagination", pagination (b_page b) (b_limit b) count)])))
    (fun error =>
       ret (status_json 500
              (JObj [("success", JBool false);
                     ("message", JStr "Server error while fetching materials")]))).

(** GET /:id (lines 104-134). *)
Definition get_one (req : request) : M response :=
  try_catch
    (Material' <- lift (the scope "Material" Material) ;;
     Partner' <- lift (the scope "Partner" Partner) ;;
     material <- findByPk Material' (params_id req)
                   (with_include [Include Partner' "supplier"
                                    (Only ["businessName"; "contact"; "rating"; "address"])]) ;;
     match material with
     | None =>
         ret (status_json 404
                (JObj [("success", JBool false); ("message", JStr "Material not found")]))
     | Some m =>
         ret (json (JObj [("success", JBool true); ("data", row_json m)]))
     end)
    (fun error =>
       ret (status_json 500
              (JObj [("success", JBool false);
                     ("message", JStr "Server error while fetching material")]))).

(** Lines 139-146. *)
Definition post_rules : list chain :=
  [ withMessage "Name must be between 2 and 100 characters"
      (trimmed (on_body "name" (IsLength 2 (Some 100))));
    withMessage "Description must be between 10 and 500 characters"
      (trimmed (on_body "description" (IsLength 10 (Some 500))));
    on_body "category" (IsIn categories);
    withMessage "Price must be non-negative"
      (on_body "pricePerUnit" (IsFloat (Some (of_Z 0))));
    on_body "unit" (IsIn units);
    withMessage "Available quantity must be non-negative"
      (on_body "availableQuantity" (IsFloat (Some (of_Z 0)))) ].

(** POST / (lines 139-185); [auth] and [partnerAuth] ran before. *)
Definition post (req : request) : M response :=
  try_catch
    (let '(b, errors) := run_chains (body req) post_rules in
     if negb (isEmpty errors) then
       ret (status_json 400
              (JObj [("success", JBool false); ("message", JStr "Validation failed");
                     ("errors", errors_array errors)]))
     else
       let materialData := <["supplierId" := partnerId (user req)]> b in
       Material' <- lift (the scope "Material" Material) ;;
       m <- create Material' materialData ;;
       Partner' <- lift (the scope "Partner" Partner) ;;
       m1 <- reload Material' m
               (with_include [Include Partner' "supplier" (Only ["businessName"; "rating"])]) ;;
       ret (status_json 201
              (JObj [("success", JBool true);
                     ("message", JStr "Material created successfully");
                     ("data", row_json m1)])))
    (fun error =>
       ret (status_json 500
              (JObj [("success", JBool false);
                     ("message", JStr "Server error while creating material")]))).

(** Lines 190-195. *)
Definition put_rules : list chain :=
  [ optional (trimmed (on_body "name" (IsLength 2 (Some 100))));
    optional (trimmed (on_body "description" (IsLength 10 (Some 500))));
    optional (on_body "pricePerUnit" (IsFloat (Some (of_Z 0))));
    optional (on_body "availableQuantity" (IsFloat (Some (of_Z 0)))) ].

(** PUT /:id (lines 190-246). *)
Definition put (req : request) : M response :=
  try_catch
    (let '(b, errors) := run_chains (body req) put_rules in
     if negb (isEmpty errors) then
       ret (status_json 400
              (JObj [("success", JBool false); ("message", JStr "Validation failed");
                     ("errors", errors_array errors)]))
     else
       Material' <- lift (the scope "Material" Material) ;;
       material <- findByPk Material' (params_id req) no_options ;;
       match material with
       | None =>
           ret (status_json 404
                  (JObj [("success", JBool false); ("message", JStr "Material not found")]))
       | Some m =>
           if negb (strict_eq (column m "supplierId") (partnerId (user req))) then
             ret (status_json 403
                    (JObj [("success", JBool false);
                           ("message", JStr "Not authorized to update this material")]))
           else
             m1 <- update Material' m b ;;
             Partner' <- lift (the scope "Partner" Partner) ;;
             m2 <- reload Material' m1
                     (with_include [Include Partner' "supplier"
                                      (Only ["businessName"; "rating"])]) ;;
             ret (json (JObj [("success", JBool true);
                              ("message", JStr "Material updated successfully");
                              ("data", row_json m2)]))
       end)
    (fun error =>
       ret (status_json 500
              (JObj [("success", JBool false);
                     ("message", JStr "Server error while updating material")]))).

(** DELETE /:id (lines 251-283). *)
Definition delete (req : request) : M response :=
  try_catch
    (Material' <- lift (the scope "Material" Material) ;;
     material <- findByPk Material' (params_id req) no_options ;;
     match material with
     | None =>
         ret (status_json 404
                (JObj [("success", JBool false); ("message", JStr "Material not found")]))
     | Some m =>
         if negb (strict_eq (column m "supplierId") (partnerId (user req))) then
           ret (status_json 403
                  (JObj [("success", JBool false);
                         ("message", JStr "Not authorized to delete this material")]))
         else
           _ <- destroy Material' m ;;
           ret (json (JObj [("success", JBool true);
                            ("message", JStr "Material deleted successfully")]))
     end)
    (fun error =>
       ret (status_json 500
              (JObj [("success", JBool false);
                     ("message", JStr "Server error while deleting material")]))).

(** GET /categories/list (lines 288-308). *)
Definition get_categories (req : request) : M response :=
  try_catch
    (Material' <- lift (the scope "Material" Material) ;;
     materials <- findAll Material'
                    (FindOptions ∅ [] [] None None (Only ["category"]) ["category"]) ;;
     let categories := map (fun m => column m "category") materials in
     ret (json (JObj [("success", JBool true); ("data", JArr categories)])))
    (fun error =>
       ret (status_json 500
              (JObj [("success", JBool false);
                     ("message", JStr "Server error while fetching categories")]))).

End Materials.

(* ================================================================== *)
(** ** User routes ([src/server/routes/users.js]) *)
(* ================================================================== *)

Module Users.

(** Top-level bindings of the module (lines 1-6); neither [Material] nor
    [Vehicle] is among them. *)
Definition scope : list string :=
  ["express"; "router"; "auth"; "body"; "validationResult"; "User";
   "ServiceRequest"; "Op"].

Definition without_password : findOptions :=
  FindOptions ∅ [] [] None None (Exclude ["password"]) [].

(** [req.user], the instance that [auth] loaded; only its key is read. *)
Definition acting (req : request) : row := Row (user_id (user req)) ∅.

(** GET /profile (lines 11-24). *)
Definition get_profile (req : request) : M response :=
  try_catch
    (User' <- lift (the scope "User" User) ;;
     u <- findByPk User' (user_id (user req)) without_password ;;
     ret (json (JObj [("success", JBool true); ("user", instance_json u)])))
    (fun error => ret (status_send 500 "Server Error")).

(** GET /orders (lines 78-103). *)
Definition get_orders (req : request) : M response :=
  try_catch
    (ServiceRequest' <- lift (the scope "ServiceRequest" ServiceRequest) ;;
     let where_ : gmap string cond :=
       {[ "userId" := Equals (JInt (Z.of_N (user_id (user req)))) ]} in
     Material' <- lift (the scope "Material" Material) ;;
     Vehicle' <- lift (the scope "Vehicle" Vehicle) ;;
     orders <- findAll ServiceRequest'
                 (FindOptions where_
                    [Include Material' "material" AllAttributes;
                     Include Vehicle' "vehicle" AllAttributes]
                    [("requestDate", DESC)] None None AllAttributes []) ;;
     ret (json (JObj [("success", JBool true); ("data", JArr (map row_json orders))])))
    (fun error => ret (status_send 500 "Server Error")).

(** DELETE /account (lines 108-124). *)
Definition delete_account (req : request) : M response :=
  try_catch
    (ServiceRequest' <- lift (the scope "ServiceRequest" ServiceRequest) ;;
     _ <- destroy_where ServiceRequest'
            {[ "userId" := Equals (JInt (Z.of_N (user_id (user req)))) ]} ;;
     User' <- lift (the scope "User" User) ;;
     _ <- destroy_where User'
            {[ "id" := Equals (JInt (Z.of_N (user_id (user req)))) ]} ;;
     ret (json (JObj [("success", JBool true);
                      ("message", JStr "User account deleted successfully")])))
    (fun error => ret (status_send 500 "Server Error")).

Section Environment.

(** The library's e-mail validator. *)
Variable isEmail : string -> bool.

(** Lines 29-36. *)
Definition profile_rules : list chain :=
  [ withMessage "Name is required" (on_body "name" NotEmpty);
    withMessage "Please include a valid email" (on_body "email" (Matches isEmail));
    withMessage "Phone number is required" (on_body "phone" NotEmpty) ].

(** PUT /profile (lines 29-73): validation and destructuring happen
    outside the [try]. *)
Definition put_profile (req : request) : M response :=
  let '(b, errors) := run_chains (body req) profile_rules in
  if negb (isEmpty errors) then
    ret (status_json 400 (JObj [("errors", errors_array errors)]))
  else
    let name := prop b "name" in
    let email := prop b "email" in
    let phone := prop b "phone" in
    let address := prop b "address" in
    try_catch
      (User' <- lift (the scope "User" User) ;;
       ne <- lift (the scope "Op" Op_ne) ;;
       existingUser <-
         findOne User'
           (FindOptions
              (<["id" := Ops {[ ne := JInt (Z.of_N (user_id (user req))) ]}]>
                 {[ "email" := Equals email ]})
              [] [] None None AllAttributes []) ;;
       match existingUser with
       | Some _ =>
           ret (status_json 400
                  (JObj [("success", JBool false);
                         ("message", JStr "Email is already registered to another account")]))
       | None =>
           _ <- update User (acting req)
                  (<["address" := address]>
                     (<["phone" := phone]> (<["email" := email]> {[ "name" := name ]}))) ;;
           u <- findByPk User' (user_id (user req)) without_password ;;
           ret (json (JObj [("success", JBool true); ("user", instance_json u)]))
       end)
      (fun error => ret (status_send 500 "Server Error")).

End Environment.

End Users.

(* ================================================================== *)
(** ** The registered routes *)
(* ================================================================== *)

(** One constructor per [router.get/post/put/delete] call of the three
    modules. *)
Inductive endpoint :=
| VehiclesList | VehiclesGet | VehiclesCreate | VehiclesUpdate | VehiclesDelete
| VehiclesAvailability | VehiclesCategories
| MaterialsList | MaterialsGet | MaterialsCreate | MaterialsUpdate | MaterialsDelete
| MaterialsCategories
| UsersProfile | UsersUpdateProfile | UsersOrders | UsersDeleteAccount.

(** What the routes take from their environment. *)
Record library := Library {
  currentYear : Z;
  isISO8601 : string -> bool;
  isEmail : string -> bool
}.

Definition handle (lib : library) (e : endpoint) : request -> M response :=
  match e with
  | VehiclesList => Vehicles.get_list
  | VehiclesGet => Vehicles.get_one
  | VehiclesCreate => Vehicles.post (currentYear lib)
  | VehiclesUpdate => Vehicles.put
  | VehiclesDelete => Vehicles.delete
  | VehiclesAvailability => Vehicles.post_availability (isISO8601 lib)
  | VehiclesCategories => Vehicles.get_categories
  | MaterialsList => Materials.get_list
  | MaterialsGet => Materials.get_one
  | MaterialsCreate => Materials.post
  | MaterialsUpdate => Materials.put
  | MaterialsDelete => Materials.delete
  | MaterialsCategories => Materials.get_categories
  | UsersProfile => Users.get_profile
  | UsersUpdateProfile => Users.put_profile (isEmail lib)
  | UsersOrders => Users.get_orders
  | UsersDeleteAccount => Users.delete_account
  end.

(** The validation chains registered with a route, run over the part of
    the request they read. *)
Definition violations (lib : library) (e : endpoint) (req : request) : list verror :=
  match e with
  | VehiclesList => snd (run_chains (query req) Vehicles.list_rules)
  | VehiclesCreate => snd (run_chains (body req) (Vehicles.post_rules (currentYear lib)))
  | VehiclesAvailability =>
      snd (run_chains (body req) (Vehicles.availability_rules (isISO8601 lib)))
  | MaterialsList => snd (run_chains (query req) Materials.list_rules)
  | MaterialsCreate => snd (run_chains (body req) Materials.post_rules)
  | MaterialsUpdate => snd (run_chains (body req) Materials.put_rules)
  | UsersUpdateProfile => snd (run_chains (body req) (Users.profile_rules (isEmail lib)))
  | _ => []
  end.

Definition in_users (e : endpoint) : bool :=
  match e with
  | UsersProfile | UsersUpdateProfile | UsersOrders | UsersDeleteAccount => true
  | _ => false
  end.

(** *** Shapes of a response *)

Definition is_envelope (r : response) : Prop :=
  exists fields b, content r = Json (JObj fields) /\ assoc "success" fields = Some (JBool b).

Definition has_message (r : response) : Prop :=
  exists fields m, content r = Json (JObj fields) /\ assoc "message" fields = Some (JStr m).

Definition has_errors (r : response) : Prop :=
  exists fields l, content r = Json (JObj fields) /\ assoc "errors" fields = Some (JArr l).

Definition is_error (r : response) : Prop := (400 <= status r)%Z.

(** The 403 answer of the ownership checks. *)
Definition forbidden (message : string) : response :=
  status_json 403 (JObj [("success", JBool false); ("message", JStr message)]).

(** The failure answer of the user routes. *)
Definition server_error : response := status_send 500 "Server Error".

Definition throws {A} (r : result A) : bool :=
  match r with Throw _ => true | Ok _ => false end.

(** The world after call [c] was journalled. *)
Definition logged (w : world) (c : dbcall) : world :=
  World (database w) (journal w ++ [c]).

(** [t] is [s], or [s] followed by a comma and more text. *)
Definition extends (s t : string) : Prop :=
  exists suffix, t = (s +:+ suffix)%string
                 /\ (suffix = "" \/ exists rest, suffix = String "," rest).

(** Least integer [n] with [a <= n * b], for positive [b]: the ceiling of
    [a / b]. *)
Definition is_ceiling (a b n : Z) : Prop :=
  (a <= n * b)%Z /\ forall k : Z, (a <= k * b)%Z -> (n <= k)%Z.

(* ================================================================== *)
(** ** Scenarios *)
(* ================================================================== *)

Module Scenario.

Definition empty_table : table := Table [] 1.

Definition partner7 : principal := Principal 1 (JInt 7).
Definition partner8 : principal := Principal 2 (JInt 8).

(** The environment of the scenarios.  Its two validators are stand-ins
    that accept every text; the scenarios submit no date and only
    addresses that the library's [isEmail] accepts. *)
Definition lib0 : library := Library 2024 (fun _ => true) (fun _ => true).

(** An active excavator at 100.5 per hour, owned by partner 7. *)
Definition excavator (i : N) : row :=
  Row i (<["pricePerHour" := JNum (Num 1005 (-1))]>
           (<["category" := JStr "excavator"]>
              (<["ownerId" := JInt 7]> {[ "status" := JStr "active" ]}))).

Definition retired_crane : row :=
  Row 26 (<["category" := JStr "crane"]>
            (<["ownerId" := JInt 7]> {[ "status" := JStr "inactive" ]})).

Definition gravel : row :=
  Row 1 (<["category" := JStr "gravel"]>
           (<["supplierId" := JInt 7]> {[ "isAvailable" := JBool true ]})).

Definition sold_out_sand : row :=
  Row 2 (<["category" := JStr "sand"]>
           (<["supplierId" := JInt 7]> {[ "isAvailable" := JBool false ]})).

(** Twenty-five excavators in range and one inactive crane; two materials. *)
Definition store : db :=
  Database (Table (map excavator (map N.of_nat (seq 1 25)) ++ [retired_crane]) 27)
           (Table [gravel; sold_out_sand; gravel] 4)
           empty_table empty_table empty_table true.

Definition w0 : world := World store [].

Definition get (q : list (string * jsval)) : request :=
  Request (list_to_map q) 0 ∅ partner7.

(** GET /vehicles?category=excavator&minPriceHour=50&maxPriceHour=200&page=2&limit=10 *)
Definition excavators_page2 : request :=
  get [("category", JStr "excavator"); ("minPriceHour", JStr "50");
       ("maxPriceHour", JStr "200"); ("page", JStr "2"); ("limit", JStr "10")].

(** The predicate the scenario expects. *)
Definition excavators_where : gmap string cond :=
  <["pricePerHour" := Ops (<[Op_lte := JInt 200]> {[ Op_gte := JInt 50 ]})]>
    (<["category" := Equals (JStr "excavator")]> {[ "status" := Equals (JStr "active") ]}).

(** An active excavator priced within [50, 200]. *)
Definition in_range_excavator (r : row) : bool :=
  strict_eq (column r "status") (JStr "active")
  && strict_eq (column r "category") (JStr "excavator")
  && sql_leb (JInt 50) (column r "pricePerHour")
  && sql_leb (column r "pricePerHour") (JInt 200).

(** GET /vehicles?city=Austin and GET /materials?minPrice=10 *)
Definition by_city : request := get [("city", JStr "Austin")].
Definition by_min_price : request := get [("minPrice", JStr "10")].

(** GET /vehicles?status=inactive&category=crane *)
Definition inactive_cranes : request :=
  get [("status", JStr "inactive"); ("category", JStr "crane")].

(** GET /materials?isAvailable=false *)
Definition unavailable_materials : request := get [("isAvailable", JStr "false")].

(** PUT /materials/1 with a negative price, sent by partner 8. *)
Definition foreign_bad_update : request :=
  Request ∅ 1 {[ "pricePerUnit" := JInt (-5) ]} partner8.

(** PUT or DELETE on entity 1 with a well-formed body, sent by partner 8. *)
Definition foreign_update : request :=
  Request ∅ 1 {[ "name" := JStr "Mine now" ]} partner8.

(** POST bodies that name another owner. *)
Definition new_vehicle : request :=
  Request ∅ 0
    (list_to_map
       [("name", JStr " Loader 3 "); ("description", JStr "A compact wheel loader");
        ("category", JStr "loader"); ("type", JStr "wheel"); ("model", JStr "L3");
        ("year", JInt 2020); ("pricePerHour", JInt 80); ("pricePerDay", JInt 500);
        ("ownerId", JInt 99)])
    partner8.

Definition new_material : request :=
  Request ∅ 0
    (list_to_map
       [("name", JStr "River sand"); ("description", JStr "Washed river sand, fine");
        ("category", JStr "sand"); ("pricePerUnit", JNum (Num 125 (-1)));
        ("unit", JStr "ton"); ("availableQuantity", JInt 40);
        ("supplierId", JInt 99)])
    partner8.

(** The options the two requests above lead to. *)
Definition inactive_cranes_options : findOptions :=
  Vehicles.list_options Partner
    (Built 1 10 0 (<["category" := Equals (JStr "crane")]>
                     {[ "status" := Equals (JStr "active") ]})
           [("featured", DESC); ("rating", DESC)]).

Definition unavailable_materials_options : findOptions :=
  Materials.list_options Partner
    (Built 1 10 0 {[ "isAvailable" := Equals (JBool true) ]}
           [("featured", DESC); ("rating", DESC)]).

(** PUT /users/profile without a name. *)
Definition nameless_profile : request :=
  Request ∅ 0 (list_to_map [("email", JStr "ann@example.com"); ("phone", JStr "555")])
          partner7.

(** GET /vehicles?page=7&limit=10 (beyond the last page of the scenario
    store) and GET /vehicles?category=truck (no match there). *)
Definition beyond_last_page : request := get [("page", JStr "7"); ("limit", JStr "10")].
Definition trucks : request := get [("category", JStr "truck")].

End Scenario.

(* ================================================================== *)
(** ** Vocabulary for the properties of the single routes *)
(* ================================================================== *)

(** The tables a route writes to: the model on which it calls [create],
    [update] or [destroy]. *)
Definition writes (e : endpoint) : list model :=
  match e with
  | VehiclesCreate | VehiclesUpdate | VehiclesDelete | VehiclesAvailability => [Vehicle]
  | MaterialsCreate | MaterialsUpdate | MaterialsDelete => [Material]
  | UsersUpdateProfile => [User]
  | UsersDeleteAccount => [ServiceRequest; User]
  | _ => []
  end.

(** The 404 answer of the lookups. *)
Definition not_found (message : string) : response :=
  status_json 404 (JObj [("success", JBool false); ("message", JStr message)]).

(** The 400 answer of the validation branches that use the envelope. *)
Definition validation_failed (errors : list verror) : response :=
  status_json 400
    (JObj [("success", JBool false); ("message", JStr "Validation failed");
           ("errors", errors_array errors)]).

(** [instance.update(data)] on the attributes of a record. *)
Definition updated (data : gmap string jsval) (r : row) : row :=
  Row (pk r) (delete "id" data ∪ attrs r).

(** [v.k] for a value rendered in a response body. *)
Definition member (v : jsval) (k : string) : option jsval :=
  match v with
  | JObj fields => assoc k fields
  | _ => None
  end.

(** The object that PUT /users/profile hands to [update] (line 60). *)
Definition profile_fields (b : gmap string jsval) : gmap string jsval :=
  <["address" := prop b "address"]>
    (<["phone" := prop b "phone"]>
       (<["email" := prop b "email"]> {[ "name" := prop b "name" ]})).

(** The predicate of the e-mail lookup of PUT /users/profile (lines 47-50). *)
Definition other_account (uid : N) (email : jsval) : gmap string cond :=
  <["id" := Ops {[ Op_ne := JInt (Z.of_N uid) ]}]> {[ "email" := Equals email ]}.

(** The status of a listing answer, from the three tests the handler
    makes: the validation outcome, whether the translation of the criteria
    raises, and whether the store can be reached. *)
Definition listing_status (invalid raises reachable : bool) : Z :=
  if invalid then 400%Z
  else if raises || negb reachable then 500%Z
  else 200%Z.

(** The constraint that two bound parameters leave under one key (the
    second assignment spreads the object left by the first). *)
Definition range (lo hi : jsval) : option cond :=
  match truthy lo, truthy hi with
  | false, false => None
  | true, false => Some (Ops {[ Op_gte := parseFloat lo ]})
  | false, true => Some (Ops {[ Op_lte := parseFloat hi ]})
  | true, true => Some (Ops (<[Op_lte := parseFloat hi]> {[ Op_gte := parseFloat lo ]}))
  end.

(** [v <= column] and [column <= v] for a supplied bound [v]. *)
Definition at_least (v x : jsval) : bool := negb (truthy v) || sql_leb (parseFloat v) x.
Definition at_most (v x : jsval) : bool := negb (truthy v) || sql_leb x (parseFloat v).

(** The record is of the requested category, when one is requested. *)
Definition of_category (v x : jsval) : bool := negb (truthy v) || strict_eq x v.

(** The text on which the validator of chain [c] runs, for the raw value
    [raw] of its field. *)
Definition validated_text (c : chain) (raw : jsval) : string :=
  if has_trim c then trim (Validator.toString raw) else Validator.toString raw.

(** What a chain that ran leaves under its field. *)
Definition sanitized (c : chain) (raw : jsval) : jsval :=
  if has_trim c then JStr (validated_text c raw) else raw.

(** Further scenarios. *)
Module Cases.

(** The scenario store, unreachable. *)
Definition offline : world :=
  World (Database (vehicles Scenario.store) (materials Scenario.store)
                  (partners Scenario.store) (users Scenario.store)
                  (serviceRequests Scenario.store) false) [].

(** A request on key 99, which no record of the scenario store has. *)
Definition missing : request := Request ∅ 99 ∅ Scenario.partner7.

(** PUT by the owner (partner 7) on entity 1: a negative price and a new
    owner for a vehicle; a name to be trimmed for a material. *)
Definition owner_vehicle_update : request :=
  Request ∅ 1 (<["ownerId" := JInt 9]> {[ "pricePerHour" := JInt (-3) ]}) Scenario.partner7.

Definition owner_material_update : request :=
  Request ∅ 1 {[ "name" := JStr " Pit gravel " ]} Scenario.partner7.

(** DELETE by the owner on entity 2. *)
Definition owner_delete : request := Request ∅ 2 ∅ Scenario.partner7.

(** POST /vehicles/1/availability by the owner and by partner 8. *)
Definition owner_availability : request :=
  Request ∅ 1 {[ "isAvailable" := JBool false ]} Scenario.partner7.

Definition foreign_availability : request :=
  Request ∅ 1 {[ "isAvailable" := JBool false ]} Scenario.partner8.

(** Two accounts and their service requests. *)
Definition ann : row :=
  Row 1 (<["password" := JStr "$2a$10$annhash"]>
           (<["email" := JStr "ann@site.io"]> {[ "name" := JStr "Ann" ]})).

Definition bob : row :=
  Row 2 (<["password" := JStr "$2a$10$bobhash"]>
           (<["email" := JStr "bob@site.io"]> {[ "name" := JStr "Bob" ]})).

Definition order_of (i u : N) : row := Row i {[ "userId" := JInt (Z.of_N u) ]}.

Definition accounts : world :=
  World (Database (vehicles Scenario.store) (materials Scenario.store)
                  Scenario.empty_table (Table [ann; bob] 3)
                  (Table [order_of 1 1; order_of 2 2; order_of 3 1] 4) true) [].

(** Requests of user 1 (Ann): a plain one, a profile update that keeps her
    address, and one that asks for Bob's address. *)
Definition as_ann : request := Request ∅ 0 ∅ Scenario.partner7.

Definition ann_profile (email : string) : request :=
  Request ∅ 0
    (list_to_map [("name", JStr "Ann B"); ("email", JStr email); ("phone", JStr "555");
                  ("password", JStr "chosen")])
    Scenario.partner7.

(** The answer to the listing request of the scenario. *)
Definition page2_answer : response :=
  default (json JNull) (respond (Vehicles.get_list Scenario.excavators_page2) Scenario.w0).

(** The answer to the creation request of the scenario. *)
Definition created_answer : response :=
  default (json JNull) (respond (Vehicles.post 2024 Scenario.new_vehicle) Scenario.w0).

End Cases.

(* ================================================================== *)
(** * Properties *)
(* ================================================================== *)

(* ================================================================== *)
(** ** The runtime on examples *)
(* ================================================================== *)

Example parseInt_2 : parseInt (JStr "2") = Some 2%Z.
Proof. reflexivity. Qed.

Example parseInt_undefined : or_default (parseInt JUndef) 10 = 10%Z.
Proof. reflexivity. Qed.

Example parseInt_array : parseInt (JArr [JStr "7"; JStr "9"]) = Some 7%Z.
Proof. reflexivity. Qed.

Example parseFloat_12_5 : parseFloat (JStr "12.5e1") = JNum (Num 125 0).
Proof. reflexivity. Qed.

Example parseFloat_junk : parseFloat (JStr "abc") = JNaN.
Proof. reflexivity. Qed.

Example num_to_string_ex : num_to_string (Num (-1250) (-3)) = "-1.25".
Proof. reflexivity. Qed.

Example ceil_25_10 : Math_ceil (div 25 10) = 3%Z.
Proof. reflexivity. Qed.

Example isInt_limit_ok : isInt (Some 1%Z) (Some 100%Z) "10" = true.
Proof. reflexivity. Qed.

Example isInt_limit_too_big : isInt (Some 1%Z) (Some 100%Z) "101" = false.
Proof. reflexivity. Qed.

Example isFloat_negative : isFloat (Some (of_Z 0)) "-5" = false.
Proof. reflexivity. Qed.

Example isFloat_decimal : isFloat (Some (of_Z 0)) "12.50" = true.
Proof. reflexivity. Qed.

Example isFloat_junk : isFloat (Some (of_Z 0)) "12abc" = false.
Proof. reflexivity. Qed.

Example trim_name : trim "  Loader 3 " = "Loader 3".
Proof. reflexivity. Qed.

(** U+00A0 before the name, U+3000 and a space after it. *)
Example trim_wide_space :
  trim (String "194" (String "160"
          ("Loader 3" +:+ String "227" (String "128" (String "128" " ")))))
  = "Loader 3".
Proof. reflexivity. Qed.

(** The two bytes of U+00E9 are one character. *)
Example isLength_counts_characters :
  code_points (String "195" (String "169" "")) = 1
  /\ isLength 2 (Some 100) (String "195" (String "169" "")) = false
  /\ isLength 1 (Some 1) (String "195" (String "169" "")) = true.
Proof. repeat split; reflexivity. Qed.

(** U+FEFF before the digits. *)
Example parseInt_after_wide_space :
  parseInt (JStr (String "239" (String "187" (String "191" " 7")))) = Some 7%Z.
Proof. reflexivity. Qed.

(* ================================================================== *)
(** ** Validation leaves untrimmed data alone *)
(* ================================================================== *)

Lemma run_chain_untrimmed data c :
  has_trim c = false -> fst (run_chain data c) = data.
Proof.
  intros H. unfold run_chain. rewrite H.
  destruct (is_optional c && is_undefined (prop data (field c))); reflexivity.
Qed.

Lemma run_chains_untrimmed cs : forall data,
  Forall (fun c => has_trim c = false) cs -> fst (run_chains data cs) = data.
Proof.
  induction cs as [| c cs IH]; intros data H; [reflexivity |].
  inversion H as [| ? ? Hc Hcs]; subst. cbn [run_chains].
  pose proof (run_chain_untrimmed data c Hc) as E.
  destruct (run_chain data c) as [d1 e1]. cbn in E. subst d1.
  specialize (IH data Hcs). destruct (run_chains data cs) as [d2 e2].
  exact IH.
Qed.

Lemma vehicles_list_rules_keep q : fst (run_chains q Vehicles.list_rules) = q.
Proof. apply run_chains_untrimmed. repeat constructor. Qed.

Lemma materials_list_rules_keep q : fst (run_chains q Materials.list_rules) = q.
Proof. apply run_chains_untrimmed. repeat constructor. Qed.

(* ================================================================== *)
(** ** Journal bookkeeping *)
(* ================================================================== *)

Lemma issued_nil (h : M response) w :
  journal (after h w) = journal w -> issued h w = [].
Proof. intros E. unfold issued. rewrite E. apply drop_all. Qed.

Lemma issued_one (h : M response) w c :
  journal (after h w) = journal w ++ [c] -> issued h w = [c].
Proof. intros E. unfold issued. rewrite E. by rewrite drop_app_length. Qed.

(* ================================================================== *)
(** ** The criteria-to-query translation *)
(* ================================================================== *)

(** In the vehicle module [Op] is bound, so a price bound never throws. *)
Lemma vehicles_bound_ok f o v w :
  Vehicles.bound f o "Op" v w =
  Ok (if truthy v then <[f := Ops (<[o := parseFloat v]> (spread (w !! f)))]> w else w).
Proof. unfold Vehicles.bound. destruct (truthy v); reflexivity. Qed.

(** In the material module [Op] is unbound: a supplied price bound throws. *)
Lemma materials_bound_throws f o v w :
  Materials.bound f o "Op" v w =
  if truthy v then Throw (ReferenceError "Op") else Ok w.
Proof. unfold Materials.bound. destruct (truthy v); reflexivity. Qed.

(** The vehicle translation throws exactly when a city, state or search
    parameter is supplied. *)
Lemma vehicles_buildQuery_throws q :
  throws (Vehicles.buildQuery q)
  = truthy (prop q "city") || truthy (prop q "state") || truthy (prop q "search").
Proof.
  unfold Vehicles.buildQuery. repeat (rewrite vehicles_bound_ok; cbn [rbind]).
  destruct (truthy (prop q "city")); [reflexivity |].
  destruct (truthy (prop q "state")); [reflexivity |].
  destruct (truthy (prop q "search")); reflexivity.
Qed.

(** The material translation throws exactly when a price bound is
    supplied. *)
Lemma materials_buildQuery_throws q :
  throws (Materials.buildQuery q)
  = truthy (prop q "minPrice") || truthy (prop q "maxPrice").
Proof.
  unfold Materials.buildQuery. rewrite materials_bound_throws.
  destruct (truthy (prop q "minPrice")); [reflexivity |]. cbn [rbind].
  rewrite materials_bound_throws.
  destruct (truthy (prop q "maxPrice")); reflexivity.
Qed.

Lemma vehicles_location_throws q :
  truthy (prop q "city") = true \/ truthy (prop q "state") = true ->
  exists e, Vehicles.buildQuery q = Throw e.
Proof.
  intros H. pose proof (vehicles_buildQuery_throws q) as T.
  destruct (Vehicles.buildQuery q) as [b | e]; [| eauto].
  cbn in T. destruct H as [H | H]; rewrite H in T;
    [| destruct (truthy (prop q "city"))]; discriminate.
Qed.

Lemma vehicles_where_status q b :
  Vehicles.buildQuery q = Ok b ->
  b_where b !! "status" = Some (Equals (JStr "active")).
Proof.
  unfold Vehicles.buildQuery. repeat (rewrite vehicles_bound_ok; cbn [rbind]).
  destruct (truthy (prop q "city")); [discriminate |].
  destruct (truthy (prop q "state")); [discriminate |].
  destruct (truthy (prop q "search")); [discriminate |].
  cbn [rbind]. intros [= <-]. cbn [b_where].
  repeat match goal with
         | |- context [if ?c then _ else _] => destruct c
         end;
    repeat (rewrite lookup_insert_ne by discriminate);
    apply lookup_singleton_eq.
Qed.

Lemma materials_where_available q b :
  Materials.buildQuery q = Ok b ->
  b_where b !! "isAvailable" = Some (Equals (JBool true)).
Proof.
  unfold Materials.buildQuery. rewrite materials_bound_throws.
  destruct (truthy (prop q "minPrice")); [discriminate |]. cbn [rbind].
  rewrite materials_bound_throws.
  destruct (truthy (prop q "maxPrice")); [discriminate |]. cbn [rbind].
  intros [= <-]. cbn [b_where].
  destruct (truthy (prop q "category"));
    repeat (rewrite lookup_insert_ne by discriminate);
    apply lookup_singleton_eq.
Qed.

(* ================================================================== *)
(** ** What the listing handlers do, case by case *)
(* ================================================================== *)

Lemma vehicles_get_list_run req w :
  Vehicles.get_list req w =
  match snd (run_chains (query req) Vehicles.list_rules) with
  | [] =>
      match Vehicles.buildQuery (query req) with
      | Throw _ =>
          (Ok (status_json 500
                 (JObj [("success", JBool false);
                        ("message", JStr "Server error while fetching vehicles")])), w)
      | Ok b =>
          let o := Vehicles.list_options Partner b in
          (Ok (if online (database w)
               then json (JObj [("success", JBool true);
                                ("data", JArr (map row_json (select (vehicles (database w)) o)));
                                ("pagination",
                                 pagination (b_page b) (b_limit b)
                                   (count (vehicles (database w)) o))])
               else status_json 500
                      (JObj [("success", JBool false);
                             ("message", JStr "Server error while fetching vehicles")])),
           logged w (FindAndCountAll Vehicle o))
      end
  | errors =>
      (Ok (status_json 400
             (JObj [("success", JBool false); ("message", JStr "Validation failed");
                    ("errors", errors_array errors)])), w)
  end.
Proof.
  unfold Vehicles.get_list, try_catch.
  pose proof (vehicles_list_rules_keep (query req)) as K.
  destruct (run_chains (query req) Vehicles.list_rules) as [q [| e errors]];
    cbn in K; subst q; cbn [snd isEmpty negb]; [| reflexivity].
  unfold bind at 1, lift at 1.
  destruct (Vehicles.buildQuery (query req)) as [b | e]; [| reflexivity].
  cbn. unfold findAndCountAll, call, bind. cbn.
  destruct (online (database w)); reflexivity.
Qed.

Lemma materials_get_list_run req w :
  Materials.get_list req w =
  match snd (run_chains (query req) Materials.list_rules) with
  | [] =>
      match Materials.buildQuery (query req) with
      | Throw _ =>
          (Ok (status_json 500
                 (JObj [("success", JBool false);
                        ("message", JStr "Server error while fetching materials")])), w)
      | Ok b =>
          let o := Materials.list_options Partner b in
          (Ok (if online (database w)
               then json (JObj [("success", JBool true);
                                ("data", JArr (map row_json (select (materials (database w)) o)));
                                ("pagination",
                                 pagination (b_page b) (b_limit b)
                                   (count (materials (database w)) o))])
               else status_json 500
                      (JObj [("success", JBool false);
                             ("message", JStr "Server error while fetching materials")])),
           logged w (FindAndCountAll Material o))
      end
  | errors =>
      (Ok (status_json 400
             (JObj [("success", JBool false); ("message", JStr "Validation failed");
                    ("errors", errors_array errors)])), w)
  end.
Proof.
  unfold Materials.get_list, try_catch.
  pose proof (materials_list_rules_keep (query req)) as K.
  destruct (run_chains (query req) Materials.list_rules) as [q [| e errors]];
    cbn in K; subst q; cbn [snd isEmpty negb]; [| reflexivity].
  unfold bind at 1, lift at 1.
  destruct (Materials.buildQuery (query req)) as [b | e]; [| reflexivity].
  cbn. unfold findAndCountAll, call, bind. cbn.
  destruct (online (database w)); reflexivity.
Qed.

(** Without filters the query carries the availability constraint alone,
    the default two-level order and the first page of ten. *)
Example vehicles_no_filters :
  Vehicles.buildQuery ∅
  = Ok (Built 1 10 0 {[ "status" := Equals (JStr "active") ]}
              [("featured", DESC); ("rating", DESC)]).
Proof. vm_compute. reflexivity. Qed.

Example materials_no_filters_on_the_scenario_store :
  match respond (Materials.get_list (Scenario.get [("sort", JStr "newest")])) Scenario.w0 with
  | Some (Response 200 (Json (JObj fields))) => assoc "pagination" fields
  | _ => None
  end
  = Some (JObj [("page", JInt 1); ("limit", JInt 10); ("total", JInt 2); ("pages", JInt 1)])
  /\ issued (Materials.get_list (Scenario.get [("sort", JStr "newest")])) Scenario.w0
     = [FindAndCountAll Material
          (Materials.list_options Partner
             (Built 1 10 0 {[ "isAvailable" := Equals (JBool true) ]}
                    [("createdAt", DESC)]))].
Proof. split; vm_compute; reflexivity. Qed.

(* ================================================================== *)
(** ** Running a handler by case analysis *)
(* ================================================================== *)

Ltac run_handler :=
  unfold respond, after, try_catch, bind, lift, ret, findAndCountAll, findAll, findOne,
    findByPk, create, update, reload, destroy, destroy_where, call;
  cbn [the existsb String.eqb Ascii.eqb Bool.eqb orb fst snd isEmpty negb
       Vehicles.scope Materials.scope Users.scope].

(** Splits on the validation outcome, on the reachability of the store and
    on every remaining scrutinee that is not itself a case analysis. *)
Ltac split_cases :=
  repeat (cbv beta iota zeta delta [fst snd];
          match goal with
          | |- context [run_chains ?d ?r] =>
              let q := fresh "q" in
              let errs := fresh "errors" in
              destruct (run_chains d r) as [q [| ? errs]]; cbn [fst snd isEmpty negb]
          | |- context [online ?d] => destruct (online d)
          | |- context [match ?x with _ => _ end] =>
              lazymatch x with
              | context [match _ with _ => _ end] => fail
              | context [if _ then _ else _] => fail
              | _ => destruct x
              end
          | |- context [if ?x then _ else _] =>
              lazymatch x with
              | context [match _ with _ => _ end] => fail
              | context [if _ then _ else _] => fail
              | _ => destruct x
              end
          end).

(** As [split_cases], with the reachability of the store known from [H]. *)
Ltac split_known H :=
  repeat first
    [ progress rewrite H
    | progress cbv beta iota zeta delta [fst snd]
    | progress cbn [database online set_table isEmpty negb]
    | match goal with
      | |- context [run_chains ?d ?r] =>
          let q := fresh "q" in
          let errs := fresh "errors" in
          destruct (run_chains d r) as [q [| ? errs]]
      | |- context [match ?x with _ => _ end] =>
          lazymatch x with
          | context [match _ with _ => _ end] => fail
          | context [if _ then _ else _] => fail
          | _ => destruct x
          end
      | |- context [if ?x then _ else _] =>
          lazymatch x with
          | context [match _ with _ => _ end] => fail
          | context [if _ then _ else _] => fail
          | _ => destruct x
          end
      end ].

Ltac envelope_facts :=
  unfold is_envelope, has_message, has_errors, is_error;
  cbn [content status status_json status_send json assoc String.eqb Ascii.eqb Bool.eqb];
  repeat match goal with
         | |- _ /\ _ => split
         | |- _ -> _ => intro
         end;
  first
    [ do 2 eexists; split; reflexivity
    | congruence
    | lia
    | reflexivity ].

Ltac settle :=
  cbv beta iota zeta delta [fst snd];
  eexists; (split; [reflexivity |]);
  first
    [ solve [envelope_facts]
    | solve [left; envelope_facts]
    | solve [right; left; reflexivity]
    | solve [right; right; envelope_facts] ].

(* ================================================================== *)
(** ** C1: the translation raises *)
(* ================================================================== *)

(** C1 (code defect).  The claim says the criteria-to-query translation of
    the listing handlers raises no error on any criteria accepted by
    validation.  Evaluated on accepted criteria, the code raises: the
    vehicle translation of [?city=Austin] throws ReferenceError on
    [filter], and the material translation of [?minPrice=10] throws
    ReferenceError on [Op]. *)
Theorem translation_raises_on_accepted_criteria :
  run_chains (query Scenario.by_city) Vehicles.list_rules = (query Scenario.by_city, [])
  /\ Vehicles.buildQuery (query Scenario.by_city) = Throw (ReferenceError "filter")
  /\ run_chains (query Scenario.by_min_price) Materials.list_rules
     = (query Scenario.by_min_price, [])
  /\ Materials.buildQuery (query Scenario.by_min_price) = Throw (ReferenceError "Op").
Proof. repeat split; vm_compute; reflexivity. Qed.

(* ================================================================== *)
(** ** C2: the excavator scenario *)
(* ================================================================== *)

Lemma excavators_page2_accepted :
  snd (run_chains (query Scenario.excavators_page2) Vehicles.list_rules) = [].
Proof. vm_compute. reflexivity. Qed.

Lemma excavators_page2_built :
  Vehicles.buildQuery (query Scenario.excavators_page2)
  = Ok (Built 2 10 10 Scenario.excavators_where [("featured", DESC); ("rating", DESC)]).
Proof. vm_compute. reflexivity. Qed.

(** The store's reading of the scenario's predicate is the scenario's
    reading of "active excavator priced in range". *)
Lemma excavators_where_matches r :
  matches Scenario.excavators_where r = Scenario.in_range_excavator r.
Proof.
  unfold matches.
  replace (map_to_list Scenario.excavators_where)
    with [("status", Equals (JStr "active"));
          ("category", Equals (JStr "excavator"));
          ("pricePerHour", Ops (<[Op_lte := JInt 200]> {[ Op_gte := JInt 50 ]}))]
    by (vm_compute; reflexivity).
  cbn [forallb fst snd holds].
  replace (map_to_list (<[Op_lte := JInt 200]> ({[ Op_gte := JInt 50 ]} : gmap op jsval)))
    with [(Op_lte, JInt 200); (Op_gte, JInt 50)]
    by (vm_compute; reflexivity).
  cbn [forallb fst snd holds_op]. unfold Scenario.in_range_excavator.
  destruct (strict_eq (column r "status") (JStr "active")),
    (strict_eq (column r "category") (JStr "excavator")),
    (sql_leb (JInt 50) (column r "pricePerHour")),
    (sql_leb (column r "pricePerHour") (JInt 200)); reflexivity.
Qed.

(** C2.  For GET /vehicles?category=excavator&minPriceHour=50&maxPriceHour=200&page=2&limit=10
    against a reachable store holding 25 active excavators priced within
    [50, 200], the one query handed to the store has the predicate
    {status = active, category = excavator, pricePerHour >= 50 and <= 200
    under the single key pricePerHour}, offset 10 and limit 10, and the
    response carries pagination {page: 2, limit: 10, total: 25, pages: 3}. *)
Theorem excavators_page2_query_and_pagination (w : world) :
  online (database w) = true ->
  length (List.filter Scenario.in_range_excavator (rows (vehicles (database w)))) = 25 ->
  exists o data,
    issued (Vehicles.get_list Scenario.excavators_page2) w = [FindAndCountAll Vehicle o]
    /\ o_where o = Scenario.excavators_where
    /\ o_where o !! "pricePerHour"
       = Some (Ops (<[Op_lte := JInt 200]> {[ Op_gte := JInt 50 ]}))
    /\ o_offset o = Some 10%Z
    /\ o_limit o = Some 10%Z
    /\ respond (Vehicles.get_list Scenario.excavators_page2) w
       = Some (json (JObj [("success", JBool true); ("data", data);
                           ("pagination",
                            JObj [("page", JInt 2); ("limit", JInt 10);
                                  ("total", JInt 25); ("pages", JInt 3)])])).
Proof.
  intros Hon Hcount.
  pose proof (vehicles_get_list_run Scenario.excavators_page2 w) as R.
  rewrite excavators_page2_accepted, excavators_page2_built, Hon in R. cbv zeta in R.
  eexists _, _. split; [| split; [| split; [| split; [| split]]]].
  - apply issued_one. unfold after. rewrite R. reflexivity.
  - reflexivity.
  - vm_compute. reflexivity.
  - reflexivity.
  - reflexivity.
  - unfold respond. rewrite R. cbn [fst]. unfold pagination, count, matching.
    cbn [Vehicles.list_options o_where b_where b_page b_limit].
    rewrite (List.filter_ext _ _ excavators_where_matches), Hcount.
    reflexivity.
Qed.

Lemma excavators_page2_witness :
  exists o data,
    issued (Vehicles.get_list Scenario.excavators_page2) Scenario.w0 = [FindAndCountAll Vehicle o]
    /\ o_where o = Scenario.excavators_where
    /\ o_where o !! "pricePerHour"
       = Some (Ops (<[Op_lte := JInt 200]> {[ Op_gte := JInt 50 ]}))
    /\ o_offset o = Some 10%Z
    /\ o_limit o = Some 10%Z
    /\ respond (Vehicles.get_list Scenario.excavators_page2) Scenario.w0
       = Some (json (JObj [("success", JBool true); ("data", data);
                           ("pagination",
                            JObj [("page", JInt 2); ("limit", JInt 10);
                                  ("total", JInt 25); ("pages", JInt 3)])])).
Proof.
  apply (excavators_page2_query_and_pagination Scenario.w0).
  - reflexivity.
  - vm_compute. reflexivity.
Defined.

(* ================================================================== *)
(** ** C3: a location filter never reaches the store *)
(* ================================================================== *)

(** C3 (code defect).  The claim says a supplied city or state filter
    shows up as a partial-match constraint in the predicate handed to the
    store.  On the code, a vehicle listing request with a truthy city or
    state hands nothing to the store and leaves it untouched; once
    validation accepts it, the answer is the 500 failure envelope. *)
Theorem location_filter_never_reaches_store (req : request) (w : world) :
  truthy (prop (query req) "city") = true \/ truthy (prop (query req) "state") = true ->
  issued (Vehicles.get_list req) w = []
  /\ after (Vehicles.get_list req) w = w
  /\ (snd (run_chains (query req) Vehicles.list_rules) = [] ->
      respond (Vehicles.get_list req) w
      = Some (status_json 500
                (JObj [("success", JBool false);
                       ("message", JStr "Server error while fetching vehicles")]))).
Proof.
  intros H. destruct (vehicles_location_throws _ H) as [e E].
  pose proof (vehicles_get_list_run req w) as R. rewrite E in R.
  assert (A : after (Vehicles.get_list req) w = w).
  { unfold after. rewrite R.
    destruct (snd (run_chains (query req) Vehicles.list_rules)); reflexivity. }
  split; [apply issued_nil; rewrite A; reflexivity |].
  split; [exact A |].
  intros V. unfold respond. rewrite R, V. reflexivity.
Qed.

Lemma location_filter_witness :
  issued (Vehicles.get_list Scenario.by_city) Scenario.w0 = []
  /\ after (Vehicles.get_list Scenario.by_city) Scenario.w0 = Scenario.w0
  /\ respond (Vehicles.get_list Scenario.by_city) Scenario.w0
     = Some (status_json 500
               (JObj [("success", JBool false);
                      ("message", JStr "Server error while fetching vehicles")])).
Proof.
  destruct (location_filter_never_reaches_store Scenario.by_city Scenario.w0)
    as (I & A & R); [left; reflexivity |].
  split; [exact I |]. split; [exact A |]. apply R. vm_compute. reflexivity.
Defined.

(* ================================================================== *)
(** ** C4: the response envelope *)
(* ================================================================== *)

(** C4, as stated, fails: GET /users/orders answers with a plain-text body,
    which is no JSON object with a [success] field, and PUT /users/profile
    answers a validation failure (here: no name), whatever the e-mail
    validator says of the address, with an object that has [errors] but no
    [success]. *)
Lemma envelope_counterexample :
  respond (handle Scenario.lib0 UsersOrders Scenario.by_city) Scenario.w0
  = Some (status_send 500 "Server Error")
  /\ ~ is_envelope (status_send 500 "Server Error")
  /\ (forall lib : library,
        exists errors,
          respond (handle lib UsersUpdateProfile Scenario.nameless_profile) Scenario.w0
          = Some (status_json 400 (JObj [("errors", errors_array errors)]))
          /\ In (VError JUndef "Name is required" "name" "body") errors
          /\ ~ is_envelope (status_json 400 (JObj [("errors", errors_array errors)]))).
Proof.
  split; [vm_compute; reflexivity |].
  split; [intros (fields & b & E & _); discriminate |].
  intros lib.
  assert (N : forall errors,
             ~ is_envelope (status_json 400 (JObj [("errors", errors_array errors)]))).
  { intros errors (fields & b & E & S). cbn in E. injection E as <-. cbn in S.
    discriminate. }
  destruct (isEmail lib "ann@example.com") eqn:Mail.
  - exists [VError JUndef "Name is required" "name" "body"].
    split; [| split; [left; reflexivity | apply N]].
    unfold respond, handle, Users.put_profile, Scenario.nameless_profile.
    cbn [body run_chains Users.profile_rules].
    unfold run_chain at 1 2 3.
    cbn [field is_optional has_trim test message location withMessage on_body andb
         run_check].
    replace (prop (list_to_map [("email", JStr "ann@example.com"); ("phone", JStr "555")])
                  "name") with JUndef by (vm_compute; reflexivity).
    replace (prop (list_to_map [("email", JStr "ann@example.com"); ("phone", JStr "555")])
                  "email") with (JStr "ann@example.com") by (vm_compute; reflexivity).
    replace (prop (list_to_map [("email", JStr "ann@example.com"); ("phone", JStr "555")])
                  "phone") with (JStr "555") by (vm_compute; reflexivity).
    cbn [Validator.toString ToString is_empty_text String.eqb Ascii.eqb Bool.eqb negb].
    rewrite Mail. reflexivity.
  - exists [VError JUndef "Name is required" "name" "body";
            VError (JStr "ann@example.com") "Please include a valid email" "email" "body"].
    split; [| split; [left; reflexivity | apply N]].
    unfold respond, handle, Users.put_profile, Scenario.nameless_profile.
    cbn [body run_chains Users.profile_rules].
    unfold run_chain at 1 2 3.
    cbn [field is_optional has_trim test message location withMessage on_body andb
         run_check].
    replace (prop (list_to_map [("email", JStr "ann@example.com"); ("phone", JStr "555")])
                  "name") with JUndef by (vm_compute; reflexivity).
    replace (prop (list_to_map [("email", JStr "ann@example.com"); ("phone", JStr "555")])
                  "email") with (JStr "ann@example.com") by (vm_compute; reflexivity).
    replace (prop (list_to_map [("email", JStr "ann@example.com"); ("phone", JStr "555")])
                  "phone") with (JStr "555") by (vm_compute; reflexivity).
    cbn [Validator.toString ToString is_empty_text String.eqb Ascii.eqb Bool.eqb negb].
    rewrite Mail. reflexivity.
Qed.

Ltac settle_users :=
  cbv beta iota zeta delta [fst snd];
  eexists; (split; [reflexivity |]);
  first
    [ solve [left; split; [envelope_facts |];
             split; [envelope_facts |];
             repeat split; first [reflexivity | discriminate]]
    | solve [right; left; split; [reflexivity |];
             split; [reflexivity |];
             first [left; reflexivity | right; reflexivity]]
    | solve [right; right; split; [reflexivity |];
             split; [discriminate | reflexivity]] ].

(** C4 (amended).  Every route answers every request.  A vehicle or
    material route answers with a JSON object carrying a boolean [success];
    its error answers carry [message], and a validation failure is a 400
    carrying an [errors] array.  A user route answers in one of three ways,
    each under its own condition: on a validation failure (PUT /profile
    only) with status 400 and the object {errors: [...]} alone; otherwise,
    on an unexpected failure, with status 500 and the plain text
    'Server Error'; otherwise with an envelope, its error answers carrying
    [message].  An unexpected failure is an exception raised inside the
    [try]: a persistence call that fails, or the read of an unbound
    identifier, which GET /orders makes on every request. *)
Theorem envelope_outside_users_and_users_exceptions
    (lib : library) (e : endpoint) (req : request) (w : world) :
  exists r, respond (handle lib e req) w = Some r /\
    if in_users e then
      (is_envelope r /\ (is_error r -> has_message r)
       /\ violations lib e req = [] /\ e <> UsersOrders /\ online (database w) = true)
      \/ (r = server_error
          /\ violations lib e req = []
          /\ (e = UsersOrders \/ online (database w) = false))
      \/ (e = UsersUpdateProfile /\ violations lib e req <> []
          /\ r = status_json 400 (JObj [("errors", errors_array (violations lib e req))]))
    else
      is_envelope r /\ (is_error r -> has_message r)
      /\ (violations lib e req <> [] -> status r = 400%Z /\ has_errors r).
Proof.
  destruct e; cbn [handle in_users violations].
  - unfold Vehicles.get_list. run_handler. split_cases; settle.
  - unfold Vehicles.get_one. run_handler. split_cases; settle.
  - unfold Vehicles.post. run_handler. split_cases; settle.
  - unfold Vehicles.put. run_handler. split_cases; settle.
  - unfold Vehicles.delete. run_handler. split_cases; settle.
  - unfold Vehicles.post_availability. run_handler. split_cases; settle.
  - unfold Vehicles.get_categories. run_handler. split_cases; settle.
  - unfold Materials.get_list. run_handler. split_cases; settle.
  - unfold Materials.get_one. run_handler. split_cases; settle.
  - unfold Materials.post. run_handler. split_cases; settle.
  - unfold Materials.put. run_handler. split_cases; settle.
  - unfold Materials.delete. run_handler. split_cases; settle.
  - unfold Materials.get_categories. run_handler. split_cases; settle.
  - unfold Users.get_profile. run_handler.
    destruct (online (database w)) eqn:Hon; split_known Hon; settle_users.
  - unfold Users.put_profile. run_handler.
    destruct (online (database w)) eqn:Hon; split_known Hon; settle_users.
  - unfold Users.get_orders. run_handler.
    destruct (online (database w)) eqn:Hon; split_known Hon; settle_users.
  - unfold Users.delete_account. run_handler.
    destruct (online (database w)) eqn:Hon; split_known Hon; settle_users.
Qed.

Lemma envelope_witness :
  exists r,
    respond (handle Scenario.lib0 MaterialsUpdate Scenario.foreign_bad_update) Scenario.w0
    = Some r
    /\ is_envelope r /\ has_message r /\ status r = 400%Z /\ has_errors r.
Proof.
  destruct (envelope_outside_users_and_users_exceptions
              Scenario.lib0 MaterialsUpdate Scenario.foreign_bad_update Scenario.w0)
    as (r & Hr & He & Hm & Hv).
  destruct Hv as [Hs Herr]; [vm_compute; discriminate |].
  exists r. split; [exact Hr |]. split; [exact He |].
  split; [apply Hm; unfold is_error; rewrite Hs; lia |].
  split; [exact Hs | exact Herr].
Defined.

(* ================================================================== *)
(** ** C5: ownership on update and delete *)
(* ================================================================== *)

(** A handler that answers after one journalled call and leaves the
    tables alone. *)
Lemma answered_after_one_call (h : M response) (w : world) (r : response) (c : dbcall) :
  h w = (Ok r, logged w c) ->
  respond h w = Some r /\ issued h w = [c] /\ database (after h w) = database w.
Proof.
  intros E. split; [unfold respond; rewrite E; reflexivity |].
  split; [apply issued_one; unfold after; rewrite E; reflexivity |].
  unfold after. rewrite E. reflexivity.
Qed.

Lemma vehicles_put_foreign req w v :
  online (database w) = true ->
  lookup_pk (vehicles (database w)) (params_id req) = Some v ->
  strict_eq (column v "ownerId") (partnerId (user req)) = false ->
  Vehicles.put req w
  = (Ok (forbidden "Not authorized to update this vehicle"),
     logged w (FindByPk Vehicle (params_id req) no_options)).
Proof.
  intros Hon Hv Hne. unfold Vehicles.put. run_handler.
  rewrite Hon. cbn [table_of o_attributes no_options]. rewrite Hv.
  cbn [fmap option_fmap option_map project]. rewrite Hne. reflexivity.
Qed.

Lemma vehicles_delete_foreign req w v :
  online (database w) = true ->
  lookup_pk (vehicles (database w)) (params_id req) = Some v ->
  strict_eq (column v "ownerId") (partnerId (user req)) = false ->
  Vehicles.delete req w
  = (Ok (forbidden "Not authorized to delete this vehicle"),
     logged w (FindByPk Vehicle (params_id req) no_options)).
Proof.
  intros Hon Hv Hne. unfold Vehicles.delete. run_handler.
  rewrite Hon. cbn [table_of o_attributes no_options]. rewrite Hv.
  cbn [fmap option_fmap option_map project]. rewrite Hne. reflexivity.
Qed.

Lemma materials_delete_foreign req w m :
  online (database w) = true ->
  lookup_pk (materials (database w)) (params_id req) = Some m ->
  strict_eq (column m "supplierId") (partnerId (user req)) = false ->
  Materials.delete req w
  = (Ok (forbidden "Not authorized to delete this material"),
     logged w (FindByPk Material (params_id req) no_options)).
Proof.
  intros Hon Hm Hne. unfold Materials.delete. run_handler.
  rewrite Hon. cbn [table_of o_attributes no_options]. rewrite Hm.
  cbn [fmap option_fmap option_map project]. rewrite Hne. reflexivity.
Qed.

(** PUT /materials/:id validates first: a rejected body is answered 400
    before the material is looked up. *)
Lemma materials_put_foreign req w m :
  online (database w) = true ->
  lookup_pk (materials (database w)) (params_id req) = Some m ->
  strict_eq (column m "supplierId") (partnerId (user req)) = false ->
  Materials.put req w
  = match snd (run_chains (body req) Materials.put_rules) with
    | [] => (Ok (forbidden "Not authorized to update this material"),
             logged w (FindByPk Material (params_id req) no_options))
    | errors =>
        (Ok (status_json 400
               (JObj [("success", JBool false); ("message", JStr "Validation failed");
                      ("errors", errors_array errors)])), w)
    end.
Proof.
  intros Hon Hm Hne. unfold Materials.put. run_handler.
  destruct (run_chains (body req) Materials.put_rules) as [b [| e errors]];
    cbn [snd isEmpty negb fst]; [| reflexivity].
  rewrite Hon. cbn [table_of o_attributes no_options]. rewrite Hm.
  cbn [fmap option_fmap option_map project]. rewrite Hne. reflexivity.
Qed.

(** C5, as stated, fails for PUT /materials/{id}: a non-owner sending a
    body that fails validation is answered 400, not 403. *)
Lemma ownership_counterexample :
  lookup_pk (materials (database Scenario.w0)) (params_id Scenario.foreign_bad_update)
  = Some Scenario.gravel
  /\ strict_eq (column Scenario.gravel "supplierId")
               (partnerId (user Scenario.foreign_bad_update)) = false
  /\ exists r, respond (Materials.put Scenario.foreign_bad_update) Scenario.w0 = Some r
               /\ status r = 400%Z /\ status r <> 403%Z.
Proof.
  split; [reflexivity |]. split; [reflexivity |].
  eexists. split; [vm_compute; reflexivity |]. split; [reflexivity | discriminate].
Qed.

(** C5 (amended).  When the store is reachable, the target exists and its
    owner differs from the principal's partnerId: PUT and DELETE on a
    vehicle and DELETE on a material answer 403 whatever the body; PUT on
    a material answers 403 when its body passes validation and 400 when it
    does not.  In every case the lookup is the only call handed to the
    store, if any, and the store is left as it was. *)
Theorem foreign_update_and_delete_are_refused (req : request) (w : world) :
  online (database w) = true ->
  (forall v,
      lookup_pk (vehicles (database w)) (params_id req) = Some v ->
      strict_eq (column v "ownerId") (partnerId (user req)) = false ->
      (respond (Vehicles.put req) w = Some (forbidden "Not authorized to update this vehicle")
       /\ issued (Vehicles.put req) w = [FindByPk Vehicle (params_id req) no_options]
       /\ database (after (Vehicles.put req) w) = database w)
      /\ (respond (Vehicles.delete req) w
          = Some (forbidden "Not authorized to delete this vehicle")
          /\ issued (Vehicles.delete req) w = [FindByPk Vehicle (params_id req) no_options]
          /\ database (after (Vehicles.delete req) w) = database w))
  /\ (forall m,
         lookup_pk (materials (database w)) (params_id req) = Some m ->
         strict_eq (column m "supplierId") (partnerId (user req)) = false ->
         (respond (Materials.delete req) w
          = Some (forbidden "Not authorized to delete this material")
          /\ issued (Materials.delete req) w = [FindByPk Material (params_id req) no_options]
          /\ database (after (Materials.delete req) w) = database w)
         /\ database (after (Materials.put req) w) = database w
         /\ (forall c, In c (issued (Materials.put req) w) ->
                       c = FindByPk Material (params_id req) no_options)
         /\ (snd (run_chains (body req) Materials.put_rules) = [] ->
             respond (Materials.put req) w
             = Some (forbidden "Not authorized to update this material"))
         /\ (snd (run_chains (body req) Materials.put_rules) <> [] ->
             exists r, respond (Materials.put req) w = Some r /\ status r = 400%Z)).
Proof.
  intros Hon. split.
  - intros v Hv Hne. split; apply answered_after_one_call.
    + exact (vehicles_put_foreign req w v Hon Hv Hne).
    + exact (vehicles_delete_foreign req w v Hon Hv Hne).
  - intros m Hm Hne.
    split; [apply answered_after_one_call;
            exact (materials_delete_foreign req w m Hon Hm Hne) |].
    pose proof (materials_put_foreign req w m Hon Hm Hne) as R.
    destruct (snd (run_chains (body req) Materials.put_rules)) as [| e errors].
    + destruct (answered_after_one_call _ _ _ _ R) as (Hr & Hi & Hd).
      split; [exact Hd |]. split; [| split; [intros _; exact Hr | intros []; reflexivity]].
      intros c Hc. rewrite Hi in Hc. destruct Hc as [<- | []]. reflexivity.
    + split; [unfold after; rewrite R; reflexivity |].
      split; [| split; [discriminate |]].
      * intros c Hc. rewrite issued_nil in Hc; [destruct Hc |].
        unfold after. rewrite R. reflexivity.
      * intros _. eexists. split; [unfold respond; rewrite R; reflexivity | reflexivity].
Qed.

Lemma foreign_update_witness :
  ((respond (Vehicles.put Scenario.foreign_update) Scenario.w0
    = Some (forbidden "Not authorized to update this vehicle")
    /\ issued (Vehicles.put Scenario.foreign_update) Scenario.w0
       = [FindByPk Vehicle 1 no_options]
    /\ database (after (Vehicles.put Scenario.foreign_update) Scenario.w0)
       = database Scenario.w0)
   /\ (respond (Vehicles.delete Scenario.foreign_update) Scenario.w0
       = Some (forbidden "Not authorized to delete this vehicle")
       /\ issued (Vehicles.delete Scenario.foreign_update) Scenario.w0
          = [FindByPk Vehicle 1 no_options]
       /\ database (after (Vehicles.delete Scenario.foreign_update) Scenario.w0)
          = database Scenario.w0))
  /\ respond (Materials.delete Scenario.foreign_update) Scenario.w0
     = Some (forbidden "Not authorized to delete this material")
  /\ respond (Materials.put Scenario.foreign_update) Scenario.w0
     = Some (forbidden "Not authorized to update this material").
Proof.
  destruct (foreign_update_and_delete_are_refused Scenario.foreign_update Scenario.w0)
    as [V Mt]; [reflexivity |].
  split.
  - apply (V (Scenario.excavator 1)); reflexivity.
  - destruct (Mt Scenario.gravel) as ((D & _) & _ & _ & P & _); [reflexivity | reflexivity |].
    split; [exact D |]. apply P. vm_compute. reflexivity.
Defined.

(* ================================================================== *)
(** ** C6: the availability constraint *)
(* ================================================================== *)

Lemma vehicles_issued_cases req w :
  issued (Vehicles.get_list req) w = []
  \/ exists b, Vehicles.buildQuery (query req) = Ok b
               /\ issued (Vehicles.get_list req) w
                  = [FindAndCountAll Vehicle (Vehicles.list_options Partner b)].
Proof.
  pose proof (vehicles_get_list_run req w) as R.
  destruct (snd (run_chains (query req) Vehicles.list_rules)).
  - destruct (Vehicles.buildQuery (query req)) as [b | e].
    + right. exists b. split; [reflexivity |].
      apply issued_one. unfold after. rewrite R. reflexivity.
    + left. apply issued_nil. unfold after. rewrite R. reflexivity.
  - left. apply issued_nil. unfold after. rewrite R. reflexivity.
Qed.

Lemma materials_issued_cases req w :
  issued (Materials.get_list req) w = []
  \/ exists b, Materials.buildQuery (query req) = Ok b
               /\ issued (Materials.get_list req) w
                  = [FindAndCountAll Material (Materials.list_options Partner b)].
Proof.
  pose proof (materials_get_list_run req w) as R.
  destruct (snd (run_chains (query req) Materials.list_rules)).
  - destruct (Materials.buildQuery (query req)) as [b | e].
    + right. exists b. split; [reflexivity |].
      apply issued_one. unfold after. rewrite R. reflexivity.
    + left. apply issued_nil. unfold after. rewrite R. reflexivity.
  - left. apply issued_nil. unfold after. rewrite R. reflexivity.
Qed.

(** C6.  Whatever the request carries, every query a listing handler hands
    to the store has the availability constraint under its own key:
    status = 'active' for vehicles, isAvailable = true for materials.  The
    request is arbitrary, so no parameter of the caller removes or replaces
    the constraint. *)
Theorem availability_constraint_in_every_listing_query
    (req : request) (w : world) (m : model) (o : findOptions) :
  (In (FindAndCountAll m o) (issued (Vehicles.get_list req) w) ->
   m = Vehicle /\ o_where o !! "status" = Some (Equals (JStr "active")))
  /\ (In (FindAndCountAll m o) (issued (Materials.get_list req) w) ->
      m = Material /\ o_where o !! "isAvailable" = Some (Equals (JBool true))).
Proof.
  split; intros Hin.
  - destruct (vehicles_issued_cases req w) as [E | (b & Hb & E)];
      rewrite E in Hin; [destruct Hin |].
    destruct Hin as [[= <- <-] | []].
    split; [reflexivity |]. exact (vehicles_where_status _ _ Hb).
  - destruct (materials_issued_cases req w) as [E | (b & Hb & E)];
      rewrite E in Hin; [destruct Hin |].
    destruct Hin as [[= <- <-] | []].
    split; [reflexivity |]. exact (materials_where_available _ _ Hb).
Qed.

Lemma availability_constraint_witness :
  (Vehicle = Vehicle
   /\ o_where Scenario.inactive_cranes_options !! "status" = Some (Equals (JStr "active")))
  /\ (Material = Material
      /\ o_where Scenario.unavailable_materials_options !! "isAvailable"
         = Some (Equals (JBool true))).
Proof.
  split.
  - apply (proj1 (availability_constraint_in_every_listing_query
                    Scenario.inactive_cranes Scenario.w0 Vehicle Scenario.inactive_cranes_options)).
    vm_compute. left. reflexivity.
  - apply (proj2 (availability_constraint_in_every_listing_query
                    Scenario.unavailable_materials Scenario.w0 Material
                    Scenario.unavailable_materials_options)).
    vm_compute. left. reflexivity.
Defined.

(* ================================================================== *)
(** ** Pagination arithmetic *)
(* ================================================================== *)

Lemma Math_ceil_div (a b : Z) :
  (0 < b)%Z -> Math_ceil (div a b) = (- ((- a) / b))%Z.
Proof.
  intros Hb. destruct b as [| p | p]; try lia.
  unfold Math_ceil, div, Qceiling, Qdiv, Qinv, Qmult, Qopp, Qfloor, inject_Z.
  cbn [Qnum Qden]. rewrite Z.mul_1_r, Pos.mul_1_l. reflexivity.
Qed.

Lemma ceiling_of_quotient (a b : Z) :
  (0 < b)%Z -> is_ceiling a b (Math_ceil (div a b)).
Proof.
  intros Hb. rewrite (Math_ceil_div a b Hb). unfold is_ceiling.
  pose proof (Z.div_mod (- a) b ltac:(lia)) as E.
  pose proof (Z.mod_pos_bound (- a) b Hb) as B.
  split; [nia |]. intros k Hk. nia.
Qed.

(** For a page size within [1, 100] and a non-negative total, the
    pagination object is {page, limit, total, pages} with pages the ceiling
    of total / limit; it is 0 when the total is 0 and never negative. *)
Lemma pagination_arithmetic (page limit total : Z) :
  (1 <= limit <= 100)%Z -> (0 <= total)%Z ->
  exists pages,
    pagination page limit total
    = JObj [("page", JInt page); ("limit", JInt limit); ("total", JInt total);
            ("pages", JInt pages)]
    /\ is_ceiling total limit pages
    /\ (total = 0%Z -> pages = 0%Z)
    /\ (0 <= pages)%Z.
Proof.
  intros Hl Ht. exists (Math_ceil (div total limit)).
  pose proof (ceiling_of_quotient total limit ltac:(lia)) as [Hle Hleast].
  split; [reflexivity |]. split; [split; assumption |].
  split.
  - intros ->. specialize (Hleast 0%Z ltac:(lia)). nia.
  - destruct (Z.lt_ge_cases (Math_ceil (div total limit)) 0) as [Hneg | Hpos]; [nia | lia].
Qed.

(** The pagination object of a successful listing is the one above, with
    the total counted over all matching rows. *)
Lemma vehicles_listing_pagination req w b :
  snd (run_chains (query req) Vehicles.list_rules) = [] ->
  Vehicles.buildQuery (query req) = Ok b ->
  online (database w) = true ->
  exists data,
    respond (Vehicles.get_list req) w
    = Some (json (JObj [("success", JBool true); ("data", data);
                        ("pagination",
                         pagination (b_page b) (b_limit b)
                           (Z.of_nat (length (List.filter (matches (b_where b))
                                                (rows (vehicles (database w)))))))])).
Proof.
  intros V B O. unfold respond. rewrite vehicles_get_list_run, V, B, O.
  eexists. reflexivity.
Qed.

Lemma materials_listing_pagination req w b :
  snd (run_chains (query req) Materials.list_rules) = [] ->
  Materials.buildQuery (query req) = Ok b ->
  online (database w) = true ->
  exists data,
    respond (Materials.get_list req) w
    = Some (json (JObj [("success", JBool true); ("data", data);
                        ("pagination",
                         pagination (b_page b) (b_limit b)
                           (Z.of_nat (length (List.filter (matches (b_where b))
                                                (rows (materials (database w)))))))])).
Proof.
  intros V B O. unfold respond. rewrite materials_get_list_run, V, B, O.
  eexists. reflexivity.
Qed.

(* ================================================================== *)
(** ** What validation guarantees about [page] and [limit] *)
(* ================================================================== *)

Lemma digit_is_not_space c d : digit_of c = Some d -> is_ws c = false.
Proof.
  unfold digit_of, is_ws.
  destruct (48 <=? Z.of_N (N_of_ascii c))%Z eqn:L; [| discriminate].
  intros _. apply Z.leb_le in L.
  repeat match goal with
         | |- context [(?a =? ?b)%N] => destruct (N.eqb_spec a b) as [E | _]; [lia |]
         end.
  reflexivity.
Qed.

Lemma take_digits_suffix suffix :
  (suffix = "" \/ exists rest, suffix = String "," rest) ->
  forall s acc cnt v n,
    take_digits s acc cnt = (v, n, EmptyString) ->
    take_digits (s +:+ suffix) acc cnt = (v, n, suffix).
Proof.
  intros Hs. induction s as [| c s IH]; intros acc cnt v n H.
  - cbn in H. injection H as <- <-. cbn.
    destruct Hs as [-> | [rest ->]]; reflexivity.
  - change (String c s +:+ suffix)%string with (String c (s +:+ suffix)).
    cbn [take_digits] in H |- *.
    destruct (digit_of c); [apply IH; exact H | discriminate].
Qed.

(** A text that starts with an ASCII character other than white space has
    no white space at its head. *)
Lemma skip_ws_head c r :
  is_ws c = false -> (N_of_ascii c < 128)%N -> skip_ws (String c r) = String c r.
Proof.
  intros W L. cbn [skip_ws]. rewrite W.
  destruct r as [| c2 r2]; [reflexivity |].
  assert (E2 : is_ws2 c c2 = false).
  { unfold is_ws2. destruct (N.eqb_spec (N_of_ascii c) 194); [lia | reflexivity]. }
  rewrite E2. destruct r2 as [| c3 r3]; [reflexivity |].
  assert (E3 : is_ws3 c c2 c3 = false).
  { unfold is_ws3. cbv zeta.
    destruct (N.eqb_spec (N_of_ascii c) 225); [lia |].
    destruct (N.eqb_spec (N_of_ascii c) 226); [lia |].
    destruct (N.eqb_spec (N_of_ascii c) 227); [lia |].
    destruct (N.eqb_spec (N_of_ascii c) 239); [lia |].
    reflexivity. }
  rewrite E3. reflexivity.
Qed.

Lemma digit_is_ascii c d : digit_of c = Some d -> (N_of_ascii c < 128)%N.
Proof.
  unfold digit_of. cbv zeta.
  destruct ((48 <=? Z.of_N (N_of_ascii c))%Z && (Z.of_N (N_of_ascii c) <=? 57)%Z) eqn:E;
    [| discriminate].
  intros _. apply andb_prop in E as [_ E]. apply Z.leb_le in E. lia.
Qed.

Lemma isInt_parseInt lo hi s t :
  isInt lo hi s = true -> extends s t ->
  exists z, parseInt_string t = Some z
            /\ match lo with Some l => (l <= z)%Z | None => True end
            /\ match hi with Some h => (z <= h)%Z | None => True end.
Proof.
  unfold isInt, parseInt_string. intros H (suffix & -> & Hs).
  destruct (strip_sign s) as [neg s1] eqn:Hsign.
  destruct (take_digits s1 0 0) as [[v n] rest] eqn:Hd.
  apply andb_prop in H as [H Hhi]. apply andb_prop in H as [H Hlo].
  apply andb_prop in H as [Hn Hrest].
  apply String.eqb_eq in Hrest. subst rest.
  assert (Hskip : skip_ws (s +:+ suffix) = (s +:+ suffix)%string
                  /\ strip_sign (s +:+ suffix) = (neg, (s1 +:+ suffix)%string)).
  { destruct s as [| c r]; cbn in Hsign.
    - injection Hsign as <- <-. cbn in Hd. injection Hd as <- <- . discriminate.
    - change (String c r +:+ suffix)%string with (String c (r +:+ suffix)).
      destruct (Ascii.eqb_spec c "-") as [-> | N1].
      { injection Hsign as <- <-.
        rewrite skip_ws_head by (vm_compute; reflexivity). split; reflexivity. }
      destruct (Ascii.eqb_spec c "+") as [-> | N2].
      { injection Hsign as <- <-.
        rewrite skip_ws_head by (vm_compute; reflexivity). split; reflexivity. }
      injection Hsign as <- <-. cbn in Hd.
      destruct (digit_of c) as [d |] eqn:Dc.
      + rewrite (skip_ws_head c _ (digit_is_not_space c d Dc) (digit_is_ascii c d Dc)).
        cbn [strip_sign].
        destruct (Ascii.eqb_spec c "-"); [contradiction |].
        destruct (Ascii.eqb_spec c "+"); [contradiction |].
        split; reflexivity.
      + injection Hd as <- <-. discriminate. }
  destruct Hskip as [-> ->].
  rewrite (take_digits_suffix suffix Hs s1 0%Z 0 v n Hd).
  destruct (Nat.eqb n 0); [discriminate |].
  eexists. split; [reflexivity |]. split.
  - destruct lo; [apply Z.leb_le; exact Hlo | exact I].
  - destruct hi; [apply Z.leb_le; exact Hhi | exact I].
Qed.

(** A value that passes [isInt] reads, through [ToString], as its
    validated text, possibly followed by a comma and more. *)
Lemma validated_text_extends lo hi v :
  isInt lo hi (toString v) = true -> extends (toString v) (ToString v).
Proof.
  intros H.
  assert (Same : forall s, extends s s).
  { intros s. exists ""%string. split; [| left; reflexivity].
    induction s as [| c s IH]; [reflexivity |].
    change (String c s +:+ "")%string with (String c (s +:+ "")).
    f_equal. exact IH. }
  destruct v as [| | b | n | | s | l | fields];
    try discriminate H; try (apply Same).
  destruct l as [| x l]; [apply Same |].
  assert (Hx : toString (JArr (x :: l)) = ToString x
               /\ (fun y => match y with JUndef | JNull => ""%string | _ => ToString y end) x
                  = ToString x).
  { destruct x; try discriminate H; split; reflexivity. }
  destruct Hx as [E1 E2]. rewrite E1.
  cbn [ToString map]. cbv beta in E2 |- *. rewrite E2.
  destruct l as [| y l]; [apply Same |].
  cbn [String.concat map].
  eexists. split; [reflexivity |]. right. eexists. reflexivity.
Qed.

Lemma validated_int lo hi v :
  isInt lo hi (toString v) = true ->
  exists z, parseInt v = Some z
            /\ match lo with Some l => (l <= z)%Z | None => True end
            /\ match hi with Some h => (z <= h)%Z | None => True end.
Proof.
  intros H. unfold parseInt.
  exact (isInt_parseInt lo hi _ _ H (validated_text_extends lo hi v H)).
Qed.

Lemma accepted_chain (cs : list chain) : forall q c,
  Forall (fun c => has_trim c = false) cs ->
  snd (run_chains q cs) = [] -> In c cs -> snd (run_chain q c) = [].
Proof.
  induction cs as [| c0 cs IH]; intros q c HF H Hin; [destruct Hin |].
  inversion HF as [| ? ? H0 HF']; subst. cbn [run_chains] in H.
  pose proof (run_chain_untrimmed q c0 H0) as K.
  destruct (run_chain q c0) as [q1 e1] eqn:E1. cbn in K. subst q1.
  destruct (run_chains q cs) as [q2 e2] eqn:E2. cbn [snd] in H.
  apply app_eq_nil in H as [-> ->].
  destruct Hin as [<- | Hin]; [rewrite E1; reflexivity |].
  apply (IH q c HF'); [rewrite E2; reflexivity | exact Hin].
Qed.

(** An optional integer chain that reports nothing: the field is absent,
    or [parseInt] reads it as an integer within the bounds. *)
Lemma accepted_optional_int q f lo hi m :
  snd (run_chain q (Chain "query" f true false (IsInt lo hi) m)) = [] ->
  prop q f = JUndef
  \/ exists n, parseInt (prop q f) = Some n
               /\ match lo with Some l => (l <= n)%Z | None => True end
               /\ match hi with Some h => (n <= h)%Z | None => True end.
Proof.
  intros H. unfold run_chain in H.
  cbn [field is_optional has_trim test run_check andb] in H.
  destruct (prop q f) eqn:E; [left; reflexivity | | | | | | |];
    right; cbn [is_undefined snd] in H;
    match type of H with
    | (if ?c then _ else _) = _ =>
        destruct c eqn:V; [| discriminate H]
    end;
    exact (validated_int lo hi _ V).
Qed.

(** For every accepted query, the page is at least 1 and the page size is
    within [1, 100]. *)
Lemma accepted_window (cs : list chain) (q : gmap string jsval) (m1 m2 : string) :
  Forall (fun c => has_trim c = false) cs ->
  In (Chain "query" "page" true false (IsInt (Some 1%Z) None) m1) cs ->
  In (Chain "query" "limit" true false (IsInt (Some 1%Z) (Some 100%Z)) m2) cs ->
  snd (run_chains q cs) = [] ->
  (1 <= or_default (parseInt (prop q "page")) 1)%Z
  /\ (1 <= or_default (parseInt (prop q "limit")) 10 <= 100)%Z.
Proof.
  intros HF Hp Hl H.
  pose proof (accepted_chain cs q _ HF H Hp) as P.
  pose proof (accepted_chain cs q _ HF H Hl) as L.
  apply accepted_optional_int in P.
  apply accepted_optional_int in L.
  split.
  - destruct P as [-> | (n & -> & Hn & _)];
      [replace (or_default (parseInt JUndef) 1) with 1%Z by reflexivity; lia |].
    unfold or_default. destruct (Z.eqb_spec n 0); lia.
  - destruct L as [-> | (n & -> & Hn & Hn')];
      [replace (or_default (parseInt JUndef) 10) with 10%Z by reflexivity; lia |].
    unfold or_default. destruct (Z.eqb_spec n 0); lia.
Qed.

Lemma vehicles_built_window q b :
  Vehicles.buildQuery q = Ok b ->
  b_page b = or_default (parseInt (prop q "page")) 1
  /\ b_limit b = or_default (parseInt (prop q "limit")) 10
  /\ b_offset b = ((b_page b - 1) * b_limit b)%Z.
Proof.
  unfold Vehicles.buildQuery. repeat (rewrite vehicles_bound_ok; cbn [rbind]).
  destruct (truthy (prop q "city")); [discriminate |].
  destruct (truthy (prop q "state")); [discriminate |].
  destruct (truthy (prop q "search")); [discriminate |].
  cbn [rbind]. intros [= <-]. repeat split.
Qed.

Lemma materials_built_window q b :
  Materials.buildQuery q = Ok b ->
  b_page b = or_default (parseInt (prop q "page")) 1
  /\ b_limit b = or_default (parseInt (prop q "limit")) 10
  /\ b_offset b = ((b_page b - 1) * b_limit b)%Z.
Proof.
  unfold Materials.buildQuery. rewrite materials_bound_throws.
  destruct (truthy (prop q "minPrice")); [discriminate |]. cbn [rbind].
  rewrite materials_bound_throws.
  destruct (truthy (prop q "maxPrice")); [discriminate |]. cbn [rbind].
  intros [= <-]. repeat split.
Qed.

(** Every successful listing answer carries a pagination object whose page
    is at least 1, whose limit lies within [1, 100], whose total is the
    number of matching records, and whose page count is the ceiling of
    total / limit. *)
Lemma listing_pagination_end_to_end (req : request) (w : world) (r : response) :
  (respond (Vehicles.get_list req) w = Some r \/ respond (Materials.get_list req) w = Some r) ->
  status r = 200%Z ->
  exists data page limit total pages,
    content r = Json (JObj [("success", JBool true); ("data", data);
                            ("pagination",
                             JObj [("page", JInt page); ("limit", JInt limit);
                                   ("total", JInt total); ("pages", JInt pages)])])
    /\ (1 <= page)%Z /\ (1 <= limit <= 100)%Z /\ (0 <= total)%Z
    /\ is_ceiling total limit pages.
Proof.
  intros [H | H] S; unfold respond in H.
  - rewrite vehicles_get_list_run in H.
    destruct (snd (run_chains (query req) Vehicles.list_rules)) eqn:V;
      [| injection H as <-; discriminate S].
    destruct (Vehicles.buildQuery (query req)) as [b | e] eqn:B;
      [| injection H as <-; discriminate S].
    cbv zeta in H. cbn [fst] in H.
    destruct (online (database w)); injection H as <-; [| discriminate S].
    destruct (vehicles_built_window _ _ B) as (Ep & El & _).
    destruct (accepted_window Vehicles.list_rules (query req) "Invalid value" "Invalid value")
      as [Hp Hl]; [repeat constructor | left; reflexivity | right; left; reflexivity
                  | exact V |].
    rewrite <- Ep in Hp. rewrite <- El in Hl.
    do 5 eexists. split; [reflexivity |].
    split; [exact Hp |]. split; [exact Hl |]. split; [unfold count; lia |].
    apply ceiling_of_quotient. lia.
  - rewrite materials_get_list_run in H.
    destruct (snd (run_chains (query req) Materials.list_rules)) eqn:V;
      [| injection H as <-; discriminate S].
    destruct (Materials.buildQuery (query req)) as [b | e] eqn:B;
      [| injection H as <-; discriminate S].
    cbv zeta in H. cbn [fst] in H.
    destruct (online (database w)); injection H as <-; [| discriminate S].
    destruct (materials_built_window _ _ B) as (Ep & El & _).
    destruct (accepted_window Materials.list_rules (query req)
                "Page must be a positive integer" "Limit must be between 1 and 100")
      as [Hp Hl]; [repeat constructor | left; reflexivity | right; left; reflexivity
                  | exact V |].
    rewrite <- Ep in Hp. rewrite <- El in Hl.
    do 5 eexists. split; [reflexivity |].
    split; [exact Hp |]. split; [exact Hl |]. split; [unfold count; lia |].
    apply ceiling_of_quotient. lia.
Qed.

(* ================================================================== *)
(** ** C7: the pagination of a listing answer *)
(* ================================================================== *)

Lemma prop_insert_ne (q : gmap string jsval) (k k' : string) (v : jsval) :
  k <> k' -> prop (<[k := v]> q) k' = prop q k'.
Proof. intros H. unfold prop. rewrite lookup_insert_ne by exact H. reflexivity. Qed.

(** The predicate, the page size and the order of a listing query do not
    depend on the requested page. *)
Lemma vehicles_buildQuery_any_page (q : gmap string jsval) (p : jsval) (b b' : built) :
  Vehicles.buildQuery q = Ok b ->
  Vehicles.buildQuery (<["page" := p]> q) = Ok b' ->
  b_where b' = b_where b /\ b_limit b' = b_limit b /\ b_order b' = b_order b.
Proof.
  unfold Vehicles.buildQuery.
  rewrite (prop_insert_ne q "page" "limit"), (prop_insert_ne q "page" "category"),
    (prop_insert_ne q "page" "minPriceHour"), (prop_insert_ne q "page" "maxPriceHour"),
    (prop_insert_ne q "page" "minPriceDay"), (prop_insert_ne q "page" "maxPriceDay"),
    (prop_insert_ne q "page" "city"), (prop_insert_ne q "page" "state"),
    (prop_insert_ne q "page" "search"), (prop_insert_ne q "page" "sort") by discriminate.
  repeat (rewrite vehicles_bound_ok; cbn [rbind]).
  destruct (truthy (prop q "city")); [discriminate |].
  destruct (truthy (prop q "state")); [discriminate |].
  destruct (truthy (prop q "search")); [discriminate |].
  cbn [rbind]. intros E E'. injection E as <-. injection E' as <-.
  repeat split.
Qed.

Lemma materials_buildQuery_any_page (q : gmap string jsval) (p : jsval) (b b' : built) :
  Materials.buildQuery q = Ok b ->
  Materials.buildQuery (<["page" := p]> q) = Ok b' ->
  b_where b' = b_where b /\ b_limit b' = b_limit b /\ b_order b' = b_order b.
Proof.
  unfold Materials.buildQuery.
  rewrite (prop_insert_ne q "page" "limit"), (prop_insert_ne q "page" "category"),
    (prop_insert_ne q "page" "minPrice"), (prop_insert_ne q "page" "maxPrice"),
    (prop_insert_ne q "page" "sort") by discriminate.
  rewrite !materials_bound_throws.
  destruct (truthy (prop q "minPrice")); [discriminate |]. cbn [rbind].
  rewrite !materials_bound_throws.
  destruct (truthy (prop q "maxPrice")); [discriminate |]. cbn [rbind].
  intros E E'. injection E as <-. injection E' as <-.
  repeat split.
Qed.

Lemma throws_false {A} (r : result A) : throws r = false -> exists a, r = Ok a.
Proof. destruct r as [a | e]; [eauto | discriminate]. Qed.

(** C7.  A listing request that passes validation, whose criteria do not
    make the translation raise, is answered, against a reachable store,
    with 200 and a pagination object {page, limit, total, pages} in which
    limit is the requested page size (10 by default, within 1..100), total
    is the number of stored records that satisfy the predicate of the one
    query issued, whatever its window, and pages is the ceiling of
    total / limit: the least integer n with total <= n * limit.  So pages
    is 0 when total is 0 and never negative.  The requested page is passed
    through: the window starts at (page - 1) * limit without clamping, and
    the same criteria with any other accepted page, also one beyond the
    last, are answered with the same limit, total and pages.  The page is
    echoed as requested as long as (page - 1) * limit is below 2 ^ 53, the
    range in which the integers of the model are those of the code. *)
Theorem listing_pagination_is_ceiling_of_total (req : request) (w : world) :
  online (database w) = true ->
  let q := query req in
  let page := or_default (parseInt (prop q "page")) 1 in
  let limit := or_default (parseInt (prop q "limit")) 10 in
  (snd (run_chains q Vehicles.list_rules) = [] ->
   truthy (prop q "city") || truthy (prop q "state") || truthy (prop q "search") = false ->
   exists o data shown pages,
     let total :=
       Z.of_nat (length (List.filter (matches (o_where o)) (rows (vehicles (database w)))))
     in
     issued (Vehicles.get_list req) w = [FindAndCountAll Vehicle o]
     /\ respond (Vehicles.get_list req) w = Some (listing_answer data shown limit total pages)
     /\ o_limit o = Some limit
     /\ (1 <= limit <= 100)%Z
     /\ is_ceiling total limit pages
     /\ (total = 0%Z -> pages = 0%Z)
     /\ (0 <= pages)%Z
     /\ (((page - 1) * limit < 2 ^ 53)%Z ->
         shown = JInt page /\ o_offset o = Some ((page - 1) * limit)%Z)
     /\ (forall (p : jsval) (req' : request),
           query req' = <["page" := p]> q ->
           snd (run_chains (query req') Vehicles.list_rules) = [] ->
           exists data' shown',
             respond (Vehicles.get_list req') w
             = Some (listing_answer data' shown' limit total pages)))
  /\ (snd (run_chains q Materials.list_rules) = [] ->
      truthy (prop q "minPrice") || truthy (prop q "maxPrice") = false ->
      exists o data shown pages,
        let total :=
          Z.of_nat (length (List.filter (matches (o_where o))
                                        (rows (materials (database w)))))
        in
        issued (Materials.get_list req) w = [FindAndCountAll Material o]
        /\ respond (Materials.get_list req) w
           = Some (listing_answer data shown limit total pages)
        /\ o_limit o = Some limit
        /\ (1 <= limit <= 100)%Z
        /\ is_ceiling total limit pages
        /\ (total = 0%Z -> pages = 0%Z)
        /\ (0 <= pages)%Z
        /\ (((page - 1) * limit < 2 ^ 53)%Z ->
            shown = JInt page /\ o_offset o = Some ((page - 1) * limit)%Z)
        /\ (forall (p : jsval) (req' : request),
              query req' = <["page" := p]> q ->
              snd (run_chains (query req') Materials.list_rules) = [] ->
              exists data' shown',
                respond (Materials.get_list req') w
                = Some (listing_answer data' shown' limit total pages))).
Proof.
  intros Hon q page limit. split; intros V T.
  - rewrite <- vehicles_buildQuery_throws in T. apply throws_false in T as [b B].
    destruct (vehicles_built_window _ _ B) as (Ep & El & Eo).
    destruct (accepted_window Vehicles.list_rules q "Invalid value" "Invalid value")
      as [_ Hl]; [repeat constructor | left; reflexivity | right; left; reflexivity
                 | exact V |].
    fold limit in Hl, El. fold page in Ep.
    set (total := Z.of_nat (length (List.filter (matches (b_where b))
                                                (rows (vehicles (database w)))))).
    destruct (pagination_arithmetic (b_page b) limit total Hl ltac:(unfold total; lia))
      as (pages & E & C & Z0 & N).
    exists (Vehicles.list_options Partner b),
      (JArr (map row_json (select (vehicles (database w)) (Vehicles.list_options Partner b)))),
      (JInt (b_page b)), pages.
    cbn [Vehicles.list_options o_where o_limit o_offset]. fold total.
    split.
    { apply issued_one. unfold after. rewrite vehicles_get_list_run.
      fold q. rewrite V, B. reflexivity. }
    split.
    { unfold respond. rewrite vehicles_get_list_run. fold q. rewrite V, B, Hon.
      cbv zeta. cbn [fst]. unfold listing_answer. rewrite <- E, El. reflexivity. }
    split; [rewrite El; reflexivity |].
    split; [exact Hl |]. split; [exact C |]. split; [exact Z0 |]. split; [exact N |].
    split.
    { intros _. rewrite Eo, Ep, El. split; reflexivity. }
    intros p req' Hq V'.
    destruct (Vehicles.buildQuery (query req')) as [b' | e] eqn:B'.
    + rewrite Hq in B'.
      destruct (vehicles_buildQuery_any_page q p b b' B B') as (Ew & El' & _).
      rewrite <- Hq in B'.
      destruct (pagination_arithmetic (b_page b') limit total Hl ltac:(unfold total; lia))
        as (pages' & E' & C' & _ & _).
      assert (pages' = pages) as ->.
      { destruct C as [C1 C2]. destruct C' as [C1' C2'].
        pose proof (C2 _ C1'). pose proof (C2' _ C1). lia. }
      eexists _, (JInt (b_page b')).
      unfold respond. rewrite vehicles_get_list_run, V', B', Hon.
      cbv zeta. cbn [fst]. unfold listing_answer. rewrite <- E'.
      unfold count, matching. cbn [Vehicles.list_options o_where].
      rewrite Ew, El', El. reflexivity.
    + exfalso. pose proof (vehicles_buildQuery_throws (query req')) as T'.
      rewrite B', Hq in T'. cbn [throws] in T'.
      rewrite (prop_insert_ne q "page" "city"), (prop_insert_ne q "page" "state"),
        (prop_insert_ne q "page" "search") in T' by discriminate.
      pose proof (vehicles_buildQuery_throws q) as T0. rewrite B in T0. cbn [throws] in T0.
      congruence.
  - rewrite <- materials_buildQuery_throws in T. apply throws_false in T as [b B].
    destruct (materials_built_window _ _ B) as (Ep & El & Eo).
    destruct (accepted_window Materials.list_rules q
                "Page must be a positive integer" "Limit must be between 1 and 100")
      as [_ Hl]; [repeat constructor | left; reflexivity | right; left; reflexivity
                 | exact V |].
    fold limit in Hl, El. fold page in Ep.
    set (total := Z.of_nat (length (List.filter (matches (b_where b))
                                                (rows (materials (database w)))))).
    destruct (pagination_arithmetic (b_page b) limit total Hl ltac:(unfold total; lia))
      as (pages & E & C & Z0 & N).
    exists (Materials.list_options Partner b),
      (JArr (map row_json (select (materials (database w))
                                  (Materials.list_options Partner b)))),
      (JInt (b_page b)), pages.
    cbn [Materials.list_options o_where o_limit o_offset]. fold total.
    split.
    { apply issued_one. unfold after. rewrite materials_get_list_run.
      fold q. rewrite V, B. reflexivity. }
    split.
    { unfold respond. rewrite materials_get_list_run. fold q. rewrite V, B, Hon.
      cbv zeta. cbn [fst]. unfold listing_answer. rewrite <- E, El. reflexivity. }
    split; [rewrite El; reflexivity |].
    split; [exact Hl |]. split; [exact C |]. split; [exact Z0 |]. split; [exact N |].
    split.
    { intros _. rewrite Eo, Ep, El. split; reflexivity. }
    intros p req' Hq V'.
    destruct (Materials.buildQuery (query req')) as [b' | e] eqn:B'.
    + rewrite Hq in B'.
      destruct (materials_buildQuery_any_page q p b b' B B') as (Ew & El' & _).
      rewrite <- Hq in B'.
      destruct (pagination_arithmetic (b_page b') limit total Hl ltac:(unfold total; lia))
        as (pages' & E' & C' & _ & _).
      assert (pages' = pages) as ->.
      { destruct C as [C1 C2]. destruct C' as [C1' C2'].
        pose proof (C2 _ C1'). pose proof (C2' _ C1). lia. }
      eexists _, (JInt (b_page b')).
      unfold respond. rewrite materials_get_list_run, V', B', Hon.
      cbv zeta. cbn [fst]. unfold listing_answer. rewrite <- E'.
      unfold count, matching. cbn [Materials.list_options o_where].
      rewrite Ew, El', El. reflexivity.
    + exfalso. pose proof (materials_buildQuery_throws (query req')) as T'.
      rewrite B', Hq in T'. cbn [throws] in T'.
      rewrite (prop_insert_ne q "page" "minPrice"), (prop_insert_ne q "page" "maxPrice")
        in T' by discriminate.
      pose proof (materials_buildQuery_throws q) as T0. rewrite B in T0. cbn [throws] in T0.
      congruence.
Qed.

Lemma listing_pagination_witness :
  (exists data,
     respond (Vehicles.get_list Scenario.beyond_last_page) Scenario.w0
     = Some (listing_answer data (JInt 7) 10 25 3))
  /\ (exists data,
        respond (Vehicles.get_list Scenario.trucks) Scenario.w0
        = Some (listing_answer data (JInt 1) 10 0 0)).
Proof.
  split.
  - destruct (listing_pagination_is_ceiling_of_total Scenario.beyond_last_page Scenario.w0)
      as [V _]; [reflexivity |].
    destruct V as (o & data & shown & pages & I & R & _ & _ & C & _ & _ & G & _);
      [vm_compute; reflexivity | vm_compute; reflexivity |].
    destruct G as [-> _]; [vm_compute; reflexivity |].
    vm_compute in I. injection I as <-.
    match type of C with
    | is_ceiling ?t ?l _ =>
        replace t with 25%Z in C, R by (vm_compute; reflexivity);
        replace l with 10%Z in C, R by (vm_compute; reflexivity)
    end.
    destruct C as [C1 C2]. pose proof (C2 3%Z ltac:(lia)) as C3.
    assert (pages = 3%Z) as -> by lia.
    exists data. exact R.
  - destruct (listing_pagination_is_ceiling_of_total Scenario.trucks Scenario.w0)
      as [V _]; [reflexivity |].
    destruct V as (o & data & shown & pages & I & R & _ & _ & _ & Z0 & _ & G & _);
      [vm_compute; reflexivity | vm_compute; reflexivity |].
    destruct G as [-> _]; [vm_compute; reflexivity |].
    vm_compute in I. injection I as <-.
    rewrite Z0 in R by (vm_compute; reflexivity).
    match type of R with
    | _ = Some (listing_answer _ _ ?l ?t _) =>
        replace t with 0%Z in R by (vm_compute; reflexivity);
        replace l with 10%Z in R by (vm_compute; reflexivity)
    end.
    exists data. exact R.
Defined.

(* ================================================================== *)
(** ** C8: the owner of a created entity *)
(* ================================================================== *)

Lemma column_of_inserted (k : string) (p : jsval) (b : gmap string jsval) (i : N) :
  k <> "id" -> column (Row i (delete "id" (<[k := p]> b))) k = p.
Proof.
  intros Hk. unfold column, prop. cbn [pk attrs].
  destruct (String.eqb_spec k "id") as [E | _]; [contradiction |].
  rewrite lookup_delete_ne by congruence. rewrite lookup_insert_eq. reflexivity.
Qed.

(** C8.  Whenever POST /vehicles or POST /materials answers 201, the data
    handed to [create] carry the principal's partnerId under ownerId
    (supplierId for a material), the table has grown by exactly one row,
    and that row's owner is the principal's partnerId, whatever the body
    supplied under that key. *)
Theorem created_entity_is_owned_by_principal (year : Z) (req : request) (w : world) :
  (forall r, respond (Vehicles.post year req) w = Some r -> status r = 201%Z ->
     exists data v,
       head (issued (Vehicles.post year req) w) = Some (Create Vehicle data)
       /\ data !! "ownerId" = Some (partnerId (user req))
       /\ rows (vehicles (database (after (Vehicles.post year req) w)))
          = rows (vehicles (database w)) ++ [v]
       /\ column v "ownerId" = partnerId (user req))
  /\ (forall r, respond (Materials.post req) w = Some r -> status r = 201%Z ->
        exists data m,
          head (issued (Materials.post req) w) = Some (Create Material data)
          /\ data !! "supplierId" = Some (partnerId (user req))
          /\ rows (materials (database (after (Materials.post req) w)))
             = rows (materials (database w)) ++ [m]
          /\ column m "supplierId" = partnerId (user req)).
Proof.
  split; intros r.
  - unfold issued, Vehicles.post. run_handler.
    destruct (run_chains (body req) (Vehicles.post_rules year)) as [b [| e errors]];
      cbn [isEmpty negb fst snd];
      [| intros E S; injection E as E1; rewrite <- E1 in S; discriminate S].
    destruct (online (database w)) eqn:Hon;
      [| intros E S; injection E as E1; rewrite <- E1 in S; discriminate S].
    unfold insert_row.
    cbn [table_of set_table vehicles pk rows database online journal fst snd].
    rewrite Hon.
    match goal with
    | |- context [lookup_pk ?t ?i] => destruct (lookup_pk t i)
    end;
      [| intros E S; injection E as E1; rewrite <- E1 in S; discriminate S].
    intros _ _. cbn [fst snd database vehicles rows journal]. eexists _, _.
    split; [rewrite <- app_assoc, drop_app_length; reflexivity |].
    split; [apply lookup_insert_eq |].
    split; [reflexivity |].
    apply column_of_inserted. discriminate.
  - unfold issued, Materials.post. run_handler.
    destruct (run_chains (body req) Materials.post_rules) as [b [| e errors]];
      cbn [isEmpty negb fst snd];
      [| intros E S; injection E as E1; rewrite <- E1 in S; discriminate S].
    destruct (online (database w)) eqn:Hon;
      [| intros E S; injection E as E1; rewrite <- E1 in S; discriminate S].
    unfold insert_row.
    cbn [table_of set_table materials pk rows database online journal fst snd].
    rewrite Hon.
    match goal with
    | |- context [lookup_pk ?t ?i] => destruct (lookup_pk t i)
    end;
      [| intros E S; injection E as E1; rewrite <- E1 in S; discriminate S].
    intros _ _. cbn [fst snd database materials rows journal]. eexists _, _.
    split; [rewrite <- app_assoc, drop_app_length; reflexivity |].
    split; [apply lookup_insert_eq |].
    split; [reflexivity |].
    apply column_of_inserted. discriminate.
Qed.

Lemma created_entity_witness :
  (exists data v,
     head (issued (Vehicles.post 2024 Scenario.new_vehicle) Scenario.w0)
     = Some (Create Vehicle data)
     /\ data !! "ownerId" = Some (JInt 8)
     /\ rows (vehicles (database (after (Vehicles.post 2024 Scenario.new_vehicle) Scenario.w0)))
        = rows (vehicles (database Scenario.w0)) ++ [v]
     /\ column v "ownerId" = JInt 8)
  /\ (exists data m,
        head (issued (Materials.post Scenario.new_material) Scenario.w0)
        = Some (Create Material data)
        /\ data !! "supplierId" = Some (JInt 8)
        /\ rows (materials (database (after (Materials.post Scenario.new_material) Scenario.w0)))
           = rows (materials (database Scenario.w0)) ++ [m]
        /\ column m "supplierId" = JInt 8).
Proof.
  destruct (created_entity_is_owned_by_principal 2024 Scenario.new_vehicle Scenario.w0)
    as [V _].
  destruct (created_entity_is_owned_by_principal 2024 Scenario.new_material Scenario.w0)
    as [_ Mt].
  split.
  - eapply V; vm_compute; reflexivity.
  - eapply Mt; vm_compute; reflexivity.
Defined.

(** The scenario bodies name owner 99; the stored rows belong to partner 8,
    and the name is stored trimmed. *)
Example created_vehicle_in_the_scenario_store :
  (fun r => (pk r, column r "ownerId", column r "name"))
    <$> last (rows (vehicles (database (after (Vehicles.post 2024 Scenario.new_vehicle)
                                              Scenario.w0))))
  = Some (27%N, JInt 8, JStr "Loader 3").
Proof. vm_compute. reflexivity. Qed.

(* ================================================================== *)
(** ** C9: the category list *)
(* ================================================================== *)

Lemma matches_empty r : matches ∅ r = true.
Proof. unfold matches. rewrite map_to_list_empty. reflexivity. Qed.

Lemma filter_matches_empty (l : list row) : List.filter (matches ∅) l = l.
Proof.
  induction l as [| r l IH]; [reflexivity |].
  cbn [List.filter]. rewrite matches_empty, IH. reflexivity.
Qed.

Lemma insert_sorted_unordered r l : insert_sorted [] r l = r :: l.
Proof. destruct l; reflexivity. Qed.

Lemma sort_rows_unordered l : sort_rows [] l = l.
Proof.
  unfold sort_rows. induction l as [| r l IH]; [reflexivity |].
  cbn [foldr]. rewrite IH. apply insert_sorted_unordered.
Qed.

Lemma column_project_only (k : string) (r : row) :
  k <> "id" -> column (project (Only [k]) r) k = column r k.
Proof.
  intros Hk. unfold column, project, prop. cbn [pk attrs].
  destruct (String.eqb_spec k "id") as [E | _]; [contradiction |].
  destruct (attrs r !! k) as [v |] eqn:E.
  - rewrite (map_lookup_filter_Some_2 _ _ _ _ E); [reflexivity |].
    cbn. apply list_elem_of_singleton. reflexivity.
  - rewrite map_lookup_filter_None_2; [reflexivity | left; exact E].
Qed.

(** GROUP BY keeps one row for each key tuple that was not seen before. *)
Lemma group_by_spec (keys : list string) (l : list row) : forall seen,
  NoDup (map (fun r => map (column r) keys) (group_by keys seen l))
  /\ forall k, k ∈ map (fun r => map (column r) keys) (group_by keys seen l)
               <-> k ∈ map (fun r => map (column r) keys) l /\ k ∉ seen.
Proof.
  set (key := fun r => map (column r) keys).
  induction l as [| r l IH]; intros seen.
  - cbn. split; [constructor |]. intros k. split.
    + intros H. inversion H.
    + intros [H _]. inversion H.
  - cbn [group_by]. change (map (column r) keys) with (key r).
    destruct (bool_decide_reflect (key r ∈ seen)) as [Hin | Hnin].
    + destruct (IH seen) as [ND Hk]. split; [exact ND |].
      intros k. rewrite Hk. cbn [map]. rewrite elem_of_cons. split.
      * intros [H1 H2]. split; [right; exact H1 | exact H2].
      * intros [[-> | H1] H2]; [contradiction | split; assumption].
    + destruct (IH (key r :: seen)) as [ND Hk]. cbn [map]. split.
      * constructor; [| exact ND].
        intros H. apply Hk in H. destruct H as [_ H]. apply H. left.
      * intros k. rewrite !elem_of_cons, Hk, elem_of_cons. split.
        -- intros [-> | [H1 H2]]; [split; [left; reflexivity | exact Hnin] |].
           split; [right; exact H1 |]. intros H. apply H2. right. exact H.
        -- intros [[-> | H1] H2]; [left; reflexivity |].
           destruct (decide (k = key r)) as [-> | Hne]; [left; reflexivity |].
           right. split; [exact H1 |]. intros [E | H]; [contradiction | contradiction].
Qed.

(** What the store returns for the category query. *)
Lemma select_categories (t : table) :
  map (fun r => column r "category")
      (select t (FindOptions ∅ [] [] None None (Only ["category"]) ["category"]))
  = map (fun r => column r "category") (group_by ["category"] [] (rows t)).
Proof.
  unfold select, matching, window.
  cbn [o_where o_order o_group o_offset o_limit o_attributes].
  rewrite filter_matches_empty, sort_rows_unordered, map_map.
  apply map_ext. intros r. apply column_project_only. discriminate.
Qed.

Lemma distinct_categories (t : table) :
  let cats := map (fun r => column r "category") (group_by ["category"] [] (rows t)) in
  NoDup cats /\ forall c, c ∈ cats <-> exists r, r ∈ rows t /\ column r "category" = c.
Proof.
  intros cats. destruct (group_by_spec ["category"] (rows t) []) as [ND Hk].
  cbn [map] in ND, Hk.
  assert (E : forall l : list row,
             map (fun r => [column r "category"]) l
             = (fun c => [c]) <$> map (fun r => column r "category") l).
  { intros l. induction l as [| r l IH]; [reflexivity |]. cbn [map]. rewrite IH. reflexivity. }
  split.
  - rewrite E in ND. eapply NoDup_fmap_1. exact ND.
  - intros c. specialize (Hk [c]). rewrite !E in Hk.
    rewrite !(list_elem_of_fmap_inj (fun c => [c])) in Hk.
    fold cats in Hk. rewrite Hk. rewrite list_elem_of_fmap. split.
    + intros [(r & -> & Hr) _]. eauto.
    + intros (r & Hr & <-). split; [eauto |]. intros H. inversion H.
Qed.

(** C9.  For every state of a reachable store, GET /{T}/categories/list
    answers with a duplicate-free list whose members are exactly the
    category values of the rows of that entity type: every row counts,
    inactive vehicles and unavailable materials included, since the query
    carries no predicate. *)
Theorem categories_list_is_distinct_projection (req : request) (w : world) :
  online (database w) = true ->
  (exists cats,
      respond (Vehicles.get_categories req) w
      = Some (json (JObj [("success", JBool true); ("data", JArr cats)]))
      /\ issued (Vehicles.get_categories req) w
         = [FindAll Vehicle (FindOptions ∅ [] [] None None (Only ["category"]) ["category"])]
      /\ NoDup cats
      /\ forall c, c ∈ cats
                   <-> exists r, r ∈ rows (vehicles (database w)) /\ column r "category" = c)
  /\ (exists cats,
         respond (Materials.get_categories req) w
         = Some (json (JObj [("success", JBool true); ("data", JArr cats)]))
         /\ issued (Materials.get_categories req) w
            = [FindAll Material (FindOptions ∅ [] [] None None (Only ["category"]) ["category"])]
         /\ NoDup cats
         /\ forall c, c ∈ cats
                      <-> exists r, r ∈ rows (materials (database w))
                                    /\ column r "category" = c).
Proof.
  intros Hon. split.
  - eexists. split; [| split].
    + unfold Vehicles.get_categories. run_handler. rewrite Hon.
      cbn [fst snd table_of]. rewrite select_categories. reflexivity.
    + apply issued_one. unfold Vehicles.get_categories. run_handler. rewrite Hon.
      reflexivity.
    + apply distinct_categories.
  - eexists. split; [| split].
    + unfold Materials.get_categories. run_handler. rewrite Hon.
      cbn [fst snd table_of]. rewrite select_categories. reflexivity.
    + apply issued_one. unfold Materials.get_categories. run_handler. rewrite Hon.
      reflexivity.
    + apply distinct_categories.
Qed.

Lemma categories_list_witness :
  (exists cats,
      respond (Vehicles.get_categories Scenario.by_city) Scenario.w0
      = Some (json (JObj [("success", JBool true); ("data", JArr cats)]))
      /\ issued (Vehicles.get_categories Scenario.by_city) Scenario.w0
         = [FindAll Vehicle (FindOptions ∅ [] [] None None (Only ["category"]) ["category"])]
      /\ NoDup cats
      /\ forall c, c ∈ cats
                   <-> exists r, r ∈ rows (vehicles (database Scenario.w0))
                                 /\ column r "category" = c)
  /\ (exists cats,
         respond (Materials.get_categories Scenario.by_city) Scenario.w0
         = Some (json (JObj [("success", JBool true); ("data", JArr cats)]))
         /\ issued (Materials.get_categories Scenario.by_city) Scenario.w0
            = [FindAll Material (FindOptions ∅ [] [] None None (Only ["category"]) ["category"])]
         /\ NoDup cats
         /\ forall c, c ∈ cats
                      <-> exists r, r ∈ rows (materials (database Scenario.w0))
                                    /\ column r "category" = c).
Proof.
  apply (categories_list_is_distinct_projection Scenario.by_city Scenario.w0).
  reflexivity.
Defined.

(** The scenario store: the inactive crane and the unavailable sand are
    listed, and gravel, stored twice, is listed once. *)
Example categories_of_the_scenario_store :
  respond (Vehicles.get_categories Scenario.by_city) Scenario.w0
  = Some (json (JObj [("success", JBool true);
                      ("data", JArr [JStr "excavator"; JStr "crane"])]))
  /\ respond (Materials.get_categories Scenario.by_city) Scenario.w0
     = Some (json (JObj [("success", JBool true);
                         ("data", JArr [JStr "gravel"; JStr "sand"])])).
Proof. split; vm_compute; reflexivity. Qed.

(* ================================================================== *)
(** ** C10: the order history always fails *)
(* ================================================================== *)

(** C10.  For every request and every state of the store, GET /users/orders
    answers status 500 with the plain-text body 'Server Error': reading
    [Material], which the users module never binds, throws before any call
    reaches the store. *)
Theorem orders_always_server_error (req : request) (w : world) :
  respond (Users.get_orders req) w = Some (status_send 500 "Server Error")
  /\ lift (the Users.scope "Material" Material) w = (Throw (ReferenceError "Material"), w)
  /\ issued (Users.get_orders req) w = []
  /\ after (Users.get_orders req) w = w.
Proof.
  split; [reflexivity |]. split; [reflexivity |]. split; [| reflexivity].
  apply issued_nil. reflexivity.
Qed.

(* ================================================================== *)
(** ** All routes: rejected input, unreachable store, tables written *)
(* ================================================================== *)

(** Unfolds whichever route the goal runs. *)
Ltac open_route :=
  cbv delta [Vehicles.get_list Vehicles.get_one Vehicles.post Vehicles.put Vehicles.delete
             Vehicles.post_availability Vehicles.get_categories
             Materials.get_list Materials.get_one Materials.post Materials.put
             Materials.delete Materials.get_categories
             Users.get_profile Users.put_profile Users.get_orders Users.delete_account];
  run_handler.

Ltac other_table H :=
  cbv beta iota zeta delta [fst snd];
  cbn [database table_of set_table online vehicles materials partners users serviceRequests];
  split; [| reflexivity];
  match goal with
  | |- table_of _ ?m = _ =>
      destruct m;
      cbn [database table_of set_table online vehicles materials partners users
           serviceRequests];
      first [ reflexivity | exfalso; apply H; repeat constructor ]
  | |- _ => reflexivity
  end.

Ltac finish_offline :=
  cbv beta iota zeta delta [fst snd]; cbn [database status status_json status_send json];
  split; [reflexivity |]; eexists; split; [reflexivity |];
  first [left; reflexivity | right; reflexivity].

(** X1.  A request that violates the validation chains of its route is
    answered 400 before anything is handed to the store: no call is
    journalled and the world is left as it was. *)
Theorem rejected_input_never_reaches_the_store
    (lib : library) (e : endpoint) (req : request) (w : world) :
  violations lib e req <> [] ->
  issued (handle lib e req) w = []
  /\ after (handle lib e req) w = w
  /\ exists r, respond (handle lib e req) w = Some r /\ status r = 400%Z.
Proof.
  intros H.
  assert (G : after (handle lib e req) w = w
              /\ exists r, respond (handle lib e req) w = Some r /\ status r = 400%Z).
  { destruct e; cbn [handle violations] in H |- *; try (exfalso; apply H; reflexivity).
    - unfold Vehicles.get_list. run_handler.
      destruct (run_chains _ _) as [q [| x errors]]; [exfalso; apply H; reflexivity |].
      split; [reflexivity | eexists; split; reflexivity].
    - unfold Vehicles.post. run_handler.
      destruct (run_chains _ _) as [q [| x errors]]; [exfalso; apply H; reflexivity |].
      split; [reflexivity | eexists; split; reflexivity].
    - unfold Vehicles.post_availability. run_handler.
      destruct (run_chains _ _) as [q [| x errors]]; [exfalso; apply H; reflexivity |].
      split; [reflexivity | eexists; split; reflexivity].
    - unfold Materials.get_list. run_handler.
      destruct (run_chains _ _) as [q [| x errors]]; [exfalso; apply H; reflexivity |].
      split; [reflexivity | eexists; split; reflexivity].
    - unfold Materials.post. run_handler.
      destruct (run_chains _ _) as [q [| x errors]]; [exfalso; apply H; reflexivity |].
      split; [reflexivity | eexists; split; reflexivity].
    - unfold Materials.put. run_handler.
      destruct (run_chains _ _) as [q [| x errors]]; [exfalso; apply H; reflexivity |].
      split; [reflexivity | eexists; split; reflexivity].
    - unfold Users.put_profile. run_handler.
      destruct (run_chains _ _) as [q [| x errors]]; [exfalso; apply H; reflexivity |].
      split; [reflexivity | eexists; split; reflexivity]. }
  destruct G as [A R]. split; [apply issued_nil; rewrite A; reflexivity |].
  split; assumption.
Qed.

Lemma rejected_input_witness :
  issued (handle Scenario.lib0 MaterialsUpdate Scenario.foreign_bad_update) Scenario.w0 = []
  /\ after (handle Scenario.lib0 MaterialsUpdate Scenario.foreign_bad_update) Scenario.w0
     = Scenario.w0
  /\ exists r,
       respond (handle Scenario.lib0 MaterialsUpdate Scenario.foreign_bad_update) Scenario.w0
       = Some r /\ status r = 400%Z.
Proof.
  apply (rejected_input_never_reaches_the_store
           Scenario.lib0 MaterialsUpdate Scenario.foreign_bad_update Scenario.w0).
  vm_compute. discriminate.
Defined.

(** X2.  While the store cannot be reached, every route answers 400 (input
    rejected) or 500, and the tables stay as they were. *)
Theorem unreachable_store_is_answered_without_change
    (lib : library) (e : endpoint) (req : request) (w : world) :
  online (database w) = false ->
  database (after (handle lib e req) w) = database w
  /\ exists r, respond (handle lib e req) w = Some r
               /\ (status r = 400%Z \/ status r = 500%Z).
Proof.
  intros H. destruct e; cbn [handle]; open_route; split_known H; finish_offline.
Qed.

Lemma unreachable_store_witness :
  database (after (handle Scenario.lib0 VehiclesDelete Scenario.foreign_update) Cases.offline)
  = database Cases.offline
  /\ exists r,
       respond (handle Scenario.lib0 VehiclesDelete Scenario.foreign_update) Cases.offline
       = Some r /\ (status r = 400%Z \/ status r = 500%Z).
Proof.
  apply (unreachable_store_is_answered_without_change
           Scenario.lib0 VehiclesDelete Scenario.foreign_update Cases.offline).
  reflexivity.
Defined.

(** X3.  A route changes no table other than those it writes to, and never
    the reachability of the store; the GET routes write to none. *)
Theorem routes_change_only_their_tables
    (lib : library) (e : endpoint) (req : request) (w : world) (m : model) :
  m ∉ writes e ->
  table_of (database (after (handle lib e req) w)) m = table_of (database w) m
  /\ online (database (after (handle lib e req) w)) = online (database w).
Proof.
  intros H. destruct (online (database w)) eqn:Hon;
    destruct e; cbn [handle writes] in H |- *; open_route;
    split_known Hon; other_table H.
Qed.

Lemma other_tables_witness :
  table_of (database (after (handle Scenario.lib0 VehiclesCreate Scenario.new_vehicle)
                            Scenario.w0)) Material
  = table_of (database Scenario.w0) Material
  /\ online (database (after (handle Scenario.lib0 VehiclesCreate Scenario.new_vehicle)
                             Scenario.w0))
     = online (database Scenario.w0).
Proof.
  apply (routes_change_only_their_tables
           Scenario.lib0 VehiclesCreate Scenario.new_vehicle Scenario.w0 Material).
  cbn [writes]. apply not_elem_of_cons. split; [discriminate | apply not_elem_of_nil].
Defined.

(* ================================================================== *)
(** ** The store: predicates, lookups, updates, removals *)
(* ================================================================== *)

(** A [where] object holds of a record exactly when every condition under
    its keys holds of the column of that key. *)
Lemma matches_spec (w : gmap string cond) (r : row) :
  matches w r = true
  <-> forall k c, w !! k = Some c -> holds c (column r k) = true.
Proof.
  unfold matches. rewrite forallb_forall. split.
  - intros H k c Hk. apply (H (k, c)).
    apply list_elem_of_In, elem_of_map_to_list. exact Hk.
  - intros H [k c] Hin. apply list_elem_of_In, elem_of_map_to_list in Hin.
    exact (H k c Hin).
Qed.

Lemma matches_equals (k : string) (v : jsval) (r : row) :
  matches {[ k := Equals v ]} r = strict_eq (column r k) v.
Proof.
  unfold matches. rewrite map_to_list_singleton. cbn. apply andb_true_r.
Qed.

Lemma assoc_spec (l : list (string * jsval)) (k : string) (o : option jsval) :
  NoDup (l.*1) -> (forall v, (k, v) ∈ l <-> o = Some v) -> assoc k l = o.
Proof.
  induction l as [| [k' v'] l IH]; intros ND E.
  - cbn. destruct o as [v |]; [| reflexivity].
    pose proof (proj2 (E v) eq_refl) as H. inversion H.
  - cbn [assoc]. cbn in ND. apply NoDup_cons in ND as [Hnot ND].
    destruct (String.eqb_spec k k') as [<- | Hne].
    + symmetry. apply E. left.
    + apply IH; [exact ND |]. intros v. rewrite <- E. rewrite elem_of_cons.
      split; [intros H; right; exact H |].
      intros [[= ? ?] | H]; [contradiction | exact H].
Qed.

(** Reading a key of a rendered object is reading the map. *)
Lemma assoc_map_to_list (m : gmap string jsval) (k : string) :
  assoc k (map_to_list m) = m !! k.
Proof.
  apply assoc_spec; [apply NoDup_fst_map_to_list |].
  intros v. apply elem_of_map_to_list.
Qed.

Lemma lookup_pk_Some (t : table) (id : N) (v : row) :
  lookup_pk t id = Some v -> pk v = id /\ In v (rows t).
Proof.
  unfold lookup_pk. intros H. apply find_some in H as [Hin Hpk].
  apply N.eqb_eq in Hpk. split; assumption.
Qed.

(** After the removal of the records with key [id], no record has that
    key and every other key finds what it found before. *)
Lemma lookup_pk_delete (t : table) (id id' : N) :
  lookup_pk (delete_rows t (fun x => (pk x =? id)%N)) id'
  = if (id' =? id)%N then None else lookup_pk t id'.
Proof.
  unfold lookup_pk, delete_rows. cbn [rows].
  induction (rows t) as [| r l IH]; [destruct (id' =? id)%N; reflexivity |].
  cbn [List.filter find].
  destruct (N.eqb_spec (pk r) id) as [E | NE]; cbn [negb].
  - rewrite IH. destruct (N.eqb_spec id' id) as [-> | NE'].
    + reflexivity.
    + destruct (N.eqb_spec (pk r) id'); [congruence | reflexivity].
  - cbn [find]. destruct (N.eqb_spec (pk r) id') as [E' | NE'].
    + destruct (N.eqb_spec id' id); [congruence | reflexivity].
    + exact IH.
Qed.

(** After an update of the records with key [id], that key finds the
    updated record and every other key finds what it found before. *)
Lemma lookup_pk_update (t : table) (id id' : N) (data : gmap string jsval) :
  lookup_pk (update_row t id data) id'
  = (fun r => if (id' =? id)%N then updated data r else r) <$> lookup_pk t id'.
Proof.
  unfold lookup_pk, update_row. cbn [rows].
  induction (rows t) as [| r l IH]; [reflexivity |].
  cbn [map find]. destruct (N.eqb_spec (pk r) id) as [E | NE]; cbn [pk].
  - destruct (N.eqb_spec (pk r) id') as [E' | NE'].
    + cbn. destruct (N.eqb_spec id' id); [reflexivity | congruence].
    + exact IH.
  - destruct (N.eqb_spec (pk r) id') as [E' | NE'].
    + cbn. destruct (N.eqb_spec id' id); [congruence | reflexivity].
    + exact IH.
Qed.

(** A column of an updated record: the supplied value when the data have
    one, the old value otherwise; the key never changes. *)
Lemma column_updated (data : gmap string jsval) (r : row) (k : string) :
  column (updated data r) k
  = if String.eqb k "id" then column r k
    else match data !! k with Some x => x | None => column r k end.
Proof.
  unfold column, updated, prop. cbn [pk attrs].
  destruct (String.eqb_spec k "id") as [E | NE]; [reflexivity |].
  rewrite lookup_union, lookup_delete_ne by congruence.
  destruct (data !! k) as [x |], (attrs r !! k); reflexivity.
Qed.

(** Without order, grouping, window or projection, a finder returns the
    matching records in table order. *)
Lemma select_plain (t : table) (w : gmap string cond) (i : list include) :
  select t (FindOptions w i [] None None AllAttributes [])
  = List.filter (matches w) (rows t).
Proof.
  unfold select, matching, window.
  cbn [o_where o_order o_group o_offset o_limit o_attributes].
  rewrite sort_rows_unordered. unfold project. apply map_id.
Qed.

(* ================================================================== *)
(** ** Single records: lookup, update, removal *)
(* ================================================================== *)

(** Steps of a run against a reachable store. *)
Ltac step_online Hon :=
  repeat first
    [ progress rewrite Hon
    | progress cbv beta iota zeta delta [fst snd]
    | progress cbn [database online set_table table_of vehicles materials partners users
                    serviceRequests isEmpty negb pk journal o_attributes no_options
                    with_include project fmap option_fmap option_map] ].

(** X4.  Against a reachable store, GET /vehicles/:id and GET /materials/:id
    hand one lookup to the store and change nothing; they answer 404 with
    'Vehicle not found' / 'Material not found' when no record has the key,
    and the record under [data] when one has. *)
Theorem single_record_is_returned_or_404 (req : request) (w : world) :
  online (database w) = true ->
  (respond (Vehicles.get_one req) w
   = Some (match lookup_pk (vehicles (database w)) (params_id req) with
           | Some v => json (JObj [("success", JBool true); ("data", row_json v)])
           | None => not_found "Vehicle not found"
           end)
   /\ (exists o, issued (Vehicles.get_one req) w = [FindByPk Vehicle (params_id req) o])
   /\ database (after (Vehicles.get_one req) w) = database w)
  /\ (respond (Materials.get_one req) w
      = Some (match lookup_pk (materials (database w)) (params_id req) with
              | Some m => json (JObj [("success", JBool true); ("data", row_json m)])
              | None => not_found "Material not found"
              end)
      /\ (exists o, issued (Materials.get_one req) w = [FindByPk Material (params_id req) o])
      /\ database (after (Materials.get_one req) w) = database w).
Proof.
  intros Hon. split.
  - assert (R : exists r o, Vehicles.get_one req w
                            = (Ok r, logged w (FindByPk Vehicle (params_id req) o))
                /\ r = match lookup_pk (vehicles (database w)) (params_id req) with
                       | Some v => json (JObj [("success", JBool true); ("data", row_json v)])
                       | None => not_found "Vehicle not found"
                       end).
    { unfold Vehicles.get_one. run_handler. step_online Hon.
      destruct (lookup_pk (vehicles (database w)) (params_id req));
        step_online Hon; eexists _, _; split; reflexivity. }
    destruct R as (r & o & R & ->).
    destruct (answered_after_one_call _ _ _ _ R) as (Hr & Hi & Hd). eauto.
  - assert (R : exists r o, Materials.get_one req w
                            = (Ok r, logged w (FindByPk Material (params_id req) o))
                /\ r = match lookup_pk (materials (database w)) (params_id req) with
                       | Some v => json (JObj [("success", JBool true); ("data", row_json v)])
                       | None => not_found "Material not found"
                       end).
    { unfold Materials.get_one. run_handler. step_online Hon.
      destruct (lookup_pk (materials (database w)) (params_id req));
        step_online Hon; eexists _, _; split; reflexivity. }
    destruct R as (r & o & R & ->).
    destruct (answered_after_one_call _ _ _ _ R) as (Hr & Hi & Hd). eauto.
Qed.

(** X5.  Against a reachable store, PUT and DELETE on a key that no record
    has answer 404 after the one lookup and change nothing (PUT on a
    material once its body has passed validation). *)
Theorem missing_target_is_404_without_change (req : request) (w : world) :
  online (database w) = true ->
  (lookup_pk (vehicles (database w)) (params_id req) = None ->
   (respond (Vehicles.put req) w = Some (not_found "Vehicle not found")
    /\ issued (Vehicles.put req) w = [FindByPk Vehicle (params_id req) no_options]
    /\ database (after (Vehicles.put req) w) = database w)
   /\ (respond (Vehicles.delete req) w = Some (not_found "Vehicle not found")
       /\ issued (Vehicles.delete req) w = [FindByPk Vehicle (params_id req) no_options]
       /\ database (after (Vehicles.delete req) w) = database w))
  /\ (lookup_pk (materials (database w)) (params_id req) = None ->
      (respond (Materials.delete req) w = Some (not_found "Material not found")
       /\ issued (Materials.delete req) w = [FindByPk Material (params_id req) no_options]
       /\ database (after (Materials.delete req) w) = database w)
      /\ (snd (run_chains (body req) Materials.put_rules) = [] ->
          respond (Materials.put req) w = Some (not_found "Material not found")
          /\ issued (Materials.put req) w = [FindByPk Material (params_id req) no_options]
          /\ database (after (Materials.put req) w) = database w)).
Proof.
  intros Hon. split; intros Hnone.
  - split; apply answered_after_one_call.
    + unfold Vehicles.put. run_handler. step_online Hon. rewrite Hnone. reflexivity.
    + unfold Vehicles.delete. run_handler. step_online Hon. rewrite Hnone. reflexivity.
  - split; [| intros V]; apply answered_after_one_call.
    + unfold Materials.delete. run_handler. step_online Hon. rewrite Hnone. reflexivity.
    + unfold Materials.put. run_handler.
      destruct (run_chains (body req) Materials.put_rules) as [b errors].
      cbn [snd] in V. subst errors. step_online Hon. rewrite Hnone. reflexivity.
Qed.

Lemma single_record_witness :
  (respond (Vehicles.get_one Cases.missing) Scenario.w0
   = Some (match lookup_pk (vehicles (database Scenario.w0)) 99 with
           | Some v => json (JObj [("success", JBool true); ("data", row_json v)])
           | None => not_found "Vehicle not found"
           end)
   /\ (exists o, issued (Vehicles.get_one Cases.missing) Scenario.w0
                 = [FindByPk Vehicle 99 o])
   /\ database (after (Vehicles.get_one Cases.missing) Scenario.w0) = database Scenario.w0)
  /\ (respond (Materials.get_one Cases.missing) Scenario.w0
      = Some (match lookup_pk (materials (database Scenario.w0)) 99 with
              | Some m => json (JObj [("success", JBool true); ("data", row_json m)])
              | None => not_found "Material not found"
              end)
      /\ (exists o, issued (Materials.get_one Cases.missing) Scenario.w0
                    = [FindByPk Material 99 o])
      /\ database (after (Materials.get_one Cases.missing) Scenario.w0)
         = database Scenario.w0).
Proof. apply (single_record_is_returned_or_404 Cases.missing Scenario.w0). reflexivity. Defined.

Lemma missing_target_witness :
  (respond (Vehicles.put Cases.missing) Scenario.w0 = Some (not_found "Vehicle not found")
   /\ respond (Vehicles.delete Cases.missing) Scenario.w0
      = Some (not_found "Vehicle not found"))
  /\ (respond (Materials.delete Cases.missing) Scenario.w0
      = Some (not_found "Material not found")
      /\ respond (Materials.put Cases.missing) Scenario.w0
         = Some (not_found "Material not found")).
Proof.
  destruct (missing_target_is_404_without_change Cases.missing Scenario.w0) as [V Mt];
    [reflexivity |].
  split.
  - destruct V as [(P & _) (D & _)]; [reflexivity |]. split; assumption.
  - destruct Mt as [(D & _) P]; [reflexivity |]. split; [exact D |].
    apply P. reflexivity.
Defined.

(** X6.  Against a reachable store, a DELETE by the owner hands the lookup
    and one [destroy] to the store and answers 200; afterwards the key finds
    nothing, and every other key finds what it found before. *)
Theorem owner_delete_removes_the_target_only (req : request) (w : world) :
  online (database w) = true ->
  (forall v,
      lookup_pk (vehicles (database w)) (params_id req) = Some v ->
      strict_eq (column v "ownerId") (partnerId (user req)) = true ->
      respond (Vehicles.delete req) w
      = Some (json (JObj [("success", JBool true);
                          ("message", JStr "Vehicle deleted successfully")]))
      /\ issued (Vehicles.delete req) w
         = [FindByPk Vehicle (params_id req) no_options; Destroy Vehicle (params_id req)]
      /\ forall id,
           lookup_pk (vehicles (database (after (Vehicles.delete req) w))) id
           = if (id =? params_id req)%N then None
             else lookup_pk (vehicles (database w)) id)
  /\ (forall m,
         lookup_pk (materials (database w)) (params_id req) = Some m ->
         strict_eq (column m "supplierId") (partnerId (user req)) = true ->
         respond (Materials.delete req) w
         = Some (json (JObj [("success", JBool true);
                             ("message", JStr "Material deleted successfully")]))
         /\ issued (Materials.delete req) w
            = [FindByPk Material (params_id req) no_options; Destroy Material (params_id req)]
         /\ forall id,
              lookup_pk (materials (database (after (Materials.delete req) w))) id
              = if (id =? params_id req)%N then None
                else lookup_pk (materials (database w)) id).
Proof.
  intros Hon. split; intros v Hv Hown;
    destruct (lookup_pk_Some _ _ _ Hv) as [Hpk _].
  - unfold issued, respond, after, Vehicles.delete. run_handler.
    step_online Hon. rewrite Hv. step_online Hon. rewrite Hown. step_online Hon.
    rewrite Hpk. split; [reflexivity |].
    split; [rewrite <- app_assoc, drop_app_length; reflexivity |].
    intros id. apply lookup_pk_delete.
  - unfold issued, respond, after, Materials.delete. run_handler.
    step_online Hon. rewrite Hv. step_online Hon. rewrite Hown. step_online Hon.
    rewrite Hpk. split; [reflexivity |].
    split; [rewrite <- app_assoc, drop_app_length; reflexivity |].
    intros id. apply lookup_pk_delete.
Qed.

Lemma owner_delete_witness :
  (respond (Vehicles.delete Cases.owner_delete) Scenario.w0
   = Some (json (JObj [("success", JBool true);
                       ("message", JStr "Vehicle deleted successfully")]))
   /\ issued (Vehicles.delete Cases.owner_delete) Scenario.w0
      = [FindByPk Vehicle 2 no_options; Destroy Vehicle 2]
   /\ forall id,
        lookup_pk (vehicles (database (after (Vehicles.delete Cases.owner_delete)
                                             Scenario.w0))) id
        = if (id =? 2)%N then None else lookup_pk (vehicles (database Scenario.w0)) id)
  /\ (respond (Materials.delete Cases.owner_delete) Scenario.w0
      = Some (json (JObj [("success", JBool true);
                          ("message", JStr "Material deleted successfully")]))
      /\ issued (Materials.delete Cases.owner_delete) Scenario.w0
         = [FindByPk Material 2 no_options; Destroy Material 2]
      /\ forall id,
           lookup_pk (materials (database (after (Materials.delete Cases.owner_delete)
                                                 Scenario.w0))) id
           = if (id =? 2)%N then None else lookup_pk (materials (database Scenario.w0)) id).
Proof.
  destruct (owner_delete_removes_the_target_only Cases.owner_delete Scenario.w0)
    as [V Mt]; [reflexivity |].
  split.
  - apply (V (Scenario.excavator 2)); reflexivity.
  - apply (Mt Scenario.sold_out_sand); reflexivity.
Defined.

(** X7.  Against a reachable store, a PUT by the owner hands the lookup,
    one [update] and one [reload] to the store and answers 200 with the
    updated record.  The vehicle route passes the body on as it came,
    unvalidated; the material route passes on the sanitised body once it
    has passed validation.  In the stored record every supplied field
    other than [id] has the supplied value and every other field its old
    one; the other keys find what they found before. *)
Theorem owner_update_is_a_partial_update (req : request) (w : world) :
  online (database w) = true ->
  (forall v,
      lookup_pk (vehicles (database w)) (params_id req) = Some v ->
      strict_eq (column v "ownerId") (partnerId (user req)) = true ->
      respond (Vehicles.put req) w
      = Some (json (JObj [("success", JBool true);
                          ("message", JStr "Vehicle updated successfully");
                          ("data", row_json (updated (body req) v))]))
      /\ (exists o, issued (Vehicles.put req) w
                    = [FindByPk Vehicle (params_id req) no_options;
                       Update Vehicle (params_id req) (body req);
                       Reload Vehicle (params_id req) o])
      /\ (forall id,
            lookup_pk (vehicles (database (after (Vehicles.put req) w))) id
            = if (id =? params_id req)%N then Some (updated (body req) v)
              else lookup_pk (vehicles (database w)) id)
      /\ (forall k, k <> "id" ->
            column (updated (body req) v) k
            = match body req !! k with Some x => x | None => column v k end))
  /\ (forall m,
         lookup_pk (materials (database w)) (params_id req) = Some m ->
         strict_eq (column m "supplierId") (partnerId (user req)) = true ->
         snd (run_chains (body req) Materials.put_rules) = [] ->
         let b := fst (run_chains (body req) Materials.put_rules) in
         respond (Materials.put req) w
         = Some (json (JObj [("success", JBool true);
                             ("message", JStr "Material updated successfully");
                             ("data", row_json (updated b m))]))
         /\ (exists o, issued (Materials.put req) w
                       = [FindByPk Material (params_id req) no_options;
                          Update Material (params_id req) b;
                          Reload Material (params_id req) o])
         /\ (forall id,
               lookup_pk (materials (database (after (Materials.put req) w))) id
               = if (id =? params_id req)%N then Some (updated b m)
                 else lookup_pk (materials (database w)) id)
         /\ (forall k, k <> "id" ->
               column (updated b m) k
               = match b !! k with Some x => x | None => column m k end)).
Proof.
  intros Hon. split.
  - intros v Hv Hown. destruct (lookup_pk_Some _ _ _ Hv) as [Hpk _].
    assert (L : forall id,
               lookup_pk (update_row (vehicles (database w)) (pk v) (body req)) id
               = if (id =? params_id req)%N then Some (updated (body req) v)
                 else lookup_pk (vehicles (database w)) id).
    { intros id. rewrite lookup_pk_update, Hpk.
      destruct (N.eqb_spec id (params_id req)) as [-> | _];
        [rewrite Hv; reflexivity | destruct (lookup_pk _ id); reflexivity]. }
    unfold issued, respond, after, Vehicles.put. run_handler.
    step_online Hon. rewrite Hv. step_online Hon. rewrite Hown. step_online Hon.
    rewrite (L (pk v)), Hpk, N.eqb_refl. step_online Hon.
    split; [reflexivity |].
    split; [eexists; rewrite <- !app_assoc, drop_app_length; reflexivity |].
    split; [intros id; rewrite <- Hpk at 1; apply L |].
    intros k Hk. rewrite column_updated.
    destruct (String.eqb_spec k "id"); [contradiction | reflexivity].
  - intros m Hm Hown V b. destruct (lookup_pk_Some _ _ _ Hm) as [Hpk _].
    assert (L : forall id,
               lookup_pk (update_row (materials (database w)) (pk m) b) id
               = if (id =? params_id req)%N then Some (updated b m)
                 else lookup_pk (materials (database w)) id).
    { intros id. rewrite lookup_pk_update, Hpk.
      destruct (N.eqb_spec id (params_id req)) as [-> | _];
        [rewrite Hm; reflexivity | destruct (lookup_pk _ id); reflexivity]. }
    subst b. unfold issued, respond, after, Materials.put. run_handler.
    destruct (run_chains (body req) Materials.put_rules) as [b errors].
    cbn [fst snd] in V, L |- *. subst errors.
    step_online Hon. rewrite Hm. step_online Hon. rewrite Hown. step_online Hon.
    rewrite (L (pk m)), Hpk, N.eqb_refl. step_online Hon.
    split; [reflexivity |].
    split; [eexists; rewrite <- !app_assoc, drop_app_length; reflexivity |].
    split; [intros id; rewrite <- Hpk at 1; apply L |].
    intros k Hk. rewrite column_updated.
    destruct (String.eqb_spec k "id"); [contradiction | reflexivity].
Qed.

Lemma owner_update_witness :
  (respond (Vehicles.put Cases.owner_vehicle_update) Scenario.w0
   = Some (json (JObj [("success", JBool true);
                       ("message", JStr "Vehicle updated successfully");
                       ("data", row_json (updated (body Cases.owner_vehicle_update)
                                                  (Scenario.excavator 1)))]))
   /\ column (updated (body Cases.owner_vehicle_update) (Scenario.excavator 1)) "ownerId"
      = JInt 9
   /\ column (updated (body Cases.owner_vehicle_update) (Scenario.excavator 1)) "pricePerHour"
      = JInt (-3)
   /\ column (updated (body Cases.owner_vehicle_update) (Scenario.excavator 1)) "category"
      = JStr "excavator")
  /\ (exists o, issued (Materials.put Cases.owner_material_update) Scenario.w0
                = [FindByPk Material 1 no_options;
                   Update Material 1 {[ "name" := JStr "Pit gravel" ]};
                   Reload Material 1 o]).
Proof.
  destruct (owner_update_is_a_partial_update Cases.owner_vehicle_update Scenario.w0)
    as [V _]; [reflexivity |].
  destruct (owner_update_is_a_partial_update Cases.owner_material_update Scenario.w0)
    as [_ Mt]; [reflexivity |].
  split.
  - destruct (V (Scenario.excavator 1)) as (R & _ & _ & C); [reflexivity | reflexivity |].
    split; [exact R |].
    split; [rewrite C by discriminate; reflexivity |].
    split; [rewrite C by discriminate; reflexivity |].
    rewrite C by discriminate. reflexivity.
  - destruct (Mt Scenario.gravel) as (_ & I & _); [reflexivity | reflexivity | reflexivity |].
    exact I.
Defined.

(** X8.  POST /vehicles/:id/availability, once the body has passed
    validation and against a reachable store: 404 when no vehicle has the
    key; 403 and no change when the vehicle belongs to another partner;
    otherwise one [update] that stores the whole body under [availability]
    and leaves every other field of the vehicle as it was, answered 200
    with the updated record. *)
Theorem availability_replaces_the_subrecord
    (isISO8601 : string -> bool) (req : request) (w : world) :
  online (database w) = true ->
  snd (run_chains (body req) (Vehicles.availability_rules isISO8601)) = [] ->
  (lookup_pk (vehicles (database w)) (params_id req) = None ->
   respond (Vehicles.post_availability isISO8601 req) w = Some (not_found "Vehicle not found")
   /\ database (after (Vehicles.post_availability isISO8601 req) w) = database w)
  /\ (forall v,
         lookup_pk (vehicles (database w)) (params_id req) = Some v ->
         (strict_eq (column v "ownerId") (partnerId (user req)) = false ->
          respond (Vehicles.post_availability isISO8601 req) w
          = Some (forbidden "Not authorized to update this vehicle")
          /\ issued (Vehicles.post_availability isISO8601 req) w
             = [FindByPk Vehicle (params_id req) no_options]
          /\ database (after (Vehicles.post_availability isISO8601 req) w) = database w)
         /\ (strict_eq (column v "ownerId") (partnerId (user req)) = true ->
             let data : gmap string jsval :=
               {[ "availability" := JObj (map_to_list (body req)) ]} in
             respond (Vehicles.post_availability isISO8601 req) w
             = Some (json (JObj [("success", JBool true);
                                 ("message",
                                  JStr "Vehicle availability updated successfully");
                                 ("data", row_json (updated data v))]))
             /\ issued (Vehicles.post_availability isISO8601 req) w
                = [FindByPk Vehicle (params_id req) no_options;
                   Update Vehicle (params_id req) data]
             /\ (forall id,
                   lookup_pk (vehicles (database
                                          (after (Vehicles.post_availability isISO8601 req) w)))
                             id
                   = if (id =? params_id req)%N then Some (updated data v)
                     else lookup_pk (vehicles (database w)) id)
             /\ column (updated data v) "availability" = JObj (map_to_list (body req))
             /\ (forall k, k <> "availability" ->
                   column (updated data v) k = column v k))).
Proof.
  intros Hon V.
  assert (K : fst (run_chains (body req) (Vehicles.availability_rules isISO8601)) = body req)
    by (apply run_chains_untrimmed; repeat constructor).
  split; [intros Hnone | intros v Hv; split; intros Hown].
  - unfold respond, after, Vehicles.post_availability. run_handler.
    destruct (run_chains (body req) _) as [b errors]. cbn [fst snd] in V, K. subst.
    step_online Hon. rewrite Hnone. split; reflexivity.
  - apply answered_after_one_call.
    unfold Vehicles.post_availability. run_handler.
    destruct (run_chains (body req) _) as [b errors]. cbn [fst snd] in V, K. subst.
    step_online Hon. rewrite Hv. step_online Hon. rewrite Hown. reflexivity.
  - intros data. destruct (lookup_pk_Some _ _ _ Hv) as [Hpk _].
    unfold issued, respond, after, Vehicles.post_availability. run_handler.
    destruct (run_chains (body req) _) as [b errors]. cbn [fst snd] in V, K. subst.
    step_online Hon. rewrite Hv. step_online Hon. rewrite Hown. step_online Hon.
    split; [reflexivity |].
    split; [rewrite <- !app_assoc, drop_app_length, <- Hpk; reflexivity |].
    split; [| split].
    + intros id. rewrite lookup_pk_update, Hpk.
      destruct (N.eqb_spec id (params_id req)) as [-> | _];
        [rewrite Hv; reflexivity | destruct (lookup_pk _ id); reflexivity].
    + rewrite column_updated. cbn [String.eqb Ascii.eqb Bool.eqb].
      unfold data. rewrite lookup_singleton_eq. reflexivity.
    + intros k Hk. rewrite column_updated.
      destruct (String.eqb k "id"); [reflexivity |].
      unfold data. rewrite lookup_singleton_ne by congruence. reflexivity.
Qed.

Lemma availability_witness :
  (respond (Vehicles.post_availability (fun _ => true) Cases.foreign_availability) Scenario.w0
   = Some (forbidden "Not authorized to update this vehicle")
   /\ issued (Vehicles.post_availability (fun _ => true) Cases.foreign_availability)
             Scenario.w0
      = [FindByPk Vehicle 1 no_options]
   /\ database (after (Vehicles.post_availability (fun _ => true) Cases.foreign_availability)
                      Scenario.w0)
      = database Scenario.w0)
  /\ issued (Vehicles.post_availability (fun _ => true) Cases.owner_availability) Scenario.w0
     = [FindByPk Vehicle 1 no_options;
        Update Vehicle 1
          {[ "availability" := JObj (map_to_list (body Cases.owner_availability)) ]}].
Proof.
  destruct (availability_replaces_the_subrecord
              (fun _ => true) Cases.foreign_availability Scenario.w0)
    as [_ F]; [reflexivity | reflexivity |].
  destruct (availability_replaces_the_subrecord
              (fun _ => true) Cases.owner_availability Scenario.w0)
    as [_ O]; [reflexivity | reflexivity |].
  split.
  - apply (F (Scenario.excavator 1)); reflexivity.
  - destruct (O (Scenario.excavator 1)) as [_ O']; [reflexivity |].
    destruct O' as (_ & I & _); [reflexivity |]. exact I.
Defined.


(* ================================================================== *)
(** ** The user routes *)
(* ================================================================== *)

Lemma strict_eq_JInt (a b : Z) : strict_eq (JInt a) (JInt b) = (a =? b)%Z.
Proof.
  unfold strict_eq, JInt, of_Z, num_eqb, num_cmp, scaled. cbn [mant expo].
  rewrite Z.min_id, Z.sub_diag, !Z.mul_1_r.
  destruct (Z.compare_spec a b) as [E | L | G].
  - symmetry. apply Z.eqb_eq. exact E.
  - symmetry. apply Z.eqb_neq. lia.
  - symmetry. apply Z.eqb_neq. lia.
Qed.

Lemma strict_eq_key (a b : N) :
  strict_eq (JInt (Z.of_N a)) (JInt (Z.of_N b)) = (a =? b)%N.
Proof.
  rewrite strict_eq_JInt.
  destruct (N.eqb_spec a b) as [-> | NE]; [apply Z.eqb_refl | apply Z.eqb_neq; lia].
Qed.

(** What a record rendered without some of its attributes shows. *)
Lemma member_row_json_exclude (names : list string) (r : row) (k : string) :
  member (row_json (project (Exclude names) r)) k
  = if String.eqb k "id" then Some (JInt (Z.of_N (pk r)))
    else if bool_decide (k ∈ names) then None else attrs r !! k.
Proof.
  unfold member, row_json, project. cbn [pk attrs assoc].
  destruct (String.eqb k "id"); [reflexivity |].
  rewrite assoc_map_to_list.
  destruct (bool_decide_reflect (k ∈ names)) as [Hin | Hout].
  - apply map_lookup_filter_None. right. intros v _ Hv. exact (Hv Hin).
  - destruct (attrs r !! k) as [v |] eqn:E.
    + apply map_lookup_filter_Some. split; [exact E | exact Hout].
    + apply map_lookup_filter_None. left. exact E.
Qed.

Lemma member_instance_json_password (o : option row) :
  member (instance_json (project (Exclude ["password"]) <$> o)) "password" = None.
Proof.
  destruct o as [r |]; [| reflexivity].
  cbn [fmap option_fmap option_map instance_json].
  rewrite member_row_json_exclude. reflexivity.
Qed.

(** The e-mail lookup matches the records of other users whose address
    strictly equals the requested one. *)
Lemma matches_other_account (uid : N) (email : jsval) (r : row) :
  matches (other_account uid email) r
  = strict_eq (column r "email") email && negb (pk r =? uid)%N.
Proof.
  apply eq_true_iff_eq. rewrite matches_spec, andb_true_iff. unfold other_account. split.
  - intros H. split.
    + apply (H "email" (Equals email)). reflexivity.
    + pose proof (H "id" (Ops {[ Op_ne := JInt (Z.of_N uid) ]}) eq_refl) as Hid.
      unfold holds in Hid. rewrite map_to_list_singleton in Hid.
      cbn [forallb fst snd holds_op] in Hid. rewrite andb_true_r in Hid.
      unfold column in Hid. cbn [String.eqb Ascii.eqb Bool.eqb] in Hid.
      rewrite strict_eq_key in Hid. exact Hid.
  - intros [He Hid] k c Hk.
    destruct (decide (k = "id")) as [-> | Nid].
    + rewrite lookup_insert_eq in Hk. injection Hk as <-.
      unfold holds. rewrite map_to_list_singleton.
      cbn [forallb fst snd holds_op]. rewrite andb_true_r.
      unfold column. cbn [String.eqb Ascii.eqb Bool.eqb].
      rewrite strict_eq_key. exact Hid.
    + rewrite lookup_insert_ne in Hk by congruence.
      apply lookup_singleton_Some in Hk as [<- <-]. exact He.
Qed.

Lemma head_filter_None {A} (p : A -> bool) (l : list A) :
  (forall x, In x l -> p x = false) -> head (List.filter p l) = None.
Proof.
  induction l as [| a l IH]; intros H; [reflexivity |].
  cbn [List.filter]. rewrite (H a) by (left; reflexivity).
  apply IH. intros x Hx. apply H. right. exact Hx.
Qed.

Lemma head_filter_Some {A} (p : A -> bool) (l : list A) (x : A) :
  In x l -> p x = true -> exists y, head (List.filter p l) = Some y.
Proof.
  induction l as [| a l IH]; intros Hin Hp; [destruct Hin |].
  cbn [List.filter]. destruct (p a) eqn:Ea; [eexists; reflexivity |].
  destruct Hin as [-> | Hin]; [congruence | exact (IH Hin Hp)].
Qed.

Lemma filter_ext_rows (p q : row -> bool) (l : list row) :
  (forall r, p r = q r) -> List.filter p l = List.filter q l.
Proof.
  intros H. induction l as [| a l IH]; [reflexivity |].
  cbn [List.filter]. rewrite H, IH. reflexivity.
Qed.

(** X9.  No answer of a user route shows a password: whenever the body of
    a response has a [user] member, that member has no [password] member,
    whatever the request, the store and its reachability. *)
Theorem user_answers_never_show_the_password
    (lib : library) (e : endpoint) (req : request) (w : world) (r : response)
    (v u : jsval) :
  in_users e = true ->
  respond (handle lib e req) w = Some r ->
  content r = Json v ->
  member v "user" = Some u ->
  member u "password" = None.
Proof.
  intros He. destruct e; try discriminate He; clear He; cbn [handle].
  - unfold Users.get_profile. run_handler.
    destruct (online (database w)) eqn:Hon; step_online Hon;
      intros E; injection E as E; subst r; cbn [content json status_send];
      try discriminate.
    intros E; injection E as E; subst v.
    cbn [member assoc String.eqb Ascii.eqb Bool.eqb].
    intros E; injection E as E; subst u. apply member_instance_json_password.
  - unfold Users.put_profile. run_handler.
    destruct (run_chains (body req) _) as [b [| x errors]]; cbn [isEmpty negb].
    + destruct (online (database w)) eqn:Hon; step_online Hon.
      * destruct (head _) as [other |].
        -- intros E; injection E as E; subst r. cbn [content status_json].
           intros E; injection E as E; subst v. discriminate.
        -- step_online Hon.
           intros E; injection E as E; subst r. cbn [content json].
           intros E; injection E as E; subst v.
           cbn [member assoc String.eqb Ascii.eqb Bool.eqb].
           intros E; injection E as E; subst u. apply member_instance_json_password.
      * intros E; injection E as E; subst r. discriminate.
    + intros E; injection E as E; subst r. cbn [content status_json].
      intros E; injection E as E; subst v. discriminate.
  - unfold Users.get_orders. run_handler. intros E; injection E as E; subst r. discriminate.
  - unfold Users.delete_account. run_handler.
    destruct (online (database w)) eqn:Hon; step_online Hon;
      intros E; injection E as E; subst r; cbn [content json status_send];
      try discriminate.
    intros E; injection E as E; subst v. discriminate.
Qed.

Lemma user_answers_witness :
  let shown := row_json (project (Exclude ["password"]) Cases.ann) in
  respond (Users.get_profile Cases.as_ann) Cases.accounts
  = Some (json (JObj [("success", JBool true); ("user", shown)]))
  /\ member (row_json Cases.ann) "password" = Some (JStr "$2a$10$annhash")
  /\ member shown "password" = None.
Proof.
  intros shown.
  split; [vm_compute; reflexivity |].
  split; [vm_compute; reflexivity |].
  apply (user_answers_never_show_the_password
           Scenario.lib0 UsersProfile Cases.as_ann Cases.accounts
           (json (JObj [("success", JBool true); ("user", shown)]))
           (JObj [("success", JBool true); ("user", shown)]) shown).
  - reflexivity.
  - vm_compute. reflexivity.
  - reflexivity.
  - reflexivity.
Defined.

(** X10.  PUT /users/profile, once the body has passed validation and
    against a reachable store: when a record of another user has the
    requested e-mail address, the answer is 400 'Email is already
    registered to another account' and nothing is written; when none has,
    the acting user's record gets the name, email, phone and address of the
    body (and no other member of it), every other record is left as it was,
    and the answer shows the record as stored, without its password. *)
Theorem profile_update_checks_the_address_first
    (isEmail : string -> bool) (req : request) (w : world) :
  online (database w) = true ->
  snd (run_chains (body req) (Users.profile_rules isEmail)) = [] ->
  let uid := user_id (user req) in
  let email := prop (body req) "email" in
  let lookup := FindOne User (FindOptions (other_account uid email) [] [] None None
                                          AllAttributes []) in
  ((exists r, In r (rows (users (database w))) /\ pk r <> uid
              /\ strict_eq (column r "email") email = true) ->
   respond (Users.put_profile isEmail req) w
   = Some (status_json 400
             (JObj [("success", JBool false);
                    ("message", JStr "Email is already registered to another account")]))
   /\ issued (Users.put_profile isEmail req) w = [lookup]
   /\ database (after (Users.put_profile isEmail req) w) = database w)
  /\ ((forall r, In r (rows (users (database w))) -> pk r <> uid ->
                 strict_eq (column r "email") email = false) ->
      respond (Users.put_profile isEmail req) w
      = Some (json (JObj [("success", JBool true);
                          ("user",
                           instance_json
                             (project (Exclude ["password"])
                                <$> (updated (profile_fields (body req))
                                       <$> lookup_pk (users (database w)) uid)))]))
      /\ issued (Users.put_profile isEmail req) w
         = [lookup; Update User uid (profile_fields (body req));
            FindByPk User uid Users.without_password]
      /\ (forall id,
            lookup_pk (users (database (after (Users.put_profile isEmail req) w))) id
            = (fun r => if (id =? uid)%N then updated (profile_fields (body req)) r else r)
                <$> lookup_pk (users (database w)) id)
      /\ (forall m, m <> User ->
            table_of (database (after (Users.put_profile isEmail req) w)) m
            = table_of (database w) m)).
Proof.
  intros Hon V uid email lookup.
  assert (K : fst (run_chains (body req) (Users.profile_rules isEmail)) = body req)
    by (apply run_chains_untrimmed; repeat constructor).
  split.
  - intros (r & Hin & Hpk & Hmail).
    destruct (head_filter_Some (matches (other_account uid email))
                               (rows (users (database w))) r Hin) as [other Hother].
    { rewrite matches_other_account, Hmail. apply N.eqb_neq in Hpk. rewrite Hpk. reflexivity. }
    unfold issued, respond, after, Users.put_profile. run_handler.
    destruct (run_chains (body req) _) as [b errors]. cbn [fst snd] in V, K. subst.
    step_online Hon.
    change (<["id" := Ops {[ Op_ne := JInt (Z.of_N (user_id (user req))) ]}]>
              {[ "email" := Equals (prop (body req) "email") ]})
      with (other_account uid email).
    rewrite select_plain, Hother. step_online Hon.
    split; [reflexivity |].
    split; [rewrite drop_app_length; reflexivity | reflexivity].
  - intros Hfree.
    assert (Hnone : head (List.filter (matches (other_account uid email))
                                      (rows (users (database w)))) = None).
    { apply head_filter_None. intros r Hin. rewrite matches_other_account.
      destruct (N.eqb_spec (pk r) uid) as [E | NE]; [apply andb_false_r |].
      rewrite (Hfree r Hin NE). reflexivity. }
    unfold issued, respond, after, Users.put_profile. run_handler.
    destruct (run_chains (body req) _) as [b errors]. cbn [fst snd] in V, K. subst.
    step_online Hon.
    change (<["id" := Ops {[ Op_ne := JInt (Z.of_N (user_id (user req))) ]}]>
              {[ "email" := Equals (prop (body req) "email") ]})
      with (other_account uid email).
    rewrite select_plain, Hnone. step_online Hon.
    unfold Users.acting. step_online Hon.
    change (<["address" := prop (body req) "address"]> _)
      with (profile_fields (body req)).
    rewrite lookup_pk_update, N.eqb_refl.
    split; [reflexivity |].
    split; [rewrite <- !app_assoc, drop_app_length; reflexivity |].
    split; [intros id; apply lookup_pk_update |].
    intros m Hm. destruct m; try reflexivity. contradiction.
Qed.

Lemma profile_update_witness :
  (respond (Users.put_profile (fun _ => true) (Cases.ann_profile "bob@site.io")) Cases.accounts
   = Some (status_json 400
             (JObj [("success", JBool false);
                    ("message", JStr "Email is already registered to another account")]))
   /\ database (after (Users.put_profile (fun _ => true) (Cases.ann_profile "bob@site.io"))
                      Cases.accounts)
      = database Cases.accounts)
  /\ (forall id,
        lookup_pk (users (database (after (Users.put_profile (fun _ => true)
                                                             (Cases.ann_profile "ann@new.io"))
                                          Cases.accounts))) id
        = (fun r => if (id =? 1)%N
                    then updated (profile_fields (body (Cases.ann_profile "ann@new.io"))) r
                    else r)
            <$> lookup_pk (users (database Cases.accounts)) id).
Proof.
  split.
  - destruct (profile_update_checks_the_address_first
                (fun _ => true) (Cases.ann_profile "bob@site.io") Cases.accounts)
      as [C _]; [reflexivity | vm_compute; reflexivity |].
    destruct C as (R & _ & D).
    + exists Cases.bob. split; [right; left; reflexivity |].
      split; [discriminate | vm_compute; reflexivity].
    + split; [exact R | exact D].
  - destruct (profile_update_checks_the_address_first
                (fun _ => true) (Cases.ann_profile "ann@new.io") Cases.accounts)
      as [_ F]; [reflexivity | vm_compute; reflexivity |].
    destruct F as (_ & _ & L & _).
    + intros r [<- | [<- | []]] Hpk; [contradiction Hpk; reflexivity | vm_compute; reflexivity].
    + exact L.
Defined.

(** X11.  DELETE /users/account against a reachable store: the service
    requests whose [userId] is the acting user's key are removed first,
    then the user's record; what remains are the other users' records and
    the service requests of other users, and the answer is the 200
    envelope. *)
Theorem account_removal_takes_the_requests_first (req : request) (w : world) :
  online (database w) = true ->
  let uid := user_id (user req) in
  let me := JInt (Z.of_N uid) in
  respond (Users.delete_account req) w
  = Some (json (JObj [("success", JBool true);
                      ("message", JStr "User account deleted successfully")]))
  /\ issued (Users.delete_account req) w
     = [DestroyWhere ServiceRequest {[ "userId" := Equals me ]};
        DestroyWhere User {[ "id" := Equals me ]}]
  /\ (forall id,
        lookup_pk (users (database (after (Users.delete_account req) w))) id
        = if (id =? uid)%N then None else lookup_pk (users (database w)) id)
  /\ rows (serviceRequests (database (after (Users.delete_account req) w)))
     = List.filter (fun r => negb (strict_eq (column r "userId") me))
                   (rows (serviceRequests (database w)))
  /\ (forall m, m <> User -> m <> ServiceRequest ->
        table_of (database (after (Users.delete_account req) w)) m
        = table_of (database w) m).
Proof.
  intros Hon uid me.
  unfold issued, respond, after, Users.delete_account. run_handler.
  step_online Hon.
  split; [reflexivity |].
  split; [rewrite <- !app_assoc, drop_app_length; reflexivity |].
  split; [| split].
  - intros id. rewrite <- lookup_pk_delete. unfold lookup_pk, delete_rows. cbn [rows].
    f_equal. apply filter_ext_rows. intros r. rewrite matches_equals.
    unfold column. cbn [String.eqb Ascii.eqb Bool.eqb]. rewrite strict_eq_key. reflexivity.
  - unfold delete_rows. cbn [rows]. apply filter_ext_rows. intros r.
    rewrite matches_equals. reflexivity.
  - intros m Hu Hs. destruct m; try reflexivity; contradiction.
Qed.

Lemma account_removal_witness :
  issued (Users.delete_account Cases.as_ann) Cases.accounts
  = [DestroyWhere ServiceRequest {[ "userId" := Equals (JInt 1) ]};
     DestroyWhere User {[ "id" := Equals (JInt 1) ]}]
  /\ rows (users (database (after (Users.delete_account Cases.as_ann) Cases.accounts)))
     = [Cases.bob]
  /\ rows (serviceRequests (database (after (Users.delete_account Cases.as_ann)
                                            Cases.accounts)))
     = [Cases.order_of 2 2].
Proof.
  destruct (account_removal_takes_the_requests_first Cases.as_ann Cases.accounts)
    as (_ & I & _ & S & _); [reflexivity |].
  split; [exact I |].
  split; [vm_compute; reflexivity |].
  rewrite S. vm_compute. reflexivity.
Defined.


(* ================================================================== *)
(** ** The listing routes: query and page *)
(* ================================================================== *)

Ltac read_map :=
  repeat first
    [ rewrite lookup_insert_eq
    | rewrite lookup_insert_ne by discriminate
    | rewrite lookup_singleton_eq
    | rewrite lookup_singleton_ne by discriminate
    | rewrite lookup_empty
    | progress cbn [spread] ].

Lemma holds_ops_spec (m : gmap op jsval) (v : jsval) :
  holds (Ops m) v = true <-> forall o x, m !! o = Some x -> holds_op o x v = true.
Proof.
  unfold holds. rewrite forallb_forall. split.
  - intros H o x Hx. apply (H (o, x)).
    apply list_elem_of_In, elem_of_map_to_list. exact Hx.
  - intros H [o x] Hin. apply list_elem_of_In, elem_of_map_to_list in Hin.
    exact (H o x Hin).
Qed.

(** A record satisfies the constraint left by two bound parameters exactly
    when it is within the supplied bounds. *)
Lemma holds_range (lo hi x : jsval) (c : cond) :
  range lo hi = Some c -> holds c x = at_least lo x && at_most hi x.
Proof.
  unfold range, at_least, at_most.
  destruct (truthy lo), (truthy hi); intros E; try discriminate E;
    injection E as <-; cbn [negb orb andb]; rewrite ?andb_true_r; apply eq_true_iff_eq;
    rewrite holds_ops_spec, ?andb_true_iff.
  - split.
    + intros H. split.
      * apply (H Op_gte). rewrite lookup_insert_ne by discriminate.
        apply lookup_singleton_eq.
      * apply (H Op_lte). apply lookup_insert_eq.
    + intros [Hlo Hhi] o y Hy. destruct o.
      * rewrite lookup_insert_ne, lookup_singleton_eq in Hy by discriminate.
        injection Hy as <-. exact Hlo.
      * rewrite lookup_insert_eq in Hy. injection Hy as <-. exact Hhi.
      * rewrite lookup_insert_ne, lookup_singleton_ne in Hy by discriminate.
        discriminate Hy.
  - split.
    + intros H. apply (H Op_gte). apply lookup_singleton_eq.
    + intros Hlo o y Hy. apply lookup_singleton_Some in Hy as [<- <-]. exact Hlo.
  - split.
    + intros H. apply (H Op_lte). apply lookup_singleton_eq.
    + intros Hhi o y Hy. apply lookup_singleton_Some in Hy as [<- <-]. exact Hhi.
Qed.

(** The [where] object of the vehicle listing, key by key. *)
Lemma vehicles_where_keys (q : gmap string jsval) (b : built) :
  Vehicles.buildQuery q = Ok b ->
  b_where b !! "status" = Some (Equals (JStr "active"))
  /\ b_where b !! "category"
     = (if truthy (prop q "category") then Some (Equals (prop q "category")) else None)
  /\ b_where b !! "pricePerHour" = range (prop q "minPriceHour") (prop q "maxPriceHour")
  /\ b_where b !! "pricePerDay" = range (prop q "minPriceDay") (prop q "maxPriceDay")
  /\ (forall k, ~ In k ["status"; "category"; "pricePerHour"; "pricePerDay"] ->
        b_where b !! k = None)
  /\ b_order b = Vehicles.order_of (prop q "sort").
Proof.
  unfold Vehicles.buildQuery. repeat (rewrite vehicles_bound_ok; cbn [rbind]).
  destruct (truthy (prop q "city")); [discriminate |].
  destruct (truthy (prop q "state")); [discriminate |].
  destruct (truthy (prop q "search")); [discriminate |].
  cbn [rbind]. intros E. injection E as <-. cbn [b_where b_order]. unfold range.
  destruct (truthy (prop q "category")), (truthy (prop q "minPriceHour")),
    (truthy (prop q "maxPriceHour")), (truthy (prop q "minPriceDay")),
    (truthy (prop q "maxPriceDay"));
    (split; [read_map; reflexivity |]);
    (split; [read_map; reflexivity |]);
    (split; [read_map; reflexivity |]);
    (split; [read_map; reflexivity |]);
    (split; [| reflexivity]);
    intros k Hk;
    repeat (rewrite lookup_insert_ne
              by (intros <-; apply Hk; cbn; tauto));
    apply lookup_singleton_ne; intros <-; apply Hk; cbn; tauto.
Qed.

(** The [where] object of the material listing, key by key: a query that
    is built has no price constraint. *)
Lemma materials_where_keys (q : gmap string jsval) (b : built) :
  Materials.buildQuery q = Ok b ->
  b_where b !! "isAvailable" = Some (Equals (JBool true))
  /\ b_where b !! "category"
     = (if truthy (prop q "category") then Some (Equals (prop q "category")) else None)
  /\ (forall k, ~ In k ["isAvailable"; "category"] -> b_where b !! k = None)
  /\ b_order b = Materials.order_of (prop q "sort")
  /\ truthy (prop q "minPrice") = false /\ truthy (prop q "maxPrice") = false.
Proof.
  unfold Materials.buildQuery. rewrite materials_bound_throws.
  destruct (truthy (prop q "minPrice")); [discriminate |]. cbn [rbind].
  rewrite materials_bound_throws.
  destruct (truthy (prop q "maxPrice")); [discriminate |]. cbn [rbind].
  intros E. injection E as <-. cbn [b_where b_order].
  destruct (truthy (prop q "category"));
    (split; [read_map; reflexivity |]);
    (split; [read_map; reflexivity |]);
    (split; [| repeat split]);
    intros k Hk;
    repeat (rewrite lookup_insert_ne
              by (intros <-; apply Hk; cbn; tauto));
    apply lookup_singleton_ne; intros <-; apply Hk; cbn; tauto.
Qed.

(** A query handed to the store by a listing route comes from an accepted
    request whose criteria were translated. *)
Lemma vehicles_issued_accepted (req : request) (w : world) (c : dbcall) :
  In c (issued (Vehicles.get_list req) w) ->
  exists b, snd (run_chains (query req) Vehicles.list_rules) = []
            /\ Vehicles.buildQuery (query req) = Ok b
            /\ c = FindAndCountAll Vehicle (Vehicles.list_options Partner b).
Proof.
  pose proof (vehicles_get_list_run req w) as R.
  destruct (snd (run_chains (query req) Vehicles.list_rules)) eqn:V.
  - destruct (Vehicles.buildQuery (query req)) as [b | e].
    + rewrite (issued_one _ w (FindAndCountAll Vehicle (Vehicles.list_options Partner b)))
        by (unfold after; rewrite R; reflexivity).
      intros [<- | []]. exists b. repeat split.
    + rewrite issued_nil by (unfold after; rewrite R; reflexivity). intros [].
  - rewrite issued_nil by (unfold after; rewrite R; reflexivity). intros [].
Qed.

Lemma materials_issued_accepted (req : request) (w : world) (c : dbcall) :
  In c (issued (Materials.get_list req) w) ->
  exists b, snd (run_chains (query req) Materials.list_rules) = []
            /\ Materials.buildQuery (query req) = Ok b
            /\ c = FindAndCountAll Material (Materials.list_options Partner b).
Proof.
  pose proof (materials_get_list_run req w) as R.
  destruct (snd (run_chains (query req) Materials.list_rules)) eqn:V.
  - destruct (Materials.buildQuery (query req)) as [b | e].
    + rewrite (issued_one _ w (FindAndCountAll Material (Materials.list_options Partner b)))
        by (unfold after; rewrite R; reflexivity).
      intros [<- | []]. exists b. repeat split.
    + rewrite issued_nil by (unfold after; rewrite R; reflexivity). intros [].
  - rewrite issued_nil by (unfold after; rewrite R; reflexivity). intros [].
Qed.

(** An accepted optional [isIn] chain: the field is absent or its text is
    one of the listed values. *)
Lemma accepted_optional_in (q : gmap string jsval) (f : string) (vs : list string)
    (m : string) :
  snd (run_chain q (Chain "query" f true false (IsIn vs) m)) = [] ->
  prop q f = JUndef \/ In (Validator.toString (prop q f)) vs.
Proof.
  unfold run_chain. cbn [field is_optional has_trim test run_check andb].
  destruct (is_undefined (prop q f)) eqn:U.
  - intros _. left. destruct (prop q f); try discriminate U. reflexivity.
  - cbn [snd]. destruct (isIn vs _) eqn:I; [| discriminate]. intros _. right.
    unfold isIn in I. apply existsb_exists in I as (x & Hx & E).
    apply String.eqb_eq in E. subst x. exact Hx.
Qed.

Lemma vehicles_order_columns (sort : jsval) (col : string) (d : direction) :
  In (col, d) (Vehicles.order_of sort) ->
  In col ["pricePerHour"; "pricePerDay"; "rating"; "createdAt"; "featured"].
Proof.
  unfold Vehicles.order_of. destruct sort as [| | | | | s | |];
    try (intros [E | [E | []]]; injection E as <- <-; cbn; tauto).
  repeat match goal with
         | |- context [if ?c then _ else _] => destruct c
         end;
    (intros [E | H]; [injection E as <- <-; cbn; tauto |]);
    try (destruct H as [E | []]; injection E as <- <-; cbn; tauto);
    destruct H.
Qed.

Lemma materials_order_columns (sort : jsval) (col : string) (d : direction) :
  In (col, d) (Materials.order_of sort) ->
  In col ["pricePerUnit"; "rating"; "createdAt"; "featured"].
Proof.
  unfold Materials.order_of. destruct sort as [| | | | | s | |];
    try (intros [E | [E | []]]; injection E as <- <-; cbn; tauto).
  repeat match goal with
         | |- context [if ?c then _ else _] => destruct c
         end;
    (intros [E | H]; [injection E as <- <-; cbn; tauto |]);
    try (destruct H as [E | []]; injection E as <- <-; cbn; tauto);
    destruct H.
Qed.

Lemma insert_sorted_In (o : list (string * direction)) (r x : row) (l : list row) :
  In x (insert_sorted o r l) -> x = r \/ In x l.
Proof.
  induction l as [| a l IH]; cbn [insert_sorted].
  - intros [<- | []]. left. reflexivity.
  - destruct (row_compare o r a).
    + intros [<- | H]; [left; reflexivity | right; exact H].
    + intros [<- | H]; [left; reflexivity | right; exact H].
    + intros [<- | H]; [right; left; reflexivity |].
      destruct (IH H) as [-> | H']; [left; reflexivity | right; right; exact H'].
Qed.

Lemma sort_rows_In (o : list (string * direction)) (x : row) (l : list row) :
  In x (sort_rows o l) -> In x l.
Proof.
  unfold sort_rows. induction l as [| a l IH]; cbn [foldr]; [intros [] |].
  intros H. apply insert_sorted_In in H as [-> | H]; [left; reflexivity |].
  right. exact (IH H).
Qed.

Lemma window_In (offset limit : option Z) (x : row) (l : list row) :
  In x (window offset limit l) -> In x l.
Proof.
  unfold window. intros H.
  assert (H1 : In x (match offset with Some n => drop (Z.to_nat n) l | None => l end)).
  { destruct limit as [n |]; [| exact H].
    apply list_elem_of_In. apply list_elem_of_In in H.
    revert H. apply subseteq_take. }
  destruct offset as [n |]; [| exact H1].
  apply list_elem_of_In. apply list_elem_of_In in H1.
  revert H1. apply subseteq_drop.
Qed.

(** A plain page query (no grouping, all attributes) returns stored
    records that satisfy its predicate, and no more of them than its
    limit. *)
Lemma select_sound (t : table) (o : findOptions) (x : row) :
  o_group o = [] -> o_attributes o = AllAttributes ->
  In x (select t o) -> In x (rows t) /\ matches (o_where o) x = true.
Proof.
  intros G A. unfold select, matching. rewrite G, A. unfold project. rewrite map_id.
  intros H. apply window_In, sort_rows_In in H.
  apply filter_In in H. exact H.
Qed.

Lemma select_length (t : table) (o : findOptions) (n : Z) :
  o_limit o = Some n -> (length (select t o) <= Z.to_nat n)%nat.
Proof.
  intros L. unfold select, window. rewrite L, length_map, length_take. lia.
Qed.

(** X12.  The status of a listing answer is decided by three tests, in
    this order: a request that violates the validation chains is answered
    400; otherwise a request whose criteria make the translation raise
    (city, state or search for vehicles; minPrice or maxPrice for
    materials), or a store that cannot be reached, gives 500; every other
    request is answered 200. *)
Theorem listing_status_is_decided_by_three_tests (req : request) (w : world) :
  (exists r, respond (Vehicles.get_list req) w = Some r
             /\ status r
                = listing_status
                    (negb (isEmpty (snd (run_chains (query req) Vehicles.list_rules))))
                    (truthy (prop (query req) "city") || truthy (prop (query req) "state")
                     || truthy (prop (query req) "search"))
                    (online (database w)))
  /\ (exists r, respond (Materials.get_list req) w = Some r
                /\ status r
                   = listing_status
                       (negb (isEmpty (snd (run_chains (query req) Materials.list_rules))))
                       (truthy (prop (query req) "minPrice")
                        || truthy (prop (query req) "maxPrice"))
                       (online (database w))).
Proof.
  split; unfold respond.
  - rewrite vehicles_get_list_run, <- vehicles_buildQuery_throws.
    destruct (snd (run_chains (query req) Vehicles.list_rules));
      [| eexists; split; reflexivity].
    destruct (Vehicles.buildQuery (query req)) as [b | e];
      [| eexists; split; reflexivity].
    cbv zeta. cbn [fst throws isEmpty negb listing_status orb].
    destruct (online (database w)); eexists; split; reflexivity.
  - rewrite materials_get_list_run, <- materials_buildQuery_throws.
    destruct (snd (run_chains (query req) Materials.list_rules));
      [| eexists; split; reflexivity].
    destruct (Materials.buildQuery (query req)) as [b | e];
      [| eexists; split; reflexivity].
    cbv zeta. cbn [fst throws isEmpty negb listing_status orb].
    destruct (online (database w)); eexists; split; reflexivity.
Qed.

Lemma vehicles_order_default (sort : jsval) :
  (forall s, In s ["price_hour_asc"; "price_hour_desc"; "price_day_asc"; "price_day_desc";
                   "rating"; "newest"] -> sort <> JStr s) ->
  Vehicles.order_of sort = [("featured", DESC); ("rating", DESC)].
Proof.
  intros H. unfold Vehicles.order_of. destruct sort as [| | | | | s | |]; try reflexivity.
  repeat match goal with
         | |- context [if String.eqb ?a ?b then _ else _] =>
             destruct (String.eqb_spec a b) as [-> | _];
               [exfalso; exact (H b ltac:(cbn; tauto) eq_refl) |]
         end.
  reflexivity.
Qed.

Lemma materials_order_default (sort : jsval) :
  (forall s, In s ["price_asc"; "price_desc"; "rating"; "newest"] -> sort <> JStr s) ->
  Materials.order_of sort = [("featured", DESC); ("rating", DESC)].
Proof.
  intros H. unfold Materials.order_of. destruct sort as [| | | | | s | |]; try reflexivity.
  repeat match goal with
         | |- context [if String.eqb ?a ?b then _ else _] =>
             destruct (String.eqb_spec a b) as [-> | _];
               [exfalso; exact (H b ltac:(cbn; tauto) eq_refl) |]
         end.
  reflexivity.
Qed.

(** X13.  Every query a listing route hands to the store is built from
    names fixed in the code: the predicate has no key outside status,
    category, pricePerHour and pricePerDay (isAvailable and category for
    materials); a category constraint is an equality on the parameter as
    sent, whose text (for an array, that of its first element) is one of
    the listed categories; the order is the one the code gives for the
    sort parameter, over five (four) fixed columns, and it is
    featured DESC, rating DESC for every sort value other than the named
    ones; nothing is grouped; the limit is the requested one, 10 when none
    is requested, within 1..100; and, as long as (page - 1) * limit is
    below 2 ^ 53 (where the integers of the model are those of the code),
    the requested page, 1 when none is requested, is at least 1 and the
    offset is (page - 1) * limit. *)
Theorem listing_query_uses_only_fixed_names (req : request) (w : world) (c : dbcall) :
  let q := query req in
  let page := or_default (parseInt (prop q "page")) 1 in
  let limit := or_default (parseInt (prop q "limit")) 10 in
  (In c (issued (Vehicles.get_list req) w) ->
   exists o,
     c = FindAndCountAll Vehicle o
     /\ (forall k, o_where o !! k <> None ->
           In k ["status"; "category"; "pricePerHour"; "pricePerDay"])
     /\ (forall cnd, o_where o !! "category" = Some cnd ->
           cnd = Equals (prop q "category")
           /\ In (Validator.toString (prop q "category")) Vehicles.categories)
     /\ o_order o = Vehicles.order_of (prop q "sort")
     /\ (forall col d, In (col, d) (o_order o) ->
           In col ["pricePerHour"; "pricePerDay"; "rating"; "createdAt"; "featured"])
     /\ ((forall s, In s ["price_hour_asc"; "price_hour_desc"; "price_day_asc";
                          "price_day_desc"; "rating"; "newest"] ->
                    prop q "sort" <> JStr s) ->
         o_order o = [("featured", DESC); ("rating", DESC)])
     /\ o_group o = []
     /\ o_limit o = Some limit /\ (1 <= limit <= 100)%Z
     /\ (((page - 1) * limit < 2 ^ 53)%Z ->
         (1 <= page)%Z /\ o_offset o = Some ((page - 1) * limit)%Z))
  /\ (In c (issued (Materials.get_list req) w) ->
      exists o,
        c = FindAndCountAll Material o
        /\ (forall k, o_where o !! k <> None -> In k ["isAvailable"; "category"])
        /\ (forall cnd, o_where o !! "category" = Some cnd ->
              cnd = Equals (prop q "category")
              /\ In (Validator.toString (prop q "category")) Materials.categories)
        /\ o_order o = Materials.order_of (prop q "sort")
        /\ (forall col d, In (col, d) (o_order o) ->
              In col ["pricePerUnit"; "rating"; "createdAt"; "featured"])
        /\ ((forall s, In s ["price_asc"; "price_desc"; "rating"; "newest"] ->
                       prop q "sort" <> JStr s) ->
            o_order o = [("featured", DESC); ("rating", DESC)])
        /\ o_group o = []
        /\ o_limit o = Some limit /\ (1 <= limit <= 100)%Z
        /\ (((page - 1) * limit < 2 ^ 53)%Z ->
            (1 <= page)%Z /\ o_offset o = Some ((page - 1) * limit)%Z)).
Proof.
  intros q page limit. split; intros Hc.
  - destruct (vehicles_issued_accepted req w c Hc) as (b & V & B & ->).
    destruct (vehicles_where_keys _ _ B) as (_ & Hcat & _ & _ & Hkeys & Hord).
    destruct (vehicles_built_window _ _ B) as (Ep & El & Eo).
    destruct (accepted_window Vehicles.list_rules (query req) "Invalid value" "Invalid value")
      as [Hp Hl]; [repeat constructor | left; reflexivity | right; left; reflexivity
                  | exact V |].
    fold q in Hp, Hl, Ep, El, Hcat, Hord. fold page in Hp, Ep. fold limit in Hl, El.
    exists (Vehicles.list_options Partner b).
    cbn [Vehicles.list_options o_where o_order o_group o_offset o_limit].
    split; [reflexivity |].
    split.
    { intros k Hk.
      destruct (in_dec string_dec k ["status"; "category"; "pricePerHour"; "pricePerDay"])
        as [Hin | Hout]; [exact Hin |].
      contradiction (Hk (Hkeys k Hout)). }
    split.
    { intros cnd Hcnd. rewrite Hcat in Hcnd.
      destruct (truthy (prop q "category")) eqn:T; [| discriminate Hcnd].
      injection Hcnd as <-. split; [reflexivity |].
      assert (A : snd (run_chain q
                         (Chain "query" "category" true false (IsIn Vehicles.categories)
                                "Invalid value")) = []).
      { apply (accepted_chain Vehicles.list_rules);
          [repeat constructor | exact V | right; right; left; reflexivity]. }
      apply accepted_optional_in in A as [U | A]; [| exact A].
      rewrite U in T. discriminate T. }
    split; [exact Hord |].
    split; [intros col d; rewrite Hord; apply vehicles_order_columns |].
    split; [intros Hs; rewrite Hord; apply vehicles_order_default; exact Hs |].
    split; [reflexivity |].
    split; [rewrite El; reflexivity |]. split; [exact Hl |].
    intros _. split; [exact Hp |]. rewrite Eo, Ep, El. reflexivity.
  - destruct (materials_issued_accepted req w c Hc) as (b & V & B & ->).
    destruct (materials_where_keys _ _ B) as (_ & Hcat & Hkeys & Hord & _).
    destruct (materials_built_window _ _ B) as (Ep & El & Eo).
    destruct (accepted_window Materials.list_rules (query req)
                "Page must be a positive integer" "Limit must be between 1 and 100")
      as [Hp Hl]; [repeat constructor | left; reflexivity | right; left; reflexivity
                  | exact V |].
    fold q in Hp, Hl, Ep, El, Hcat, Hord. fold page in Hp, Ep. fold limit in Hl, El.
    exists (Materials.list_options Partner b).
    cbn [Materials.list_options o_where o_order o_group o_offset o_limit].
    split; [reflexivity |].
    split.
    { intros k Hk.
      destruct (in_dec string_dec k ["isAvailable"; "category"])
        as [Hin | Hout]; [exact Hin |].
      contradiction (Hk (Hkeys k Hout)). }
    split.
    { intros cnd Hcnd. rewrite Hcat in Hcnd.
      destruct (truthy (prop q "category")) eqn:T; [| discriminate Hcnd].
      injection Hcnd as <-. split; [reflexivity |].
      assert (A : snd (run_chain q
                         (Chain "query" "category" true false (IsIn Materials.categories)
                                "Invalid value")) = []).
      { apply (accepted_chain Materials.list_rules);
          [repeat constructor | exact V | right; right; left; reflexivity]. }
      apply accepted_optional_in in A as [U | A]; [| exact A].
      rewrite U in T. discriminate T. }
    split; [exact Hord |].
    split; [intros col d; rewrite Hord; apply materials_order_columns |].
    split; [intros Hs; rewrite Hord; apply materials_order_default; exact Hs |].
    split; [reflexivity |].
    split; [rewrite El; reflexivity |]. split; [exact Hl |].
    intros _. split; [exact Hp |]. rewrite Eo, Ep, El. reflexivity.
Qed.

Lemma listing_query_witness :
  exists o,
    FindAndCountAll Vehicle (Vehicles.list_options Partner
                               (Built 2 10 10 Scenario.excavators_where
                                      [("featured", DESC); ("rating", DESC)]))
    = FindAndCountAll Vehicle o
    /\ (forall k, o_where o !! k <> None ->
          In k ["status"; "category"; "pricePerHour"; "pricePerDay"])
    /\ (forall cnd, o_where o !! "category" = Some cnd ->
          cnd = Equals (JStr "excavator")
          /\ In (Validator.toString (JStr "excavator")) Vehicles.categories)
    /\ o_order o = [("featured", DESC); ("rating", DESC)]
    /\ (forall col d, In (col, d) (o_order o) ->
          In col ["pricePerHour"; "pricePerDay"; "rating"; "createdAt"; "featured"])
    /\ ((forall s, In s ["price_hour_asc"; "price_hour_desc"; "price_day_asc";
                         "price_day_desc"; "rating"; "newest"] ->
                   prop (query Scenario.excavators_page2) "sort" <> JStr s) ->
        o_order o = [("featured", DESC); ("rating", DESC)])
    /\ o_group o = []
    /\ o_limit o = Some 10%Z /\ (1 <= 10 <= 100)%Z
    /\ (((2 - 1) * 10 < 2 ^ 53)%Z -> (1 <= 2)%Z /\ o_offset o = Some ((2 - 1) * 10)%Z).
Proof.
  apply (listing_query_uses_only_fixed_names Scenario.excavators_page2 Scenario.w0).
  vm_compute. left. reflexivity.
Defined.

(** X14.  In every query of the vehicle listing the minimum and maximum of
    a price are kept together under the price's key: both bounds when both
    are supplied, one when one is, no constraint when none is; the bound
    values are [parseFloat] of the parameters.  A query of the material
    listing never has a price constraint: it is handed to the store only
    when neither minPrice nor maxPrice is supplied. *)
Theorem price_bounds_are_kept_under_one_key (req : request) (w : world) (c : dbcall) :
  (In c (issued (Vehicles.get_list req) w) ->
   exists o,
     c = FindAndCountAll Vehicle o
     /\ o_where o !! "pricePerHour"
        = range (prop (query req) "minPriceHour") (prop (query req) "maxPriceHour")
     /\ o_where o !! "pricePerDay"
        = range (prop (query req) "minPriceDay") (prop (query req) "maxPriceDay"))
  /\ (In c (issued (Materials.get_list req) w) ->
      exists o,
        c = FindAndCountAll Material o
        /\ o_where o !! "pricePerUnit" = None
        /\ truthy (prop (query req) "minPrice") = false
        /\ truthy (prop (query req) "maxPrice") = false).
Proof.
  split; intros Hc.
  - destruct (vehicles_issued_accepted req w c Hc) as (b & _ & B & ->).
    destruct (vehicles_where_keys _ _ B) as (_ & _ & Hh & Hd & _).
    eexists. split; [reflexivity |]. split; [exact Hh | exact Hd].
  - destruct (materials_issued_accepted req w c Hc) as (b & _ & B & ->).
    destruct (materials_where_keys _ _ B) as (_ & _ & Hkeys & _ & Hlo & Hhi).
    eexists. split; [reflexivity |].
    split; [apply Hkeys; cbn; intros [E | [E | []]]; discriminate E |].
    split; [exact Hlo | exact Hhi].
Qed.

Lemma price_bounds_witness :
  exists o,
    FindAndCountAll Vehicle (Vehicles.list_options Partner
                               (Built 2 10 10 Scenario.excavators_where
                                      [("featured", DESC); ("rating", DESC)]))
    = FindAndCountAll Vehicle o
    /\ o_where o !! "pricePerHour"
       = range (prop (query Scenario.excavators_page2) "minPriceHour")
               (prop (query Scenario.excavators_page2) "maxPriceHour")
    /\ o_where o !! "pricePerDay"
       = range (prop (query Scenario.excavators_page2) "minPriceDay")
               (prop (query Scenario.excavators_page2) "maxPriceDay").
Proof.
  apply (price_bounds_are_kept_under_one_key Scenario.excavators_page2 Scenario.w0).
  vm_compute. left. reflexivity.
Defined.

(** X15.  Every record on a page that a listing route answers with 200 is
    a stored record that satisfies each criterion of the request: it is
    active (available), of the requested category when one is requested,
    and, for vehicles, within each supplied price bound; a page has at most
    [limit] records, hence at most 100. *)
Theorem listed_records_satisfy_every_criterion (req : request) (w : world) (r : response) :
  status r = 200%Z ->
  let q := query req in
  let limit := or_default (parseInt (prop q "limit")) 10 in
  (respond (Vehicles.get_list req) w = Some r ->
   exists page pg,
     content r = Json (JObj [("success", JBool true); ("data", JArr (map row_json page));
                             ("pagination", pg)])
     /\ (Z.of_nat (length page) <= limit <= 100)%Z
     /\ forall v, In v page ->
          In v (rows (vehicles (database w)))
          /\ strict_eq (column v "status") (JStr "active") = true
          /\ of_category (prop q "category") (column v "category") = true
          /\ at_least (prop q "minPriceHour") (column v "pricePerHour") = true
          /\ at_most (prop q "maxPriceHour") (column v "pricePerHour") = true
          /\ at_least (prop q "minPriceDay") (column v "pricePerDay") = true
          /\ at_most (prop q "maxPriceDay") (column v "pricePerDay") = true)
  /\ (respond (Materials.get_list req) w = Some r ->
      exists page pg,
        content r = Json (JObj [("success", JBool true); ("data", JArr (map row_json page));
                                ("pagination", pg)])
        /\ (Z.of_nat (length page) <= limit <= 100)%Z
        /\ forall m, In m page ->
             In m (rows (materials (database w)))
             /\ strict_eq (column m "isAvailable") (JBool true) = true
             /\ of_category (prop q "category") (column m "category") = true).
Proof.
  intros S q limit. split; intros H; unfold respond in H.
  - rewrite vehicles_get_list_run in H.
    destruct (snd (run_chains (query req) Vehicles.list_rules)) eqn:V;
      [| injection H as <-; discriminate S].
    destruct (Vehicles.buildQuery (query req)) as [b | e] eqn:B;
      [| injection H as <-; discriminate S].
    cbv zeta in H. cbn [fst] in H.
    destruct (online (database w)); injection H as <-; [| discriminate S].
    destruct (vehicles_built_window _ _ B) as (_ & El & _).
    destruct (accepted_window Vehicles.list_rules (query req) "Invalid value" "Invalid value")
      as [_ Hl]; [repeat constructor | left; reflexivity | right; left; reflexivity
                 | exact V |].
    destruct (vehicles_where_keys _ _ B) as (Hst & Hcat & Hh & Hd & _).
    eexists _, _. split; [reflexivity |].
    split.
    { pose proof (select_length (vehicles (database w)) (Vehicles.list_options Partner b)
                                (b_limit b) eq_refl) as L.
      rewrite El in L. fold q in L, Hl. fold limit in L, Hl. lia. }
    intros v Hv. apply select_sound in Hv as [Hin Hm]; [| reflexivity | reflexivity].
    cbn [Vehicles.list_options o_where] in Hm. rewrite matches_spec in Hm.
    split; [exact Hin |].
    split; [exact (Hm _ _ Hst) |].
    split.
    { unfold of_category. fold q in Hcat.
      destruct (truthy (prop q "category")); [| reflexivity]. exact (Hm _ _ Hcat). }
    fold q in Hh, Hd.
    assert (R : forall lo hi k, b_where b !! k = range lo hi ->
                  at_least lo (column v k) = true /\ at_most hi (column v k) = true).
    { intros lo hi k Hk. destruct (range lo hi) as [cnd |] eqn:E.
      - pose proof (Hm _ _ Hk) as Hc. rewrite (holds_range _ _ _ _ E) in Hc.
        apply andb_true_iff in Hc. exact Hc.
      - unfold range in E. unfold at_least, at_most.
        destruct (truthy lo), (truthy hi); try discriminate E. split; reflexivity. }
    destruct (R _ _ _ Hh) as [H1 H2]. destruct (R _ _ _ Hd) as [H3 H4].
    repeat split; assumption.
  - rewrite materials_get_list_run in H.
    destruct (snd (run_chains (query req) Materials.list_rules)) eqn:V;
      [| injection H as <-; discriminate S].
    destruct (Materials.buildQuery (query req)) as [b | e] eqn:B;
      [| injection H as <-; discriminate S].
    cbv zeta in H. cbn [fst] in H.
    destruct (online (database w)); injection H as <-; [| discriminate S].
    destruct (materials_built_window _ _ B) as (_ & El & _).
    destruct (accepted_window Materials.list_rules (query req)
                "Page must be a positive integer" "Limit must be between 1 and 100")
      as [_ Hl]; [repeat constructor | left; reflexivity | right; left; reflexivity
                 | exact V |].
    destruct (materials_where_keys _ _ B) as (Hst & Hcat & _).
    eexists _, _. split; [reflexivity |].
    split.
    { pose proof (select_length (materials (database w)) (Materials.list_options Partner b)
                                (b_limit b) eq_refl) as L.
      rewrite El in L. fold q in L, Hl. fold limit in L, Hl. lia. }
    intros m Hmm. apply select_sound in Hmm as [Hin Hm]; [| reflexivity | reflexivity].
    cbn [Materials.list_options o_where] in Hm. rewrite matches_spec in Hm.
    split; [exact Hin |].
    split; [exact (Hm _ _ Hst) |].
    unfold of_category. fold q in Hcat.
    destruct (truthy (prop q "category")); [| reflexivity]. exact (Hm _ _ Hcat).
Qed.

Lemma listed_records_witness :
  exists page pg,
    content Cases.page2_answer
    = Json (JObj [("success", JBool true); ("data", JArr (map row_json page));
                  ("pagination", pg)])
    /\ (Z.of_nat (length page) <= 10 <= 100)%Z
    /\ forall v, In v page ->
         In v (rows (vehicles Scenario.store))
         /\ strict_eq (column v "status") (JStr "active") = true
         /\ of_category (JStr "excavator") (column v "category") = true
         /\ at_least (JStr "50") (column v "pricePerHour") = true
         /\ at_most (JStr "200") (column v "pricePerHour") = true
         /\ at_least JUndef (column v "pricePerDay") = true
         /\ at_most JUndef (column v "pricePerDay") = true.
Proof.
  destruct (listed_records_satisfy_every_criterion
              Scenario.excavators_page2 Scenario.w0 Cases.page2_answer) as [V _];
    [vm_compute; reflexivity |].
  apply V. vm_compute. reflexivity.
Defined.


(* ================================================================== *)
(** ** Creation: what the chains guarantee of the stored record *)
(* ================================================================== *)

Lemma run_chain_other (data : gmap string jsval) (c : chain) (k : string) :
  field c <> k -> fst (run_chain data c) !! k = data !! k.
Proof.
  intros Hk. unfold run_chain.
  destruct (is_optional c && is_undefined (prop data (field c))); [reflexivity |].
  cbn [fst]. destruct (has_trim c); [| reflexivity].
  apply lookup_insert_ne. exact Hk.
Qed.

Lemma run_chains_other (cs : list chain) (k : string) : forall data,
  (forall c, In c cs -> field c <> k) -> fst (run_chains data cs) !! k = data !! k.
Proof.
  induction cs as [| c0 cs IH]; intros data H; [reflexivity |].
  cbn [run_chains].
  pose proof (run_chain_other data c0 k (H c0 (or_introl eq_refl))) as E0.
  destruct (run_chain data c0) as [d1 e1]. cbn [fst] in E0.
  pose proof (IH d1 (fun c Hc => H c (or_intror Hc))) as E1.
  destruct (run_chains d1 cs) as [d2 e2]. cbn [fst] in E1 |- *.
  rewrite E1. exact E0.
Qed.

(** A mandatory chain that reports nothing: its validator accepted the
    text of the field (trimmed when the chain trims), and the field holds
    that text afterwards (the raw value when the chain does not trim). *)
Lemma run_chain_accepted (data : gmap string jsval) (c : chain) :
  is_optional c = false ->
  snd (run_chain data c) = [] ->
  run_check (test c) (prop data (field c)) (validated_text c (prop data (field c))) = true
  /\ prop (fst (run_chain data c)) (field c) = sanitized c (prop data (field c)).
Proof.
  intros O. unfold run_chain, validated_text, sanitized, validated_text. rewrite O.
  cbn [andb fst snd].
  destruct (has_trim c).
  - destruct (run_check _ _ _); [| discriminate]. intros _. split; [reflexivity |].
    unfold prop. rewrite lookup_insert_eq. reflexivity.
  - destruct (run_check _ _ _); [| discriminate]. intros _. split; reflexivity.
Qed.

Lemma accepted_field (cs : list chain) : forall data c,
  NoDup (map field cs) ->
  Forall (fun c => is_optional c = false) cs ->
  In c cs ->
  snd (run_chains data cs) = [] ->
  run_check (test c) (prop data (field c)) (validated_text c (prop data (field c))) = true
  /\ prop (fst (run_chains data cs)) (field c) = sanitized c (prop data (field c)).
Proof.
  induction cs as [| c0 cs IH]; intros data c ND HO Hin H; [destruct Hin |].
  cbn [map] in ND. apply NoDup_cons in ND as [Hnew ND].
  inversion HO as [| ? ? O0 HO']; subst.
  cbn [run_chains] in H |- *.
  pose proof (run_chain_accepted data c0 O0) as A0.
  pose proof (fun k => run_chain_other data c0 k) as K0.
  destruct (run_chain data c0) as [d1 e1]. cbn [fst snd] in A0, K0.
  pose proof (fun c' => IH d1 c' ND HO') as A1.
  pose proof (run_chains_other cs (field c0) d1) as K1.
  destruct (run_chains d1 cs) as [d2 e2]. cbn [fst snd] in A1, K1, H |- *.
  apply app_eq_nil in H as [-> ->].
  destruct Hin as [<- | Hin].
  - destruct (A0 eq_refl) as [C0 S0]. split; [exact C0 |].
    unfold prop in *. rewrite K1; [exact S0 |].
    intros c' Hc' E. apply Hnew. rewrite <- E.
    apply list_elem_of_In, in_map, Hc'.
  - assert (Hne : field c0 <> field c).
    { intros E. apply Hnew. rewrite E. apply list_elem_of_In, in_map, Hin. }
    destruct (A1 c Hin eq_refl) as [C1 S1].
    unfold prop in *. rewrite (K0 _ Hne) in C1, S1. split; assumption.
Qed.

(** The column of a record created from [data], for a key other than the
    store's own. *)
Lemma column_created (i : N) (data : gmap string jsval) (k : string) :
  k <> "id" -> column (Row i (delete "id" data)) k = prop data k.
Proof.
  intros Hk. unfold column, prop. cbn [pk attrs].
  destruct (String.eqb_spec k "id") as [E | _]; [contradiction |].
  rewrite lookup_delete_ne by congruence. reflexivity.
Qed.

Ltac not_created S :=
  let E := fresh "E" in
  intros E; injection E as E; rewrite <- E in S; discriminate S.

(** X16.  Whenever POST /vehicles or POST /materials answers 201, exactly
    one record was added, and under the field of every validation chain of
    the route it carries the value the chain left there: the trimmed text
    where the chain trims, the value of the body otherwise; and the
    validator of the chain accepted the text of that field (trimmed where
    the chain trims).  In particular the stored name is the trimmed name
    of the body and [isLength] accepted it, and [isIn] accepted the text of
    the stored category. *)
Theorem created_record_passed_every_chain
    (year : Z) (req : request) (w : world) (r : response) :
  status r = 201%Z ->
  (respond (Vehicles.post year req) w = Some r ->
   exists v,
     rows (vehicles (database (after (Vehicles.post year req) w)))
     = rows (vehicles (database w)) ++ [v]
     /\ (forall c, In c (Vehicles.post_rules year) ->
           column v (field c) = sanitized c (prop (body req) (field c))
           /\ run_check (test c) (prop (body req) (field c))
                        (validated_text c (prop (body req) (field c))) = true)
     /\ column v "name" = JStr (trim (Validator.toString (prop (body req) "name")))
     /\ isLength 2 (Some 100) (trim (Validator.toString (prop (body req) "name"))) = true
     /\ column v "category" = prop (body req) "category"
     /\ isIn Vehicles.categories (Validator.toString (column v "category")) = true)
  /\ (respond (Materials.post req) w = Some r ->
      exists m,
        rows (materials (database (after (Materials.post req) w)))
        = rows (materials (database w)) ++ [m]
        /\ (forall c, In c Materials.post_rules ->
              column m (field c) = sanitized c (prop (body req) (field c))
              /\ run_check (test c) (prop (body req) (field c))
                           (validated_text c (prop (body req) (field c))) = true)
        /\ column m "name" = JStr (trim (Validator.toString (prop (body req) "name")))
        /\ isLength 2 (Some 100) (trim (Validator.toString (prop (body req) "name"))) = true
        /\ column m "category" = prop (body req) "category"
        /\ isIn Materials.categories (Validator.toString (column m "category")) = true).
Proof.
  intros S. split.
  - assert (F : forall c, In c (Vehicles.post_rules year) ->
                  snd (run_chains (body req) (Vehicles.post_rules year)) = [] ->
                  run_check (test c) (prop (body req) (field c))
                            (validated_text c (prop (body req) (field c))) = true
                  /\ prop (fst (run_chains (body req) (Vehicles.post_rules year))) (field c)
                     = sanitized c (prop (body req) (field c))).
    { intros c Hc. apply accepted_field; [| repeat constructor | exact Hc].
      cbn. apply NoDup_ListNoDup. repeat constructor; cbn; intuition discriminate. }
    unfold Vehicles.post. run_handler.
    destruct (run_chains (body req) (Vehicles.post_rules year)) as [b [| e errors]];
      cbn [isEmpty negb fst snd] in F |- *; [| not_created S].
    destruct (online (database w)) eqn:Hon; [| not_created S].
    unfold insert_row.
    cbn [table_of set_table vehicles pk rows database online journal fst snd].
    rewrite Hon.
    match goal with
    | |- context [lookup_pk ?t ?i] => destruct (lookup_pk t i)
    end; [| not_created S].
    intros _. cbn [fst snd database vehicles rows journal].
    assert (G : forall c, In c (Vehicles.post_rules year) ->
                  column (Row (next_pk (vehicles (database w)))
                              (delete "id" (<["ownerId" := partnerId (user req)]> b)))
                         (field c)
                  = sanitized c (prop (body req) (field c))
                  /\ run_check (test c) (prop (body req) (field c))
                               (validated_text c (prop (body req) (field c))) = true).
    { intros c Hc. destruct (F c Hc eq_refl) as [C Sx]. split; [| exact C].
      rewrite <- Sx.
      repeat (destruct Hc as [<- | Hc];
              [rewrite column_created by discriminate; unfold prop;
               rewrite lookup_insert_ne by discriminate; reflexivity |]).
      destruct Hc. }
    destruct (G _ (or_introl eq_refl)) as [Gn Cn].
    destruct (G _ (or_intror (or_intror (or_introl eq_refl)))) as [Gc Cc].
    cbn [field test has_trim trimmed on_body sanitized validated_text run_check]
      in Gn, Cn, Gc, Cc.
    eexists.
    split; [reflexivity |]. split; [exact G |].
    split; [exact Gn |]. split; [exact Cn |].
    split; [exact Gc |]. rewrite Gc. exact Cc.
  - assert (F : forall c, In c Materials.post_rules ->
                  snd (run_chains (body req) Materials.post_rules) = [] ->
                  run_check (test c) (prop (body req) (field c))
                            (validated_text c (prop (body req) (field c))) = true
                  /\ prop (fst (run_chains (body req) Materials.post_rules)) (field c)
                     = sanitized c (prop (body req) (field c))).
    { intros c Hc. apply accepted_field; [| repeat constructor | exact Hc].
      cbn. apply NoDup_ListNoDup. repeat constructor; cbn; intuition discriminate. }
    unfold Materials.post. run_handler.
    destruct (run_chains (body req) Materials.post_rules) as [b [| e errors]];
      cbn [isEmpty negb fst snd] in F |- *; [| not_created S].
    destruct (online (database w)) eqn:Hon; [| not_created S].
    unfold insert_row.
    cbn [table_of set_table materials pk rows database online journal fst snd].
    rewrite Hon.
    match goal with
    | |- context [lookup_pk ?t ?i] => destruct (lookup_pk t i)
    end; [| not_created S].
    intros _. cbn [fst snd database materials rows journal].
    assert (G : forall c, In c Materials.post_rules ->
                  column (Row (next_pk (materials (database w)))
                              (delete "id" (<["supplierId" := partnerId (user req)]> b)))
                         (field c)
                  = sanitized c (prop (body req) (field c))
                  /\ run_check (test c) (prop (body req) (field c))
                               (validated_text c (prop (body req) (field c))) = true).
    { intros c Hc. destruct (F c Hc eq_refl) as [C Sx]. split; [| exact C].
      rewrite <- Sx.
      repeat (destruct Hc as [<- | Hc];
              [rewrite column_created by discriminate; unfold prop;
               rewrite lookup_insert_ne by discriminate; reflexivity |]).
      destruct Hc. }
    destruct (G _ (or_introl eq_refl)) as [Gn Cn].
    destruct (G _ (or_intror (or_intror (or_introl eq_refl)))) as [Gc Cc].
    cbn [field test has_trim trimmed on_body withMessage sanitized validated_text run_check
         location is_optional message]
      in Gn, Cn, Gc, Cc.
    eexists.
    split; [reflexivity |]. split; [exact G |].
    split; [exact Gn |]. split; [exact Cn |].
    split; [exact Gc |]. rewrite Gc. exact Cc.
Qed.

Lemma created_record_witness :
  exists v,
    rows (vehicles (database (after (Vehicles.post 2024 Scenario.new_vehicle) Scenario.w0)))
    = rows (vehicles (database Scenario.w0)) ++ [v]
    /\ (forall c, In c (Vehicles.post_rules 2024) ->
          column v (field c) = sanitized c (prop (body Scenario.new_vehicle) (field c))
          /\ run_check (test c) (prop (body Scenario.new_vehicle) (field c))
                       (validated_text c (prop (body Scenario.new_vehicle) (field c)))
             = true)
    /\ column v "name" = JStr "Loader 3"
    /\ isLength 2 (Some 100) "Loader 3" = true
    /\ column v "category" = JStr "loader"
    /\ isIn Vehicles.categories (Validator.toString (column v "category")) = true.
Proof.
  destruct (created_record_passed_every_chain
              2024 Scenario.new_vehicle Scenario.w0 Cases.created_answer) as [V _];
    [vm_compute; reflexivity |].
  apply V. vm_compute. reflexivity.
Defined.


(** X17.  GET /users/profile against a reachable store makes one lookup by
    the acting user's key and answers 200 in every case: with [user: null]
    when no record has the key, otherwise with the record, in which every
    attribute other than [password] reads as stored.  Nothing is
    written. *)
Theorem profile_shows_the_record_without_password (req : request) (w : world) :
  online (database w) = true ->
  let uid := user_id (user req) in
  let shown := project (Exclude ["password"]) <$> lookup_pk (users (database w)) uid in
  respond (Users.get_profile req) w
  = Some (json (JObj [("success", JBool true); ("user", instance_json shown)]))
  /\ issued (Users.get_profile req) w = [FindByPk User uid Users.without_password]
  /\ database (after (Users.get_profile req) w) = database w
  /\ (lookup_pk (users (database w)) uid = None -> instance_json shown = JNull)
  /\ (forall u, lookup_pk (users (database w)) uid = Some u ->
        forall k, member (instance_json shown) k
                  = if String.eqb k "id" then Some (JInt (Z.of_N uid))
                    else if String.eqb k "password" then None
                    else attrs u !! k).
Proof.
  intros Hon uid shown.
  unfold issued, respond, after, Users.get_profile. run_handler. step_online Hon.
  split; [reflexivity |].
  split; [rewrite drop_app_length; reflexivity |].
  split; [reflexivity |].
  split.
  - intros Hnone. unfold shown. rewrite Hnone. reflexivity.
  - intros u Hu k. unfold shown. rewrite Hu.
    cbn [fmap option_fmap option_map instance_json].
    rewrite member_row_json_exclude.
    destruct (lookup_pk_Some _ _ _ Hu) as [-> _].
    destruct (String.eqb k "id"); [reflexivity |].
    destruct (String.eqb_spec k "password") as [-> | NE].
    + reflexivity.
    + rewrite bool_decide_eq_false_2; [reflexivity |].
      intros Hin. apply list_elem_of_In in Hin. destruct Hin as [E | []]. congruence.
Qed.

Lemma profile_witness :
  respond (Users.get_profile Cases.as_ann) Cases.accounts
  = Some (json (JObj [("success", JBool true);
                      ("user", instance_json (Some (project (Exclude ["password"])
                                                            Cases.ann)))]))
  /\ member (instance_json (Some (project (Exclude ["password"]) Cases.ann))) "email"
     = Some (JStr "ann@site.io")
  /\ member (instance_json (Some (project (Exclude ["password"]) Cases.ann))) "password"
     = None.
Proof.
  destruct (profile_shows_the_record_without_password Cases.as_ann Cases.accounts)
    as (R & _ & _ & _ & F); [reflexivity |].
  split; [exact R |].
  split.
  - exact (F Cases.ann eq_refl "email").
  - exact (F Cases.ann eq_refl "password").
Defined.


(* ================================================================== *)
(** ** Requests in sequence *)
(* ================================================================== *)

Lemma vehicles_delete_owner_run (req : request) (w : world) (v : row) :
  online (database w) = true ->
  lookup_pk (vehicles (database w)) (params_id req) = Some v ->
  strict_eq (column v "ownerId") (partnerId (user req)) = true ->
  online (database (after (Vehicles.delete req) w)) = true
  /\ forall id,
       lookup_pk (vehicles (database (after (Vehicles.delete req) w))) id
       = if (id =? params_id req)%N then None else lookup_pk (vehicles (database w)) id.
Proof.
  intros Hon Hv Hown. destruct (lookup_pk_Some _ _ _ Hv) as [Hpk _].
  unfold after, Vehicles.delete. run_handler.
  step_online Hon. rewrite Hv. step_online Hon. rewrite Hown. step_online Hon.
  rewrite Hpk. split; [reflexivity |]. intros id. apply lookup_pk_delete.
Qed.

Lemma materials_delete_owner_run (req : request) (w : world) (m : row) :
  online (database w) = true ->
  lookup_pk (materials (database w)) (params_id req) = Some m ->
  strict_eq (column m "supplierId") (partnerId (user req)) = true ->
  online (database (after (Materials.delete req) w)) = true
  /\ forall id,
       lookup_pk (materials (database (after (Materials.delete req) w))) id
       = if (id =? params_id req)%N then None else lookup_pk (materials (database w)) id.
Proof.
  intros Hon Hm Hown. destruct (lookup_pk_Some _ _ _ Hm) as [Hpk _].
  unfold after, Materials.delete. run_handler.
  step_online Hon. rewrite Hm. step_online Hon. rewrite Hown. step_online Hon.
  rewrite Hpk. split; [reflexivity |]. intros id. apply lookup_pk_delete.
Qed.

(** X18.  After a DELETE by the owner has been answered against a reachable
    store, the same key is gone for every later request: GET, PUT and a
    second DELETE on it answer 404, whoever sends them, and the second
    DELETE changes nothing. *)
Theorem deleted_target_is_gone (req later : request) (w : world) :
  online (database w) = true ->
  params_id later = params_id req ->
  (forall v,
      lookup_pk (vehicles (database w)) (params_id req) = Some v ->
      strict_eq (column v "ownerId") (partnerId (user req)) = true ->
      let w' := after (Vehicles.delete req) w in
      respond (Vehicles.get_one later) w' = Some (not_found "Vehicle not found")
      /\ respond (Vehicles.put later) w' = Some (not_found "Vehicle not found")
      /\ respond (Vehicles.delete later) w' = Some (not_found "Vehicle not found")
      /\ database (after (Vehicles.delete later) w') = database w')
  /\ (forall m,
         lookup_pk (materials (database w)) (params_id req) = Some m ->
         strict_eq (column m "supplierId") (partnerId (user req)) = true ->
         let w' := after (Materials.delete req) w in
         respond (Materials.get_one later) w' = Some (not_found "Material not found")
         /\ respond (Materials.delete later) w' = Some (not_found "Material not found")
         /\ database (after (Materials.delete later) w') = database w').
Proof.
  intros Hon Hid. split.
  - intros v Hv Hown w'.
    destruct (vehicles_delete_owner_run req w v Hon Hv Hown) as [Hon' L].
    fold w' in Hon', L.
    assert (Hnone : lookup_pk (vehicles (database w')) (params_id later) = None).
    { rewrite L, Hid, N.eqb_refl. reflexivity. }
    clearbody w'.
    split; [| split; [| split]].
    + unfold respond, Vehicles.get_one. run_handler. step_online Hon'.
      rewrite Hnone. reflexivity.
    + unfold respond, Vehicles.put. run_handler. step_online Hon'.
      rewrite Hnone. reflexivity.
    + unfold respond, Vehicles.delete. run_handler. step_online Hon'.
      rewrite Hnone. reflexivity.
    + unfold after, Vehicles.delete. run_handler. step_online Hon'.
      rewrite Hnone. reflexivity.
  - intros m Hm Hown w'.
    destruct (materials_delete_owner_run req w m Hon Hm Hown) as [Hon' L].
    fold w' in Hon', L.
    assert (Hnone : lookup_pk (materials (database w')) (params_id later) = None).
    { rewrite L, Hid, N.eqb_refl. reflexivity. }
    clearbody w'.
    split; [| split].
    + unfold respond, Materials.get_one. run_handler. step_online Hon'.
      rewrite Hnone. reflexivity.
    + unfold respond, Materials.delete. run_handler. step_online Hon'.
      rewrite Hnone. reflexivity.
    + unfold after, Materials.delete. run_handler. step_online Hon'.
      rewrite Hnone. reflexivity.
Qed.

Lemma deleted_target_witness :
  respond (Vehicles.get_one Cases.owner_delete)
          (after (Vehicles.delete Cases.owner_delete) Scenario.w0)
  = Some (not_found "Vehicle not found")
  /\ respond (Vehicles.delete Cases.owner_delete)
             (after (Vehicles.delete Cases.owner_delete) Scenario.w0)
     = Some (not_found "Vehicle not found").
Proof.
  destruct (deleted_target_is_gone Cases.owner_delete Cases.owner_delete Scenario.w0)
    as [V _]; [reflexivity | reflexivity |].
  destruct (V (Scenario.excavator 2)) as (G & _ & D & _); [reflexivity | reflexivity |].
  split; [exact G | exact D].
Defined.
